(** * NGEN consultor: cost calculator, document extractor and report helpers

    A shallow embedding of the deterministic core of the repository
    (src/tools/cost_calculator.py, src/tools/document_extractor.py,
    src/utils/file_utils.py, src/utils/config.py and the reply parser and
    report loop of src/agents/description_agent.py), with the properties
    its specification states about them.

    Conventions of the embedding.
    - A Python [str] is a [string] whose characters are the code points
      below 256; the string methods used by the sources are defined in
      [PyStr] with Python's behaviour on that range.
    - A Python [dict] keyed by strings is a [gmap string _]; a dict with a
      fixed set of keys is a record.
    - A raised exception of class [Exception] is a value of [exn], one of
      the other classes a value of [base_exception]; a function that may
      raise returns a [result].  Calls to the external services and to the
      file system act on a state, [IO].  An exception of the other classes
      is considered where the program waits for an external service, not
      as the interrupt a signal may raise at any point of any function.
    - The numbers of the cost calculator are those of an interface,
      [PyNum]; its instance is Python's float, an IEEE 754 binary64 number.
      An int the sources write (0, the built-in rates) is taken as the
      float equal to it, as Python's [==] does.
    - What the program finds on disk (the rate file, the questioner
      document, the report store) is an argument of the function that
      reads it. *)

From Stdlib Require Import ZArith Ascii String.
From Stdlib Require Floats QArith.
From stdpp Require Import base option list gmap strings pretty.

Local Open Scope Z_scope.

(** ** Python string methods *)

Module PyStr.

Definition code (c : ascii) : N := N_of_ascii c.

(** [str.isspace] on one character: TAB..CR, FS..US, space, NEL, NBSP. *)
Definition isspace (c : ascii) : bool :=
  let n := code c in
  ((9 <=? n) && (n <=? 13) || (28 <=? n) && (n <=? 32)
   || (n =? 133) || (n =? 160))%N.

(** [str.lower] on one character: A..Z and the accented capitals
    U+00C0..U+00DE except the multiplication sign U+00D7. *)
Definition lower_char (c : ascii) : ascii :=
  let n := code c in
  if ((65 <=? n) && (n <=? 90)
      || (192 <=? n) && (n <=? 222) && negb (n =? 215))%N
  then ascii_of_N (n + 32) else c.

Fixpoint lower (s : string) : string :=
  match s with
  | EmptyString => EmptyString
  | String c s' => String (lower_char c) (lower s')
  end.

Definition is_empty (s : string) : bool :=
  match s with EmptyString => true | String _ _ => false end.

(** Truth value of a string in a condition: non-empty. *)
Definition truthy (s : string) : bool := negb (is_empty s).

Fixpoint lstrip (s : string) : string :=
  match s with
  | EmptyString => EmptyString
  | String c s' => if isspace c then lstrip s' else s
  end.

Fixpoint rstrip (s : string) : string :=
  match s with
  | EmptyString => EmptyString
  | String c s' =>
      let r := rstrip s' in
      if isspace c && is_empty r then EmptyString else String c r
  end.

(** [s.strip()] *)
Definition strip (s : string) : string := rstrip (lstrip s).

(** [s.startswith(p)] *)
Fixpoint startswith (p s : string) : bool :=
  match p, s with
  | EmptyString, _ => true
  | String _ _, EmptyString => false
  | String a p', String b s' =>
      if Ascii.eqb a b then startswith p' s' else false
  end.

(** [sub in s] *)
Fixpoint contains (sub s : string) : bool :=
  startswith sub s ||
  match s with
  | EmptyString => false
  | String _ s' => contains sub s'
  end.

Fixpoint drop (n : nat) (s : string) : string :=
  match n, s with
  | O, _ => s
  | S _, EmptyString => EmptyString
  | S n', String _ s' => drop n' s'
  end.

(** The leftmost occurrence of [sep] in [s]: the text before it and the
    text after it. *)
Fixpoint partition (sep s : string) : option (string * string) :=
  if startswith sep s then Some (EmptyString, drop (String.length sep) s)
  else
    match s with
    | EmptyString => None
    | String c s' =>
        match partition sep s' with
        | Some (a, b) => Some (String c a, b)
        | None => None
        end
    end.

(** [s.split(sep)] for a non-empty [sep]: cut at the leftmost occurrence
    and go on after it.  The counter bounds the number of cuts, and a
    string holds at most [length s] of them. *)
Fixpoint split_upto (n : nat) (sep s : string) : list string :=
  match n with
  | O => [s]
  | S n' =>
      match partition sep s with
      | Some (a, b) => a :: split_upto n' sep b
      | None => [s]
      end
  end.

Definition split (sep s : string) : list string :=
  split_upto (String.length s) sep s.

(** [s.replace(old, new)] for a non-empty [old]. *)
Fixpoint replace_upto (n : nat) (old new s : string) : string :=
  match n with
  | O => s
  | S n' =>
      match partition old s with
      | Some (a, b) => a +:+ new +:+ replace_upto n' old new b
      | None => s
      end
  end.

Definition replace (old new s : string) : string :=
  replace_upto (String.length s) old new s.

(** [s.split()]: the maximal runs of non-whitespace characters. *)
Fixpoint split_ws_go (cur : option string) (s : string) : list string :=
  match s with
  | EmptyString => option_list (String.rev <$> cur)
  | String c s' =>
      if isspace c
      then option_list (String.rev <$> cur) ++ split_ws_go None s'
      else split_ws_go
             (Some (String c (default EmptyString cur))) s'
  end.

Definition split_ws (s : string) : list string := split_ws_go None s.

(** [sep.join(l)] *)
Fixpoint join (sep : string) (l : list string) : string :=
  match l with
  | [] => EmptyString
  | [x] => x
  | x :: l' => x +:+ sep +:+ join sep l'
  end.

(** [any(k in s for k in keywords)] *)
Definition any_in (keywords : list string) (s : string) : bool :=
  existsb (fun k => contains k s) keywords.

(** The lines a text-mode file object yields: each ends with its
    newline, except possibly the last. *)
Fixpoint lines_go (cur : string) (s : string) : list string :=
  match s with
  | EmptyString =>
      if is_empty cur then [] else [String.rev cur]
  | String c s' =>
      if Ascii.eqb c "010"%char
      then String.rev (String c cur) :: lines_go EmptyString s'
      else lines_go (String c cur) s'
  end.

Definition lines (s : string) : list string := lines_go EmptyString s.

End PyStr.

(** ** Exceptions and results *)

(** The exceptions of class [Exception], the ones an [except Exception]
    clause catches. *)
Inductive exn : Type :=
| NameError (name : string)
| ValueError (msg : string)
| OSError (msg : string)
| Exception (msg : string).

(** The exceptions of class [BaseException] that are not of class
    [Exception]: an [except Exception] clause lets them through.  A
    cancelled task gets [asyncio.CancelledError] at its [await]. *)
Inductive base_exception : Type :=
| CancelledError
| KeyboardInterrupt
| SystemExit.

(** [str(e)] *)
Definition exn_str (e : exn) : string :=
  match e with
  | NameError name => "name '" +:+ name +:+ "' is not defined"
  | ValueError msg | OSError msg | Exception msg => msg
  end.

(** What a call does: it returns a value, or it raises. *)
Inductive result (A : Type) : Type :=
| Ok (a : A)
| Raise (e : exn)
| RaiseBase (b : base_exception).
Arguments Ok {A} a.
Arguments Raise {A} e.
Arguments RaiseBase {A} b.

Global Instance result_ret : MRet result := fun A a => Ok a.
Global Instance result_bind : MBind result := fun A B f m =>
  match m with
  | Ok a => f a
  | Raise e => Raise e
  | RaiseBase b => RaiseBase b
  end.

(** Computations that act on a state (the world of the external services,
    the file system): they read and change it and may raise. *)
Definition IO (W A : Type) : Type := W -> result A * W.

Global Instance io_ret {W} : MRet (IO W) := fun A a w => (Ok a, w).
Global Instance io_bind {W} : MBind (IO W) := fun A B f m w =>
  match m w with
  | (Ok a, w') => f a w'
  | (Raise e, w') => (Raise e, w')
  | (RaiseBase b, w') => (RaiseBase b, w')
  end.

(** A computation that leaves the state as it is. *)
Definition pure_io {W A} (r : result A) : IO W A := fun w => (r, w).

(** [try: body except Exception as e: handler(e)] *)
Definition try_except {W A} (body : IO W A) (handler : exn -> IO W A)
    : IO W A :=
  fun w =>
    match body w with
    | (Ok a, w') => (Ok a, w')
    | (Raise e, w') => handler e w'
    | (RaiseBase b, w') => (RaiseBase b, w')
    end.

Fixpoint io_for_each {W A S : Type} (body : S -> A -> IO W S) (l : list A)
    (acc : S) : IO W S :=
  match l with
  | [] => mret acc
  | x :: l' => acc' ← body acc x; io_for_each body l' acc'
  end.

(** [for x in l: acc = body(acc, x)], leaving the loop at the first
    exception. *)
Fixpoint for_each {A S : Type} (body : S -> A -> result S) (l : list A)
    (acc : S) : result S :=
  match l with
  | [] => Ok acc
  | x :: l' => acc' ← body acc x; for_each body l' acc'
  end.

(** ** Python numbers

    The sources compute with the numbers they are given: the rates are
    those of the built-in table or the floats [float] reads from the rate
    file, the hours are the caller's and are annotated [float].  The
    operations they use are the interface [PyNum]: on the numbers of one
    instance [*], [+] and [> 0] return and do not raise.  The instance is
    Python's float, [PyFloat]: its arithmetic is that of IEEE 754
    binary64 and raises nothing.  An int literal is the float equal to
    it. *)

Class PyNum (num : Type) : Type := {
  of_int : Z -> num;                      (* an int literal *)
  mul : num -> num -> num;                (* x * y *)
  add : num -> num -> num;                (* x + y *)
  gt0 : num -> bool;                      (* x > 0 *)
  parse_float : string -> option num;     (* float(s); None: ValueError *)
  format_money : num -> string;           (* f"{x:,.2f}" *)
  format_1f : num -> string               (* f"{x:.1f}" *)
}.

(** [float(s)] *)
Definition float `{PyNum num} (s : string) : result num :=
  match parse_float s with
  | Some x => Ok x
  | None =>
      Raise (ValueError ("could not convert string to float: '" +:+ s +:+ "'"))
  end.

Module PyFloat.

(** A Python float: an IEEE 754 binary64 number. *)
Definition t : Set := PrimFloat.float.

(** A float given by its specification: sign, mantissa and exponent. *)
Definition of_spec (x : SpecFloat.spec_float) : t := FloatOps.SF2Prim x.

(** [x * y], [x + y] and [0 < x] on floats. *)
Definition mul (x y : t) : t := PrimFloat.mul x y.
Definition add (x y : t) : t := PrimFloat.add x y.
Definition is_positive (x : t) : bool := PrimFloat.ltb PrimFloat.zero x.

(** The float nearest to [m * 2^e], ties to even. *)
Definition nearest (m e : Z) : SpecFloat.spec_float :=
  SpecFloat.binary_normalize FloatOps.prec FloatOps.emax m e false.

(** The float nearest to [m / d] for positive [m] and [d], ties to even. *)
Definition nearest_quotient (m d : positive) : SpecFloat.spec_float :=
  SpecFloat.SFdiv FloatOps.prec FloatOps.emax
    (SpecFloat.S754_finite false m 0) (SpecFloat.S754_finite false d 0).

(** [float(z)] for an int the float range holds. *)
Definition of_Z (z : Z) : t := of_spec (nearest z 0).

(** The characters [float] strips from both ends of its argument: the
    whitespace of the C locale and the Unicode whitespace beyond ASCII. *)
Definition isspace (c : ascii) : bool :=
  let n := PyStr.code c in
  ((9 <=? n) && (n <=? 13) || (n =? 32) || (n =? 133) || (n =? 160))%N.

Fixpoint lstrip (s : string) : string :=
  match s with
  | EmptyString => EmptyString
  | String c s' => if isspace c then lstrip s' else s
  end.

Fixpoint rstrip (s : string) : string :=
  match s with
  | EmptyString => EmptyString
  | String c s' =>
      let r := rstrip s' in
      if isspace c && PyStr.is_empty r then EmptyString else String c r
  end.

Definition is_digit (c : ascii) : bool :=
  let n := PyStr.code c in ((48 <=? n) && (n <=? 57))%N.

Definition is_underscore (c : ascii) : bool := (PyStr.code c =? 95)%N.

(** An underscore is allowed between two digits only; the underscores are
    then left out.  [prev] is the character before [s]. *)
Fixpoint without_underscores (prev : option ascii) (s : string)
    : option string :=
  match s with
  | EmptyString =>
      if from_option is_underscore false prev then None else Some EmptyString
  | String c s' =>
      if is_underscore c then
        if from_option is_digit false prev
        then without_underscores (Some c) s'
        else None
      else if from_option is_underscore false prev && negb (is_digit c)
      then None
      else String c <$> without_underscores (Some c) s'
  end.

(** The leading decimal digits of a string, and what follows them. *)
Fixpoint span_digits (s : string) : string * string :=
  match s with
  | EmptyString => (EmptyString, EmptyString)
  | String c s' =>
      if is_digit c
      then let '(d, r) := span_digits s' in (String c d, r)
      else (EmptyString, s)
  end.

(** The number a string of decimal digits writes. *)
Fixpoint digits_value (acc : Z) (s : string) : Z :=
  match s with
  | EmptyString => acc
  | String c s' => digits_value (10 * acc + (Z.of_N (PyStr.code c) - 48)) s'
  end.

(** An optional sign: whether it is a minus, and what follows it. *)
Definition sign_of (s : string) : bool * string :=
  match s with
  | String "-" s' => (true, s')
  | String "+" s' => (false, s')
  | _ => (false, s)
  end.

(** The exponent part: nothing, or [e] or [E], an optional sign and
    digits. *)
Definition exponent (s : string) : option Z :=
  match s with
  | EmptyString => Some 0
  | String c s' =>
      if Ascii.eqb c "e" || Ascii.eqb c "E" then
        let '(neg, s'') := sign_of s' in
        match span_digits s'' with
        | (String d ds, EmptyString) =>
            let x := digits_value 0 (String d ds) in
            Some (if neg then - x else x)
        | _ => None
        end
      else None
  end.

(** The float nearest to [m * 10^e] for a positive [m] written with at
    most [len] digits.  Beyond the exponents tested first the result is
    an infinity or a zero whatever the digits are. *)
Definition decimal (neg : bool) (m : positive) (len : Z) (e : Z)
    : SpecFloat.spec_float :=
  let x :=
    if 400 <? e then SpecFloat.S754_infinity false
    else if e + len <? -400 then SpecFloat.S754_zero false
    else if 0 <=? e then nearest (Zpos m * 10 ^ e) 0
    else nearest_quotient m (Z.to_pos (10 ^ (- e))) in
  if neg then SpecFloat.SFopp x else x.

(** [float(s)] for a string [s]; [None] when it raises ValueError. *)
Definition parse (s : string) : option t :=
  s ← without_underscores None (rstrip (lstrip s));
  let '(neg, body) := sign_of s in
  let '(int_part, rest) := span_digits body in
  let '(frac_part, rest) :=
    match rest with
    | String "." rest' => span_digits rest'
    | _ => (EmptyString, rest)
    end in
  let digits := int_part +:+ frac_part in
  if PyStr.is_empty digits then
    let word := PyStr.lower body in
    if String.eqb word "inf" || String.eqb word "infinity"
    then Some (of_spec (SpecFloat.S754_infinity neg))
    else if String.eqb word "nan" then Some PrimFloat.nan
    else None
  else
    e ← exponent rest;
    match digits_value 0 digits with
    | Zpos m =>
        Some (of_spec (decimal neg m (Z.of_nat (String.length digits))
                         (e - Z.of_nat (String.length frac_part))))
    | _ => Some (of_spec (SpecFloat.S754_zero neg))
    end.

(** The integer nearest to [m * 2^e * 10^d], ties to even. *)
Definition scaled (m : positive) (e : Z) (d : Z) : Z :=
  let n := Zpos m * 10 ^ d in
  if 0 <=? e then n * 2 ^ e
  else
    let den := 2 ^ (- e) in
    let q := n / den in
    let r := n mod den in
    match 2 * r ?= den with
    | Lt => q
    | Eq => if Z.even q then q else q + 1
    | Gt => q + 1
    end.

Fixpoint group3 (n : nat) (s : string) : string :=
  match s with
  | EmptyString => EmptyString
  | String c s' =>
      match n with
      | O => String "," (String c (group3 2 s'))
      | S n' => String c (group3 n' s')
      end
  end.

(** The decimal digits of a natural with a comma between groups of three. *)
Definition grouped (x : N) : string :=
  String.rev (group3 3 (String.rev (pretty.pretty x))).

(** [n] written with at least [d] digits. *)
Definition padded (d : nat) (n : N) : string :=
  let s := pretty.pretty n in
  String.concat EmptyString
    (List.repeat "0"%string (d - String.length s)) +:+ s.

(** [f"{x:.<d>f}"], with thousands separators when [comma] is set. *)
Definition fixed (comma : bool) (d : nat) (x : t) : string :=
  match FloatOps.Prim2SF x with
  | SpecFloat.S754_nan => "nan"
  | SpecFloat.S754_infinity s => (if s then "-" else EmptyString) +:+ "inf"
  | SpecFloat.S754_zero s =>
      (if s then "-" else EmptyString) +:+ "0." +:+ padded d 0
  | SpecFloat.S754_finite s m e =>
      let n := Z.to_N (scaled m e (Z.of_nat d)) in
      let unit := (10 ^ N.of_nat d)%N in
      let whole := (n / unit)%N in
      (if s then "-" else EmptyString)
      +:+ (if comma then grouped whole else pretty.pretty whole)
      +:+ "." +:+ padded d (n mod unit)%N
  end.

Definition money (x : t) : string := fixed true 2 x.
Definition one_decimal (x : t) : string := fixed false 1 x.

End PyFloat.

Global Instance float_num : PyNum PyFloat.t := {|
  of_int := PyFloat.of_Z;
  mul := PyFloat.mul;
  add := PyFloat.add;
  gt0 := PyFloat.is_positive;
  parse_float := PyFloat.parse;
  format_money := PyFloat.money;
  format_1f := PyFloat.one_decimal
|}.

(** The newline character, as a string. *)
Definition nl : string := String "010"%char EmptyString.

(** ** Files *)

(** What the program finds at a path it reads as text: nothing, a file it
    cannot open or decode, or the text the file object yields (decoded,
    line ends translated to the newline character). *)
Inductive text_file : Type :=
| Absent
| Unreadable (e : exn)
| Text (content : string).

(** What [load_hourly_rates] meets at the path of the rate file.  The
    existence test comes first and stands outside the [try]: it answers,
    and then the file is as above, with [Unreadable] for a file that
    cannot be opened; or it raises, as it does when the data directory
    cannot be searched.  The file is read line by line, so a file that
    cannot be read to its end gives its first lines before reading raises:
    [Truncated content e] yields the lines of [content], then raises
    [e]. *)
Inductive rate_file : Type :=
| Found (file : text_file)
| Truncated (content : string) (e : exn)
| NoAccess (e : exn).

Coercion Found : text_file >-> rate_file.

(** ** src/utils/config.py *)

Module Config.

Definition REPORT_TYPES : list string := ["technical"; "financial"].

Definition ENGINEERING_ROLES `{PyNum num} : gmap string num :=
  list_to_map
    [("Frontend Engineer", of_int 10);
     ("Backend Engineer", of_int 7);
     ("Database Engineer", of_int 12);
     ("Cloud Engineer", of_int 15);
     ("Testing Engineer", of_int 7)].

End Config.

(** ** src/tools/cost_calculator.py *)

Module CostCalculator.

Section WithNumbers.
Context `{PyNum num}.

(** The dict [calculate_task_cost] returns; [error] is the value under the
    key "error" when the dict has that key. *)
Record CostLineItem : Type := {
  error : option string;
  role : string;
  hours : num;
  rate : num;
  total_cost : num
}.

(** A task dict: the values under the keys "role" and "hours", when the
    dict has them. *)
Record Task : Type := {
  task_role : option string;
  task_hours : option num
}.

Record CostSummary : Type := {
  project_total_cost : num;
  project_total_hours : num;
  breakdown : list CostLineItem;
  total_cost_formatted : string;
  total_hours_formatted : string
}.

(** [parts[-1]] *)
Definition last_item (parts : list string) : result string :=
  match last parts with
  | Some x => Ok x
  | None => Raise (Exception "list index out of range")
  end.

(** The body of [for line in f] in [load_hourly_rates]: the dict after
    the line, or the exception the line raises. *)
Definition rate_line (rates : gmap string num) (line : string)
    : result (gmap string num) :=
  let line := PyStr.strip line in
  if PyStr.truthy line then
    let parts := PyStr.split_ws line in
    if (2 <=? length parts)%nat then
      let role := PyStr.join " " (removelast parts) in
      rate ← (token ← last_item parts; float token);
      Ok (<[role := rate]> rates)
    else Ok rates
  else Ok rates.

(** The loop over the lines [lines]: the dict as the loop leaves it, and
    how it ends, at the end of the lines or with what a line raises. *)
Fixpoint read_rates (lines : list string) (rates : gmap string num)
    : gmap string num * result unit :=
  match lines with
  | [] => (rates, Ok tt)
  | line :: rest =>
      match rate_line rates line with
      | Ok rates' => read_rates rest rates'
      | Raise e => (rates, Raise e)
      | RaiseBase b => (rates, RaiseBase b)
      end
  end.

(** The [try] block: [open] may raise; then the loop runs over the lines
    the file object yields, and the file object may raise after them.  The
    dict is the one the block leaves. *)
Definition read_pays (pays : rate_file) (rates : gmap string num)
    : gmap string num * result unit :=
  match pays with
  | Found Absent => (rates, Raise (OSError "No such file or directory"))
  | Found (Unreadable e) => (rates, Raise e)
  | Found (Text content) => read_rates (PyStr.lines content) rates
  | Truncated content e =>
      match read_rates (PyStr.lines content) rates with
      | (rates, Ok _) => (rates, Raise e)
      | stopped => stopped
      end
  | NoAccess e => (rates, Raise e)
  end.

(** [PAYS_PATH.exists()] *)
Definition pays_exists (pays : rate_file) : result bool :=
  match pays with
  | Found Absent => Ok false
  | Found _ | Truncated _ _ => Ok true
  | NoAccess e => Raise e
  end.

(** [not rates] *)
Definition dict_is_empty (rates : gmap string num) : bool :=
  bool_decide (size rates = 0%nat).

Definition load_hourly_rates (pays : rate_file) : result (gmap string num) :=
  let rates : gmap string num := ∅ in
  found ← pays_exists pays;
  rates ←
    (if (found : bool) then
       match read_pays pays rates with
       | (rates, RaiseBase b) => RaiseBase b
       | (rates, _) => Ok rates     (* except Exception: message printed *)
       end
     else Ok rates);
  let rates :=
    if dict_is_empty rates then Config.ENGINEERING_ROLES else rates in
  Ok rates.

Definition calculate_task_cost (pays : rate_file) (role : string)
    (hours : num) : result CostLineItem :=
  rates ← load_hourly_rates pays;
  match rates !! role with
  | None =>
      Ok {| error := Some ("Role '" +:+ role +:+ "' not found in hourly rates");
            role := role;
            hours := hours;
            rate := of_int 0;
            total_cost := of_int 0 |}
  | Some rate =>
      let total_cost := mul rate hours in
      Ok {| error := None;
            role := role;
            hours := hours;
            rate := rate;
            total_cost := total_cost |}
  end.

(** The name [tasksummary] of line 69.  The function binds [tasks], [task],
    [total_cost], [total_hours], [breakdown], [role], [hours] and
    [cost_info]; the module binds its imports and its functions; no
    builtin has this name.  Evaluating it raises. *)
Definition tasksummary : result Task := Raise (NameError "tasksummary").

(** The three variables the loop of [calculate_project_cost] updates. *)
Record Totals : Type := {
  acc_total_cost : num;
  acc_total_hours : num;
  acc_breakdown : list CostLineItem
}.

(** The body of [for task in tasks]. *)
Definition project_task (pays : rate_file) (acc : Totals) (task : Task)
    : result Totals :=
  role ← (d ← tasksummary; Ok (default EmptyString (task_role d)));
  let hours := default (of_int 0) (task_hours task) in
  if PyStr.truthy role && gt0 hours then
    cost_info ← calculate_task_cost pays role hours;
    match error cost_info with
    | None =>
        Ok {| acc_total_cost := add (acc_total_cost acc) (total_cost cost_info);
              acc_total_hours := add (acc_total_hours acc) hours;
              acc_breakdown := acc_breakdown acc ++ [cost_info] |}
    | Some _ => Ok acc
    end
  else Ok acc.

Definition calculate_project_cost (pays : rate_file) (tasks : list Task)
    : result CostSummary :=
  let start :=
    {| acc_total_cost := of_int 0;
       acc_total_hours := of_int 0;
       acc_breakdown := [] |} in
  acc ← for_each (project_task pays) tasks start;
  Ok {| project_total_cost := acc_total_cost acc;
        project_total_hours := acc_total_hours acc;
        breakdown := acc_breakdown acc;
        total_cost_formatted := "$" +:+ format_money (acc_total_cost acc);
        total_hours_formatted := format_1f (acc_total_hours acc) +:+ " hours" |}.

End WithNumbers.

Arguments CostLineItem num : clear implicits.
Arguments Task num : clear implicits.
Arguments CostSummary num : clear implicits.
Arguments Totals num : clear implicits.

Definition task_estimates : gmap string (gmap string Z) :=
  list_to_map
    [("frontend", list_to_map [("simple", 8); ("medium", 16); ("complex", 32)]);
     ("backend", list_to_map [("simple", 12); ("medium", 24); ("complex", 48)]);
     ("database", list_to_map [("simple", 16); ("medium", 32); ("complex", 64)]);
     ("cloud", list_to_map [("simple", 20); ("medium", 40); ("complex", 80)]);
     ("testing", list_to_map [("simple", 8); ("medium", 16); ("complex", 24)])].

Definition simple_words : list string :=
  ["simple"; "basic"; "quick"; "minor"].

Definition complex_words : list string :=
  ["complex"; "advanced"; "sophisticated"; "comprehensive"].

(** The variable [complexity] of [estimate_hours_from_description]. *)
Definition complexity (description : string) : string :=
  let description_lower := PyStr.lower description in
  if PyStr.any_in simple_words description_lower then "simple"
  else if PyStr.any_in complex_words description_lower then "complex"
  else "medium".

(** The variable [role_type] of [estimate_hours_from_description]. *)
Definition role_type (role : string) : string :=
  let role_lower := PyStr.lower role in
  if PyStr.contains "frontend" role_lower then "frontend"
  else if PyStr.contains "backend" role_lower then "backend"
  else if PyStr.contains "database" role_lower then "database"
  else if PyStr.contains "cloud" role_lower then "cloud"
  else if PyStr.contains "test" role_lower then "testing"
  else "backend".

(** [d.get(key, fallback)] *)
Definition dict_get {V : Type} (d : gmap string V) (key : string)
    (fallback : V) : V :=
  default fallback (d !! key).

Definition estimate_hours_from_description (description role : string) : Z :=
  dict_get (dict_get task_estimates (role_type role) ∅)
           (complexity description) 16.

End CostCalculator.

(** ** Documents of the python-docx library *)

Module Docx.

(** A run; [bold] is True, False or None (inherited from the style). *)
Record Run : Type := { bold : option bool }.

Record Paragraph : Type := {
  text : string;
  style_name : string;
  runs : list Run;
  alignment : option Z
}.

(** [Document(path).paragraphs] *)
Definition Document : Type := list Paragraph.

(** What the program finds at the path of a document. *)
Inductive docx_file : Type :=
| NoDocument
| BadDocument (e : exn)
| Docx (doc : Document).

(** A character the library accepts in the text of a paragraph: TAB, LF,
    CR and the characters from the space on.  The text of a run is set
    through lxml, which refuses the other control characters. *)
Definition xml_char (c : ascii) : bool :=
  let n := PyStr.code c in
  ((n =? 9) || (n =? 10) || (n =? 13) || (32 <=? n))%N.

Fixpoint xml_compatible (s : string) : bool :=
  match s with
  | EmptyString => true
  | String c s' => xml_char c && xml_compatible s'
  end.

(** The text of a paragraph whose text was set to [s]: a TAB is kept as a
    tab, a CR and a LF become a line break, which reads as LF. *)
Fixpoint stored_text (s : string) : string :=
  match s with
  | EmptyString => EmptyString
  | String c s' =>
      String (if Ascii.eqb c "013"%char then "010"%char else c)
             (stored_text s')
  end.

(** Setting the text of a new paragraph: the text it then has, or the
    ValueError of lxml. *)
Definition set_text (s : string) : result string :=
  if xml_compatible s then Ok (stored_text s)
  else Raise (ValueError "All strings must be XML compatible: Unicode or ASCII, no NULL bytes or control characters").

End Docx.

(** ** src/tools/document_extractor.py *)

Module DocumentExtractor.
Import Docx.

(** One entry of [content["sections"]]. *)
Record Section_ : Type := {
  title : string;
  questions : list string
}.

(** The dict [content]; [preamble] is [metadata.get("preamble")]. *)
Record Content : Type := {
  sections : list Section_;
  raw_text : string;
  preamble : option string
}.

(** What [extract_questioner_content] returns: a dict with the key
    "error", or the content. *)
Inductive Extraction : Type :=
| ExtractionError (error : string)
| Extracted (content : Content).

(** The variables of the loop over the paragraphs. *)
Record Scan : Type := {
  content : Content;
  current_section : option string;
  current_questions : list string
}.

(** Truth value of a variable that holds None or a string. *)
Definition is_set (v : option string) : bool :=
  match v with
  | None => false
  | Some s => PyStr.truthy s
  end.

(** [paragraph.style.name.startswith('Heading') or
     paragraph.runs and paragraph.runs[0].bold] *)
Definition is_header (paragraph : Paragraph) : bool :=
  PyStr.startswith "Heading" (style_name paragraph)
  || match runs paragraph with
     | [] => false
     | run :: _ => default false (bold run)
     end.

(** [content["sections"].append({"title": ..., "questions": ...})] *)
Definition append_section (c : Content) (t : string) (qs : list string)
    : Content :=
  {| sections := sections c ++ [{| title := t; questions := qs |}];
     raw_text := raw_text c;
     preamble := preamble c |}.

(** The body of [for paragraph in doc.paragraphs]. *)
Definition scan_paragraph (st : Scan) (paragraph : Paragraph) : Scan :=
  let text := PyStr.strip (text paragraph) in
  if negb (PyStr.truthy text) then st
  else
    let c := content st in
    let c := {| sections := sections c;
                raw_text := raw_text c +:+ text +:+ nl;
                preamble := preamble c |} in
    if is_header paragraph then
      let c :=
        if is_set (current_section st)
        then append_section c (default EmptyString (current_section st))
                            (current_questions st)
        else c in
      {| content := c; current_section := Some text; current_questions := [] |}
    else if is_set (current_section st) then
      {| content := c;
         current_section := current_section st;
         current_questions := current_questions st ++ [text] |}
    else
      {| content :=
           {| sections := sections c;
              raw_text := raw_text c;
              preamble :=
                Some (default EmptyString (preamble c) +:+ text +:+ nl) |};
         current_section := current_section st;
         current_questions := current_questions st |}.

Definition scan_start : Scan :=
  {| content := {| sections := []; raw_text := EmptyString; preamble := None |};
     current_section := None;
     current_questions := [] |}.

(** The code after the loop: the last section is added. *)
Definition scan_finish (st : Scan) : Content :=
  if is_set (current_section st)
  then append_section (content st) (default EmptyString (current_section st))
                      (current_questions st)
  else content st.

Definition extract_questioner_content (questioner : docx_file) : Extraction :=
  match questioner with
  | NoDocument => ExtractionError "Questioner document not found"
  | BadDocument e =>
      ExtractionError ("Error extracting content: " +:+ exn_str e)
  | Docx doc => Extracted (scan_finish (fold_left scan_paragraph doc scan_start))
  end.

Definition get_all_sections (questioner : docx_file) : list string :=
  match extract_questioner_content questioner with
  | ExtractionError _ => []
  | Extracted c => title <$> sections c
  end.

Record Requirements : Type := {
  project_overview : string;
  technical_requirements : list string;
  financial_requirements : list string;
  timeline_requirements : list string;
  resource_requirements : list string
}.

Definition overview_words : list string :=
  ["overview"; "description"; "summary"].
Definition technical_words : list string :=
  ["technical"; "technology"; "architecture"; "system"].
Definition financial_words : list string :=
  ["financial"; "budget"; "cost"; "pricing"].
Definition timeline_words : list string :=
  ["timeline"; "schedule"; "deadline"; "milestone"].
Definition resource_words : list string :=
  ["resource"; "team"; "staff"; "personnel"].

(** The body of [for section in content["sections"]]. *)
Definition categorize (r : Requirements) (section : Section_)
    : Requirements :=
  let title_lower := PyStr.lower (title section) in
  if PyStr.any_in overview_words title_lower then
    {| project_overview := PyStr.join nl (questions section);
       technical_requirements := technical_requirements r;
       financial_requirements := financial_requirements r;
       timeline_requirements := timeline_requirements r;
       resource_requirements := resource_requirements r |}
  else if PyStr.any_in technical_words title_lower then
    {| project_overview := project_overview r;
       technical_requirements := technical_requirements r ++ questions section;
       financial_requirements := financial_requirements r;
       timeline_requirements := timeline_requirements r;
       resource_requirements := resource_requirements r |}
  else if PyStr.any_in financial_words title_lower then
    {| project_overview := project_overview r;
       technical_requirements := technical_requirements r;
       financial_requirements := financial_requirements r ++ questions section;
       timeline_requirements := timeline_requirements r;
       resource_requirements := resource_requirements r |}
  else if PyStr.any_in timeline_words title_lower then
    {| project_overview := project_overview r;
       technical_requirements := technical_requirements r;
       financial_requirements := financial_requirements r;
       timeline_requirements := timeline_requirements r ++ questions section;
       resource_requirements := resource_requirements r |}
  else if PyStr.any_in resource_words title_lower then
    {| project_overview := project_overview r;
       technical_requirements := technical_requirements r;
       financial_requirements := financial_requirements r;
       timeline_requirements := timeline_requirements r;
       resource_requirements := resource_requirements r ++ questions section |}
  else r.

Definition no_requirements : Requirements :=
  {| project_overview := EmptyString;
     technical_requirements := [];
     financial_requirements := [];
     timeline_requirements := [];
     resource_requirements := [] |}.

(** The loop of [extract_project_requirements] over a section list. *)
Definition categorize_sections (l : list Section_) : Requirements :=
  fold_left categorize l no_requirements.

(** The error dict is returned as it is; otherwise the requirements. *)
Definition extract_project_requirements (questioner : docx_file)
    : string + Requirements :=
  match extract_questioner_content questioner with
  | ExtractionError e => inl e
  | Extracted c => inr (categorize_sections (sections c))
  end.

End DocumentExtractor.

(** ** src/utils/file_utils.py *)

Module FileUtils.
Import Docx.

(** The name of a directory entry: not empty, not [.] or [..], without
    the separator and the NUL character. *)
Definition name_char (c : ascii) : bool :=
  negb (Ascii.eqb c "/"%char) && negb (Ascii.eqb c "000"%char).

Fixpoint name_chars (s : string) : bool :=
  match s with
  | EmptyString => true
  | String c s' => name_char c && name_chars s'
  end.

Definition is_name (s : string) : bool :=
  PyStr.truthy s && negb (String.eqb s ".") && negb (String.eqb s "..")
  && name_chars s.

Definition Name : Type := { s : string | is_name s }.

(** A [pathlib.Path], [Path], as the file system resolves it, without
    links: the names from the root of the store down to the file.  Two
    paths are the same file exactly when they are the same list. *)
Global Instance name_eq_dec : EqDecision Name := _.
Global Instance name_countable : Countable Name := _.

Abbreviation Path := (list Name).

(** [path.parent] *)
Definition parent (p : Path) : Path := removelast p.

(** What stands at a path: a directory, a document that python-docx
    opens, or another file. *)
Inductive Node : Type :=
| Directory
| DocxFile (doc : Document)
| OtherFile.

(** The store the reports are written to, [FileSystem]: what stands at
    each path below the root.  The root is a directory. *)
Abbreviation FileSystem := (gmap Path Node).

Definition node_at (p : Path) (fs : FileSystem) : option Node :=
  match p with
  | [] => Some Directory
  | _ => fs !! p
  end.

(** The ways the functions reach into the file system. *)
Inductive access : Type :=
| Look       (* path.exists() *)
| Read       (* opening a file to read it *)
| Enter      (* going through a directory on the way, or making it *)
| Write      (* opening a file to write it, which empties it *)
| Fill.      (* writing the content of the opened file *)

Section WithSystem.

(** The errors of the operating system that do not come from what the
    store holds, such as a missing permission or a full device: the error,
    if any, with which it refuses an access to a path.  They are the same
    through a call. *)
Variable refused : access -> Path -> option exn.

(** [path.mkdir(parents=True, exist_ok=True)] below the directory [above]:
    the names [below] are gone through from the top; a directory that
    exists is entered, a missing one is made, and a file in the way makes
    [os.mkdir] fail, with FileExistsError at the path itself and
    NotADirectoryError above it. *)
Fixpoint mkdir_from (above : Path) (below : list Name)
    : IO FileSystem unit :=
  match below with
  | [] => mret tt
  | name :: rest =>
      let here := above ++ [name] in
      fun fs =>
        match refused Enter here with
        | Some e => (Raise e, fs)
        | None =>
            match fs !! here with
            | Some Directory => mkdir_from here rest fs
            | None => mkdir_from here rest (<[here := Directory]> fs)
            | Some _ =>
                (Raise (OSError match rest with
                                | [] => "File exists"
                                | _ => "Not a directory"
                                end), fs)
            end
        end
  end.

Definition ensure_directory (path : Path) : IO FileSystem unit :=
  mkdir_from [] path.

(** [filepath.exists()] *)
Definition exists_ (filepath : Path) (fs : FileSystem) : result bool :=
  match refused Look filepath with
  | Some e => Raise e
  | None => Ok (bool_decide (is_Some (node_at filepath fs)))
  end.

(** [doc.add_heading(title, 0)] followed by [alignment = 1] *)
Definition add_heading (doc : Document) (title : string) : result Document :=
  text ← set_text title;
  Ok (doc ++ [{| text := text;
                 style_name := "Title";
                 runs := if PyStr.is_empty title then [] else [{| bold := None |}];
                 alignment := Some 1 |}]).

(** [doc.add_paragraph(content)] *)
Definition add_paragraph (doc : Document) (content : string)
    : result Document :=
  text ← set_text content;
  Ok (doc ++ [{| text := text;
                 style_name := "Normal";
                 runs := if PyStr.is_empty content then [] else [{| bold := None |}];
                 alignment := None |}]).

(** [doc.save(filepath)]: the file is opened for writing, which a
    directory at the path refuses and which empties a file that is there;
    then the document is written.  When the writing fails, what is left is
    no document. *)
Definition save (doc : Document) (filepath : Path) : IO FileSystem unit :=
  fun fs =>
    match refused Write filepath with
    | Some e => (Raise e, fs)
    | None =>
        match node_at filepath fs with
        | Some Directory => (Raise (OSError "Is a directory"), fs)
        | _ =>
            match refused Fill filepath with
            | Some e => (Raise e, <[filepath := OtherFile]> fs)
            | None => (Ok tt, <[filepath := DocxFile doc]> fs)
            end
        end
    end.

Definition create_docx_report (content : string) (filepath : Path)
    (title : string) : IO FileSystem unit :=
  ensure_directory (parent filepath);;
  let doc : Document := [] in
  doc ← pure_io (add_heading doc title);
  doc ← pure_io (add_paragraph doc content);
  save doc filepath.

(** The loop of [docx_to_text]: the trimmed texts of the paragraphs that
    are not blank. *)
Fixpoint paragraph_texts (doc : Document) : list string :=
  match doc with
  | [] => []
  | paragraph :: rest =>
      if PyStr.truthy (PyStr.strip (text paragraph))
      then PyStr.strip (text paragraph) :: paragraph_texts rest
      else paragraph_texts rest
  end.

(** [Document(filepath)]: the paragraphs of the document at the path. *)
Definition open_document (filepath : Path) (fs : FileSystem)
    : result Document :=
  match refused Read filepath with
  | Some e => Raise e
  | None =>
      match node_at filepath fs with
      | Some (DocxFile doc) => Ok doc
      | Some Directory => Raise (OSError "Is a directory")
      | _ => Raise (Exception "File is not a zip file")
      end
  end.

Definition docx_to_text (filepath : Path) (fs : FileSystem) : result string :=
  found ← exists_ filepath fs;
  if negb found then Ok EmptyString
  else
    doc ← open_document filepath fs;
    Ok (PyStr.join nl (paragraph_texts doc)).

End WithSystem.

End FileUtils.

(** ** src/agents/description_agent.py *)

Module DescriptionAgent.

Definition PROMPT : string := "
You have to generate technical and financial reports based on the given context. 
1. You must always respond in markdown.
2. Your respones for the technical report must include the following headings
    - Introduction
    - Core Features and Functionality, this one should include subheadings grouping different features together, along with functional and non-functional requirements
    - Technical Architecture, telling us about the techstack 
    - Development Process, telling us about the development method such as Agile etc explaining it all
    - Security Considerations
    - Scalability and Performance
    - Future Enhancements.
3. It is necessary to include subheadings within each wherever necessary to give it a SRS format.
4. Your response for the financial report must include the following headings
    - Executive Summary
    - Cost Estimation Methodology
    - Cost Breakdown, this one would have subheadings for the development phase, in each subheading we would then we would explain how much cost it would take for that specific phase
    - Optimal Costs and Breakdown
    - Payment Shedule
    - Conclusion
    - References
".

Record ProjectData : Type := {
  project_overview : string;
  technical_requirements : list string;
  financial_requirements : list string;
  user_responses : list (string * string)
}.

Record Analysis : Type := {
  technical : string;
  financial : string
}.

(** [len(parts) >= 2] holds when the list has a first and a second item,
    [parts[0]] and [parts[1]]. *)
Definition _parse_model_response (response : string) : Analysis :=
  let parts := PyStr.split "FINANCIAL ANALYSIS:" response in
  match parts with
  | part0 :: part1 :: _ =>
      {| technical :=
           PyStr.strip (PyStr.replace "TECHNICAL ANALYSIS:" EmptyString part0);
         financial := PyStr.strip part1 |}
  | _ =>
      {| technical := response;
         financial := EmptyString |}
  end.

(** One message of the history: [message['role']], [message['content']]. *)
Record Message : Type := {
  role : string;
  content : string
}.

(** One slot of the result of [generate_reports]: the dict of one model's
    reports, or the dict with the key "error". *)
Inductive ModelResult : Type :=
| Reports (technical_report financial_report : string) (analysis : Analysis)
| Failed (error : string).

Section Agents.
Variable World : Type.

(** [agent.on_messages([TextMessage(content=..., source="user")], ...)]
    and the [chat_message.content] of its response; the agent is named. *)
Variable on_messages : string -> string -> IO World string.

(** The two functions of tools/report_generator.py the agent calls: project
    data, model name, analysis text (and the cost data of the financial
    report) to the path of the report written. *)
Variable create_technical_report :
  ProjectData -> string -> string -> IO World string.
Variable create_financial_report :
  ProjectData -> string -> string -> gmap string string -> IO World string.

(** [self.project_data] *)
Variable project_data : ProjectData.

Definition _generate_model_reports (agent model_name context : string)
    : IO World ModelResult :=
  let context := context +:+ PROMPT in
  response ← on_messages agent context;
  let analysis := _parse_model_response response in
  technical_report_path ←
    create_technical_report project_data model_name (technical analysis);
  financial_report_path ←
    create_financial_report project_data model_name (financial analysis) ∅;
  mret (Reports technical_report_path financial_report_path analysis).

(** The dict [models]: model name and agent, in the order of the dict. *)
Definition models : list (string * string) :=
  [("openai", "openai_agent"); ("claude", "claude_agent")].

(** The loop over the message history that builds [context]. *)
Definition build_context (messages : list Message) : string :=
  fold_left
    (fun context message =>
       context +:+ "<" +:+ role message +:+ " said> : " +:+ nl
               +:+ content message +:+ nl +:+ nl)
    messages EmptyString.

(** The body of [for model_name, agent in models.items()]. *)
Definition model_step (context : string) (results : gmap string ModelResult)
    (model : string * string) : IO World (gmap string ModelResult) :=
  let '(model_name, agent) := model in
  try_except
    (result ← _generate_model_reports agent model_name context;
     mret (<[model_name := result]> results))
    (fun e => mret (<[model_name := Failed (exn_str e)]> results)).

Definition generate_reports (messages : list Message)
    : IO World (gmap string ModelResult) :=
  let results : gmap string ModelResult := ∅ in
  let context := build_context messages in
  io_for_each (model_step context) models results.

End Agents.

End DescriptionAgent.

(** * The specification's descriptions

    Definitions that follow the words of the specification, to be compared
    with the ones above. *)

Module Spec.

Section Rates.
Context `{PyNum num}.




(** What a line of the rate file is to the loader. *)
Inductive line_kind : Type :=
| Skipped                                   (* fewer than two tokens *)
| Entry (role : string) (rate : num)        (* role words and a rate *)
| Malformed.                                (* the last token is no float *)

Definition classify (line : string) : line_kind :=
  let tokens := PyStr.split_ws line in
  if (length tokens <? 2)%nat then Skipped
  else
    match last tokens ≫= parse_float with
    | Some rate => Entry (PyStr.join " " (removelast tokens)) rate
    | None => Malformed
    end.

(** The entries of the lines before the first malformed line. *)
Fixpoint entries_read (lines : list string) : list (string * num) :=
  match lines with
  | [] => []
  | line :: rest =>
      match classify line with
      | Skipped => entries_read rest
      | Entry role rate => (role, rate) :: entries_read rest
      | Malformed => []
      end
  end.

(** The lines the rate file yields: none when it is absent or cannot be
    opened. *)
Definition pays_lines (pays : rate_file) : list string :=
  match pays with
  | Found (Text content) | Truncated content _ => PyStr.lines content
  | _ => []
  end.

(** [rates[role] = rate] for one entry. *)
Definition insert_entry (rates : gmap string num) (e : string * num)
    : gmap string num :=
  <[e.1 := e.2]> rates.

(** The table of the lines read: the entries in order, a later one for a
    role replacing the earlier one, and the built-in table when there is
    no entry. *)
Definition table_of (pays : rate_file) : gmap string num :=
  let read := fold_left insert_entry (entries_read (pays_lines pays)) ∅ in
  if CostCalculator.dict_is_empty read then Config.ENGINEERING_ROLES
  else read.

(** The rate the last entry for a role gives. *)
Definition last_rate (role : string) (entries : list (string * num))
    : option num :=
  snd <$> last (filter (fun e => e.1 = role) entries).

End Rates.

Section Sections.
Import Docx DocumentExtractor.

(** The text of a paragraph as the sectionizer uses it. *)
Definition trimmed (p : Paragraph) : string := PyStr.strip (text p).

(** The paragraphs that are not blank. *)
Definition nonblank (doc : Document) : Document :=
  filter (fun p => PyStr.truthy (trimmed p) = true) doc.

(** The texts of the paragraphs up to the next section header. *)
Fixpoint leading_texts (ps : list Paragraph) : list string :=
  match ps with
  | [] => []
  | p :: rest => if is_header p then [] else trimmed p :: leading_texts rest
  end.

(** One section per header, in document order: the header's text and the
    texts between it and the next header. *)
Fixpoint sections_of (ps : list Paragraph) : list Section_ :=
  match ps with
  | [] => []
  | p :: rest =>
      if is_header p
      then {| title := trimmed p; questions := leading_texts rest |}
           :: sections_of rest
      else sections_of rest
  end.

(** Each text followed by a newline. *)
Fixpoint text_lines (texts : list string) : string :=
  match texts with
  | [] => EmptyString
  | t :: rest => t +:+ nl +:+ text_lines rest
  end.

(** The preamble after some more texts have gone to it. *)
Definition add_lines (pre : option string) (texts : list string)
    : option string :=
  match texts with
  | [] => pre
  | _ => Some (default EmptyString pre +:+ text_lines texts)
  end.

Definition preamble_of (ps : list Paragraph) : option string :=
  match leading_texts ps with
  | [] => None
  | texts => Some (text_lines texts)
  end.

(** The content the sectionizer ends with when it goes through the
    paragraphs [ps], none of them blank, from the state [st]. *)
Definition content_from (st : Scan) (ps : list Paragraph) : Content :=
  let c := content st in
  if is_set (current_section st) then
    {| sections :=
         sections c
         ++ {| title := default EmptyString (current_section st);
               questions := current_questions st ++ leading_texts ps |}
            :: sections_of ps;
       raw_text := raw_text c +:+ text_lines (trimmed <$> ps);
       preamble := preamble c |}
  else
    {| sections := sections c ++ sections_of ps;
       raw_text := raw_text c +:+ text_lines (trimmed <$> ps);
       preamble := add_lines (preamble c) (leading_texts ps) |}.

Definition content_of (ps : list Paragraph) : Content :=
  {| sections := sections_of ps;
     raw_text := text_lines (trimmed <$> ps);
     preamble := preamble_of ps |}.

(** The five buckets of the requirement bundle, in priority order. *)
Inductive Category : Type :=
| Overview | Technical | Financial | Timeline | Resource.

(** The keyword set of a category. *)
Definition words_of (c : Category) : list string :=
  match c with
  | Overview => overview_words
  | Technical => technical_words
  | Financial => financial_words
  | Timeline => timeline_words
  | Resource => resource_words
  end.

(** The place of a category in the priority order. *)
Definition rank (c : Category) : nat :=
  match c with
  | Overview => 0
  | Technical => 1
  | Financial => 2
  | Timeline => 3
  | Resource => 4
  end.

Definition rules : list (Category * list string) :=
  (fun c => (c, words_of c))
    <$> [Overview; Technical; Financial; Timeline; Resource].

(** The first category, in priority order, one of whose keywords occurs in
    the lower-cased title. *)
Definition category_of (title : string) : option Category :=
  fst <$> find (fun rule => PyStr.any_in rule.2 (PyStr.lower title)) rules.

(** The bundle after a category has received a question list. *)
Definition receive (c : Category) (r : Requirements) (qs : list string)
    : Requirements :=
  match c with
  | Overview =>
      {| project_overview := PyStr.join nl qs;
         technical_requirements := technical_requirements r;
         financial_requirements := financial_requirements r;
         timeline_requirements := timeline_requirements r;
         resource_requirements := resource_requirements r |}
  | Technical =>
      {| project_overview := project_overview r;
         technical_requirements := technical_requirements r ++ qs;
         financial_requirements := financial_requirements r;
         timeline_requirements := timeline_requirements r;
         resource_requirements := resource_requirements r |}
  | Financial =>
      {| project_overview := project_overview r;
         technical_requirements := technical_requirements r;
         financial_requirements := financial_requirements r ++ qs;
         timeline_requirements := timeline_requirements r;
         resource_requirements := resource_requirements r |}
  | Timeline =>
      {| project_overview := project_overview r;
         technical_requirements := technical_requirements r;
         financial_requirements := financial_requirements r;
         timeline_requirements := timeline_requirements r ++ qs;
         resource_requirements := resource_requirements r |}
  | Resource =>
      {| project_overview := project_overview r;
         technical_requirements := technical_requirements r;
         financial_requirements := financial_requirements r;
         timeline_requirements := timeline_requirements r;
         resource_requirements := resource_requirements r ++ qs |}
  end.

(** The content of one bucket: the overview text, or a question list. *)
Definition bucket (c : Category) (r : Requirements) : string + list string :=
  match c with
  | Overview => inl (project_overview r)
  | Technical => inr (technical_requirements r)
  | Financial => inr (financial_requirements r)
  | Timeline => inr (timeline_requirements r)
  | Resource => inr (resource_requirements r)
  end.

End Sections.

(** The text of [s] before its first [sep], all of [s] when it holds
    none. *)
Definition up_to (sep s : string) : string :=
  from_option fst s (PyStr.partition sep s).

(** The texts [docx_to_text] joins: the trimmed ones that are not empty. *)
Definition kept_texts (texts : list string) : list string :=
  List.filter PyStr.truthy (PyStr.strip <$> texts).

(** The slot a model gets: its reports, or the message of the exception
    of class [Exception] its generation raised; none for another
    exception. *)
Definition slot (r : result DescriptionAgent.ModelResult)
    : option DescriptionAgent.ModelResult :=
  match r with
  | Ok reports => Some reports
  | Raise e => Some (DescriptionAgent.Failed (exn_str e))
  | RaiseBase _ => None
  end.

(** The number a float is, for a float that is finite: its mantissa
    times two to its exponent, as a fraction in lowest terms. *)
Definition value (x : PyFloat.t) : option QArith_base.Q :=
  match FloatOps.Prim2SF x with
  | SpecFloat.S754_zero _ => Some (QArith_base.Qmake 0 1)
  | SpecFloat.S754_finite s m e =>
      let q := QArith_base.Qmult (QArith_base.Qmake (Zpos m) 1)
                 (QArith_base.Qpower (QArith_base.Qmake 2 1) e) in
      Some (Qreduction.Qred (if s then QArith_base.Qopp q else q))
  | _ => None
  end.

(** Whether the float [z] is the product of the floats [x] and [y] as
    numbers. *)
Definition exact_product (x y z : PyFloat.t) : bool :=
  match value x, value y, value z with
  | Some a, Some b, Some c => QArith_base.Qeq_bool (QArith_base.Qmult a b) c
  | _, _, _ => false
  end.

End Spec.

(** * Inputs of the examples *)

Module Examples.
Import CostCalculator Docx.

Definition heading (t : string) : Paragraph :=
  {| text := t; style_name := "Heading 1"; runs := [{| bold := None |}];
     alignment := None |}.

Definition bold_line (t : string) : Paragraph :=
  {| text := t; style_name := "Normal"; runs := [{| bold := Some true |}];
     alignment := None |}.

Definition plain (t : string) : Paragraph :=
  {| text := t; style_name := "Normal"; runs := [{| bold := None |}];
     alignment := None |}.

Definition backend_task : Task PyFloat.t :=
  {| task_role := Some "Backend Engineer"; task_hours := Some (of_int 10) |}.

Definition bogus_task : Task PyFloat.t :=
  {| task_role := Some "Bogus"; task_hours := Some (of_int 5) |}.


(** A rate file with a line without a rate between two lines with one. *)
Definition malformed_middle : text_file :=
  Text ("b 5" +:+ nl +:+ "a x" +:+ nl +:+ "c 6" +:+ nl).

(** A rate file whose rate is no whole number. *)
Definition tenth_rate : text_file := Text ("x 0.1" +:+ nl).


(** A rate file that yields one line and cannot be decoded after it. *)
Definition cut_short : rate_file :=
  Truncated ("a 1" +:+ nl)
    (ValueError "'utf-8' codec can't decode byte 0xff: invalid start byte").

(** The document of the specification's example: two headings, one
    question under the first and two under the second. *)
Definition two_sections : Document :=
  [heading "H1"; plain "q1"; bold_line "H2"; plain " q2 "; plain "   ";
   plain "q3"].

(** A document without headings and bold lines. *)
Definition no_sections : Document := [plain "intro"; plain "more"].

(** A technical section whose title also holds an overview keyword, and a
    section whose title holds no keyword. *)
Definition mixed_title : DocumentExtractor.Section_ :=
  {| DocumentExtractor.title := "Technical Overview";
     DocumentExtractor.questions := ["a"; "b"] |}.

Definition other_title : DocumentExtractor.Section_ :=
  {| DocumentExtractor.title := "Miscellaneous";
     DocumentExtractor.questions := ["c"] |}.

(** A world with nothing in it; an analyst that fails for the model
    openai and answers for the others; report writers that return a
    path. *)
Definition failing_openai (agent content : string) : IO unit string :=
  fun w =>
    if String.eqb agent "openai_agent"
    then (Raise (Exception "connection refused"), w)
    else (Ok "t FINANCIAL ANALYSIS: f", w).

(** An analyst whose task is cancelled while it waits for the model
    openai. *)
Definition cancelled_openai (agent content : string) : IO unit string :=
  fun w =>
    if String.eqb agent "openai_agent"
    then (RaiseBase CancelledError, w)
    else (Ok "t FINANCIAL ANALYSIS: f", w).

Definition write_technical (pd : DescriptionAgent.ProjectData)
    (model_name analysis : string) : IO unit string :=
  fun w => (Ok (model_name +:+ "/technical_report.docx"), w).

Definition write_financial (pd : DescriptionAgent.ProjectData)
    (model_name analysis : string) (costs : gmap string string)
    : IO unit string :=
  fun w => (Ok (model_name +:+ "/financial_report.docx"), w).

Definition no_project : DescriptionAgent.ProjectData :=
  {| DescriptionAgent.project_overview := EmptyString;
     DescriptionAgent.technical_requirements := [];
     DescriptionAgent.financial_requirements := [];
     DescriptionAgent.user_responses := [] |}.

(** A store with nothing below its root. *)
Definition empty_store : FileUtils.FileSystem := ∅.

Definition reports : FileUtils.Name := exist _ "reports" I.
Definition openai : FileUtils.Name := exist _ "openai" I.
Definition technical_report : FileUtils.Name :=
  exist _ "technical_report.docx" I.

(** The path of the technical report of the model openai, from the data
    directory. *)
Definition openai_technical : FileUtils.Path :=
  [reports; openai; technical_report].

(** A store in which a file stands where the directory of the reports is
    to be. *)
Definition blocked_store : FileUtils.FileSystem :=
  {[ [reports] := FileUtils.OtherFile ]}.

(** A system that refuses nothing, and one on which nothing can be made
    or written. *)
Definition willing (a : FileUtils.access) (p : FileUtils.Path) : option exn :=
  None.

Definition read_only (a : FileUtils.access) (p : FileUtils.Path)
    : option exn :=
  match a with
  | FileUtils.Look | FileUtils.Read => None
  | _ => Some (OSError "Read-only file system")
  end.

End Examples.

(** * Further functions of the sources *)

(** ** More string methods *)

Module PyStrMore.

(** [s[:n]] *)
Fixpoint take (n : nat) (s : string) : string :=
  match n, s with
  | O, _ => EmptyString
  | S _, EmptyString => EmptyString
  | S n', String c s' => String c (take n' s')
  end.

(** [str(n)] for an int that is not negative. *)
Definition str_of_nat (n : nat) : string := pretty.pretty n.

End PyStrMore.

(** ** src/tools/document_extractor.py, the queries *)

Module DocumentQueries.
Import Docx DocumentExtractor.

(** The loop of [get_section_questions]: the questions of the first
    section whose lower-cased title is the lower-cased title asked for. *)
Fixpoint find_section (l : list Section_) (section_title : string)
    : list string :=
  match l with
  | [] => []
  | section :: rest =>
      if String.eqb (PyStr.lower (title section)) (PyStr.lower section_title)
      then questions section
      else find_section rest section_title
  end.

Definition get_section_questions (questioner : docx_file)
    (section_title : string) : list string :=
  match extract_questioner_content questioner with
  | ExtractionError _ => []
  | Extracted c => find_section (sections c) section_title
  end.

(** The body of the loop of [get_questioner_summary], for the section
    numbered [i]. *)
Definition summary_step (summary : string) (i : nat) (section : Section_)
    : string :=
  let summary :=
    summary +:+ PyStrMore.str_of_nat i +:+ ". " +:+ title section +:+ nl in
  let summary :=
    summary +:+ "   Questions: "
            +:+ PyStrMore.str_of_nat (length (questions section)) +:+ nl in
  let summary :=
    match questions section with
    | [] => summary
    | first :: _ =>
        summary +:+ "   Sample: " +:+ PyStrMore.take 100 first +:+ "..." +:+ nl
    end in
  summary +:+ nl.

(** [for i, section in enumerate(sections, start)] *)
Fixpoint summary_loop (summary : string) (start : nat) (l : list Section_)
    : string :=
  match l with
  | [] => summary
  | section :: rest =>
      summary_loop (summary_step summary start section) (S start) rest
  end.

Definition get_questioner_summary (questioner : docx_file) : string :=
  match extract_questioner_content questioner with
  | ExtractionError _ => "Error: Could not extract questioner content"
  | Extracted c =>
      summary_loop ("Questioner Document Structure:" +:+ nl +:+ nl) 1
        (sections c)
  end.

End DocumentQueries.

(** ** src/tools/consultor_loader.py *)

Module ConsultorLoader.


End ConsultorLoader.

(** ** src/agents/description_agent.py, the conversation *)

Module Conversation.
Import Docx DocumentExtractor.

(** [f"{i+1}. {section['title']}"] for the sections from index [i] on. *)
Fixpoint numbered_titles (i : nat) (l : list Section_) : list string :=
  match l with
  | [] => []
  | section :: rest =>
      (PyStrMore.str_of_nat (i + 1) +:+ ". " +:+ title section)
        :: numbered_titles (S i) rest
  end.

(** The text [context] of [start_conversation]. *)
Definition conversation_context (l : list Section_) (user_message : string)
    : string :=
  nl +:+ "Questioner Document Sections:" +:+ nl
     +:+ PyStr.join nl (numbered_titles 0 l) +:+ nl
     +:+ nl +:+ "User Message: " +:+ user_message +:+ nl
     +:+ nl
     +:+ "Please start asking questions from the questioner document systematically, one section at a time."
     +:+ nl +:+ "        ".

Section Agents.
Variable World : Type.

(** The delegate, as in [DescriptionAgent]: agent name and message
    content to the content of the reply. *)
Variable on_messages : string -> string -> IO World string.

Definition start_conversation (questioner : docx_file)
    (user_message : string) : IO World string :=
  match extract_questioner_content questioner with
  | ExtractionError e => mret ("Error: " +:+ e)
  | Extracted c =>
      let context := conversation_context (sections c) user_message in
      on_messages "chat_agent" context
  end.

End Agents.

End Conversation.

(** ** Descriptions used by the further properties *)

Module Describe.
Import Docx DocumentExtractor.

(** A string without surrounding whitespace. *)
Definition is_trimmed (s : string) : Prop := PyStr.strip s = s.

(** The texts of a section list in document order: each title followed by
    its questions. *)
Definition section_texts (l : list Section_) : list string :=
  concat ((fun s => title s :: questions s) <$> l).

Global Instance category_eq_dec : EqDecision Spec.Category.
Proof. solve_decision. Defined.

(** The sections a category receives. *)
Definition sections_for (c : Spec.Category) (l : list Section_)
    : list Section_ :=
  filter (fun s => Spec.category_of (title s) = Some c) l.

(** The questions of the sections a category receives, in order. *)
Definition questions_for (c : Spec.Category) (l : list Section_)
    : list string :=
  concat (questions <$> sections_for c l).

(** The overview text: the joined questions of the last overview section,
    the text [start] when there is none. *)
Definition overview_for (start : string) (l : list Section_) : string :=
  from_option (fun s => PyStr.join nl (questions s)) start
    (last (sections_for Spec.Overview l)).

(** A store that is a tree: whatever stands at a path stands in a
    directory. *)
Definition is_tree (fs : FileUtils.FileSystem) : Prop :=
  forall p node,
    fs !! p = Some node ->
    p <> []
    /\ FileUtils.node_at (FileUtils.parent p) fs = Some FileUtils.Directory.

(** The document [create_docx_report] builds from a title and a text
    that the library accepts: the title paragraph and the paragraph of the
    text. *)
Definition report_document (title content : string) : Docx.Document :=
  [ {| Docx.text := Docx.stored_text title;
       Docx.style_name := "Title";
       Docx.runs :=
         if PyStr.is_empty title then [] else [{| Docx.bold := None |}];
       Docx.alignment := Some 1 |};
    {| Docx.text := Docx.stored_text content;
       Docx.style_name := "Normal";
       Docx.runs :=
         if PyStr.is_empty content then [] else [{| Docx.bold := None |}];
       Docx.alignment := None |} ].

(** One step of the way is open: the system lets the directory be entered
    or made, and there is a directory or nothing at the path. *)
Definition step_open (refused : FileUtils.access -> FileUtils.Path -> option exn)
    (fs : FileUtils.FileSystem) (q : FileUtils.Path) : Prop :=
  refused FileUtils.Enter q = None
  /\ (fs !! q = None \/ fs !! q = Some FileUtils.Directory).

(** The way to the directory [path] is clear: every step from the root
    down to it is open. *)
Definition way_clear (refused : FileUtils.access -> FileUtils.Path -> option exn)
    (path : FileUtils.Path) (fs : FileUtils.FileSystem) : Prop :=
  forall q, q <> [] -> q `prefix_of` path -> step_open refused fs q.

(** A character that is not whitespace. *)
Definition nonspace (c : ascii) : bool := negb (PyStr.isspace c).

(** All characters of a string satisfy a test. *)
Fixpoint all_chars (f : ascii -> bool) (s : string) : bool :=
  match s with
  | EmptyString => true
  | String c s' => f c && all_chars f s'
  end.

(** A token: a non-empty string without whitespace. *)
Definition is_token (s : string) : bool :=
  PyStr.truthy s && all_chars nonspace s.

End Describe.

(** * Inputs of the further examples *)

Module MoreExamples.
Import Docx DocumentExtractor.

(** A questioner with a preamble line, two sections whose titles differ
    only in case, and a budget section. *)
Definition questioner : docx_file :=
  Docx [Examples.plain " Welcome "; Examples.heading "Technical scope";
        Examples.plain "Which stack?"; Examples.bold_line "TECHNICAL SCOPE";
        Examples.plain "Which cloud?"; Examples.heading "Budget";
        Examples.plain " How much? "; Examples.plain "By when?"].

(** The content of that questioner. *)
Definition questioner_content : Content :=
  {| sections :=
       [ {| title := "Technical scope"; questions := ["Which stack?"] |};
         {| title := "TECHNICAL SCOPE"; questions := ["Which cloud?"] |};
         {| title := "Budget"; questions := ["How much?"; "By when?"] |} ];
     raw_text :=
       Spec.text_lines
         ["Welcome"; "Technical scope"; "Which stack?"; "TECHNICAL SCOPE";
          "Which cloud?"; "Budget"; "How much?"; "By when?"];
     preamble := Some ("Welcome" +:+ nl) |}.

(** A rate file with one line. *)
Definition one_rate : text_file := Text ("Data   Engineer  9" +:+ nl).

(** The store after one report has been written to the empty one. *)
Definition one_report : FileUtils.FileSystem :=
  (FileUtils.create_docx_report Examples.willing "first"
     Examples.openai_technical "Report" Examples.empty_store).2.

(** A delegate that answers with the content it was sent. *)
Definition echo (agent content : string) : IO unit string :=
  fun w => (Ok content, w).

End MoreExamples.

Module RequirementExamples.
Import DocumentExtractor.

Definition section (t : string) (qs : list string) : Section_ :=
  {| title := t; questions := qs |}.

(** Two overview sections, two technical ones and one without keyword. *)
Definition five_sections : list Section_ :=
  [section "Overview" ["old"]; section "System" ["s1"; "s2"];
   section "Misc" ["m"]; section "Project summary" ["new1"; "new2"];
   section "Architecture" ["a1"]].

End RequirementExamples.

(** * Properties *)

(** ** Strings *)

Example strip_example : PyStr.strip ("  a b " +:+ nl) = "a b".
Proof. reflexivity. Qed.

Example split_example :
  PyStr.split "::" "a::b::::c" = ["a"; "b"; EmptyString; "c"].
Proof. reflexivity. Qed.

Example replace_example : PyStr.replace "ab" "x" "abcabab" = "xcxx".
Proof. reflexivity. Qed.

Example split_ws_example :
  PyStr.split_ws "  Backend   Engineer 7 " = ["Backend"; "Engineer"; "7"].
Proof. reflexivity. Qed.

Example lower_example : PyStr.lower "Project OVERVIEW" = "project overview".
Proof. reflexivity. Qed.

Example lines_example :
  PyStr.lines ("a 1" +:+ nl +:+ "b 2") = ["a 1" +:+ nl; "b 2"].
Proof. reflexivity. Qed.

(** ** Floats *)

Example format_example :
  format_money (PyFloat.of_Z 1234567) = "1,234,567.00"
  /\ format_money (PyFloat.of_Z (-70)) = "-70.00"
  /\ format_1f (PyFloat.of_Z 10) = "10.0"
  /\ (x ← PyFloat.parse "2.675"; Some (format_money x)) = Some "2.67"
  /\ (x ← PyFloat.parse "1234.5678"; Some (format_money x)) = Some "1,234.57"
  /\ (x ← PyFloat.parse "0.25"; Some (format_1f x)) = Some "0.2".
Proof. repeat split; vm_compute; reflexivity. Qed.

Example float_example :
  float "7" = Ok (PyFloat.of_Z 7)
  /\ float "-12" = Ok (PyFloat.of_Z (-12))
  /\ float "50.0" = Ok (PyFloat.of_Z 50)
  /\ float "1e3" = Ok (PyFloat.of_Z 1000)
  /\ float "1_0.5" = Ok (PyFloat.of_spec (PyFloat.nearest 21 (-1)))
  /\ float "7.5" = Ok (PyFloat.of_spec (PyFloat.nearest 15 (-1)))
  /\ float "x" = (Raise (ValueError "could not convert string to float: 'x'")
                  : result PyFloat.t)
  /\ float "1e" = (Raise (ValueError "could not convert string to float: '1e'")
                   : result PyFloat.t).
Proof. repeat split; vm_compute; reflexivity. Qed.

(** The tenth that [float] reads times three is the float written
    0.30000000000000004, not the one written 0.3. *)
Example float_product_example :
  (x ← PyFloat.parse "0.1"; Some (PyFloat.mul x (PyFloat.of_Z 3)))
  = PyFloat.parse "0.30000000000000004"
  /\ PyFloat.parse "0.30000000000000004" <> PyFloat.parse "0.3".
Proof. split; vm_compute; [reflexivity|discriminate]. Qed.

Module PyStrFacts.
Import PyStr.

Lemma app_cons c a b : String c a +:+ b = String c (a +:+ b).
Proof. reflexivity. Qed.

Lemma app_empty_l s : EmptyString +:+ s = s.
Proof. reflexivity. Qed.

Lemma app_empty_r s : s +:+ EmptyString = s.
Proof. induction s as [|c s IH]; [reflexivity|]. rewrite app_cons, IH. reflexivity. Qed.

Lemma app_assoc a b c : (a +:+ b) +:+ c = a +:+ b +:+ c.
Proof.
  induction a as [|x a IH]; [reflexivity|].
  rewrite !app_cons, IH. reflexivity.
Qed.

Lemma length_app a b :
  String.length (a +:+ b) = (String.length a + String.length b)%nat.
Proof.
  induction a as [|x a IH]; [reflexivity|].
  rewrite app_cons. simpl. rewrite IH. reflexivity.
Qed.

Lemma drop_app a b : drop (String.length a) (a +:+ b) = b.
Proof. induction a as [|x a IH]; [reflexivity|]. rewrite app_cons. simpl. exact IH. Qed.

Lemma length_drop n s : (String.length (drop n s) <= String.length s)%nat.
Proof.
  revert s. induction n as [|n IH]; intros [|c s]; simpl; try lia.
  specialize (IH s). lia.
Qed.

Lemma startswith_app p r : startswith p (p +:+ r) = true.
Proof.
  induction p as [|c p IH]; [reflexivity|].
  rewrite app_cons. simpl. rewrite Ascii.eqb_refl. exact IH.
Qed.

Lemma startswith_inv p s :
  startswith p s = true -> s = p +:+ drop (String.length p) s.
Proof.
  revert s. induction p as [|c p IH]; intros s Hs; [reflexivity|].
  destruct s as [|d s]; [discriminate|]. simpl in Hs.
  destruct (Ascii.eqb c d) eqn:E; [|discriminate].
  apply Ascii.eqb_eq in E. subst d.
  rewrite app_cons. simpl. f_equal. apply IH, Hs.
Qed.

Lemma startswith_iff p s :
  startswith p s = true <-> exists r, s = p +:+ r.
Proof.
  split.
  - intros Hs. eexists. apply startswith_inv, Hs.
  - intros [r ->]. apply startswith_app.
Qed.

Lemma contains_iff sub s :
  contains sub s = true <-> exists a b, s = a +:+ sub +:+ b.
Proof.
  induction s as [|c s IH]; simpl.
  - rewrite orb_false_r, startswith_iff. split.
    + intros [r Hr]. exists EmptyString, r. exact Hr.
    + intros [a [b Hab]]. destruct a as [|x a]; [|discriminate].
      exists b. exact Hab.
  - rewrite orb_true_iff, IH, startswith_iff. split.
    + intros [[r Hr]|[a [b Hab]]].
      * exists EmptyString, r. exact Hr.
      * exists (String c a), b. rewrite app_cons. f_equal. exact Hab.
    + intros [a [b Hab]]. destruct a as [|x a].
      * left. exists b. exact Hab.
      * right. rewrite app_cons in Hab. injection Hab as _ Hab.
        exists a, b. exact Hab.
Qed.

Lemma partition_None sep s :
  partition sep s = None <-> contains sep s = false.
Proof.
  induction s as [|c s IH]; simpl.
  - destruct (startswith sep EmptyString); simpl; split; congruence.
  - destruct (startswith sep (String c s)); simpl.
    + split; congruence.
    + rewrite <- IH. destruct (partition sep s) as [[a b]|]; split; congruence.
Qed.

Lemma partition_Some sep s a b :
  partition sep s = Some (a, b) -> s = a +:+ sep +:+ b.
Proof.
  revert a b. induction s as [|c s IH]; intros a b; simpl.
  - destruct (startswith sep EmptyString) eqn:E; [|discriminate].
    intros [= <- <-]. rewrite app_empty_l. apply startswith_inv, E.
  - destruct (startswith sep (String c s)) eqn:E.
    + intros [= <- <-]. rewrite app_empty_l. apply startswith_inv, E.
    + destruct (partition sep s) as [[a' b']|] eqn:P; [|discriminate].
      intros [= <- <-]. rewrite app_cons. f_equal. apply IH. reflexivity.
Qed.

Lemma partition_unfold sep s :
  partition sep s =
  if startswith sep s then Some (EmptyString, drop (String.length sep) s)
  else match s with
       | EmptyString => None
       | String c s' =>
           match partition sep s' with
           | Some (a, b) => Some (String c a, b)
           | None => None
           end
       end.
Proof. destruct s; reflexivity. Qed.

(** The cut is at the leftmost occurrence: the separator starts at no
    position before it. *)
Lemma partition_first sep s a b :
  partition sep s = Some (a, b) ->
  forall i, (i < String.length a)%nat -> startswith sep (drop i s) = false.
Proof.
  revert a b. induction s as [|c s IH]; intros a b; rewrite partition_unfold.
  - destruct (startswith sep EmptyString); [|discriminate].
    intros [= <- <-] i Hi. simpl in Hi. lia.
  - destruct (startswith sep (String c s)) eqn:E.
    + intros [= <- <-] i Hi. simpl in Hi. lia.
    + destruct (partition sep s) as [[a' b']|] eqn:P; [|discriminate].
      intros [= <- <-] [|i] Hi; [exact E|].
      simpl in *. apply (IH a' b'); [reflexivity|lia].
Qed.

Lemma partition_leftmost sep a b :
  (forall i, (i < String.length a)%nat ->
             startswith sep (drop i (a +:+ sep +:+ b)) = false) ->
  partition sep (a +:+ sep +:+ b) = Some (a, b).
Proof.
  induction a as [|c a IH]; intros Hfirst; rewrite partition_unfold.
  - rewrite app_empty_l, startswith_app, drop_app. reflexivity.
  - assert (H0 := Hfirst 0%nat ltac:(simpl; lia)).
    change (startswith sep (String c a +:+ sep +:+ b) = false) in H0.
    rewrite H0, app_cons. rewrite IH; [reflexivity|].
    intros i Hi. apply (Hfirst (S i)). simpl. lia.
Qed.

Lemma partition_shorter sep s a b :
  sep <> EmptyString -> partition sep s = Some (a, b) ->
  (String.length b < String.length s)%nat.
Proof.
  intros Hsep Hp. apply partition_Some in Hp. subst s.
  rewrite !length_app. destruct sep; [congruence|]. simpl. lia.
Qed.

Lemma split_upto_enough sep n s :
  sep <> EmptyString -> (String.length s <= n)%nat ->
  split_upto n sep s = split_upto (String.length s) sep s.
Proof.
  intros Hsep. revert s.
  induction n as [n IH] using lt_wf_ind. intros s Hn.
  destruct n as [|n].
  - replace (String.length s) with 0%nat by lia. reflexivity.
  - destruct (String.length s) as [|m] eqn:Hlen.
    + simpl. destruct (partition sep s) as [[a b]|] eqn:P; [|reflexivity].
      apply partition_shorter in P; [lia|exact Hsep].
    + simpl. destruct (partition sep s) as [[a b]|] eqn:P; [|reflexivity].
      pose proof (partition_shorter _ _ _ _ Hsep P) as Hb.
      f_equal. rewrite (IH n); [|lia|lia]. symmetry. apply IH; lia.
Qed.

Lemma split_absent sep s : contains sep s = false -> split sep s = [s].
Proof.
  intros Hc. apply partition_None in Hc. unfold split.
  destruct (String.length s); simpl; [reflexivity|]. rewrite Hc. reflexivity.
Qed.

Lemma split_cut sep s a b :
  sep <> EmptyString -> partition sep s = Some (a, b) ->
  split sep s = a :: split sep b.
Proof.
  intros Hsep P. pose proof (partition_shorter _ _ _ _ Hsep P) as Hb.
  unfold split. destruct (String.length s) as [|n] eqn:Hlen; [lia|].
  simpl. rewrite P. f_equal. apply split_upto_enough; [exact Hsep|lia].
Qed.

Lemma split_head sep s :
  exists rest, split sep s = from_option fst s (partition sep s) :: rest.
Proof.
  unfold split. destruct (String.length s) as [|n] eqn:Hlen.
  - destruct s; [|discriminate]. simpl.
    destruct (startswith sep EmptyString) eqn:E; simpl; eauto.
  - simpl. destruct (partition sep s) as [[a b]|]; simpl; eauto.
Qed.

Lemma lower_app a b : lower (a +:+ b) = lower a +:+ lower b.
Proof.
  induction a as [|c a IH]; [reflexivity|].
  rewrite app_cons. simpl. rewrite IH. reflexivity.
Qed.

Lemma contains_lower k s :
  contains k s = true -> contains (lower k) (lower s) = true.
Proof.
  rewrite !contains_iff. intros [a [b ->]].
  exists (lower a), (lower b). rewrite !lower_app. reflexivity.
Qed.

Lemma any_in_elem keywords k s :
  In k keywords -> contains k s = true -> any_in keywords s = true.
Proof.
  intros Hin Hc. unfold any_in. apply existsb_exists. eauto.
Qed.

End PyStrFacts.

(** ** The rate table and the cost of a task *)

Module CostFacts.
Import PyStr PyStrFacts CostCalculator Spec.

Section WithNumbers.
Context `{PyNum num}.

Lemma split_ws_lstrip s : split_ws (lstrip s) = split_ws s.
Proof.
  unfold split_ws. induction s as [|c s IH]; [reflexivity|].
  simpl. destruct (isspace c) eqn:E; [exact IH|].
  simpl. rewrite E. reflexivity.
Qed.

Lemma split_ws_go_rstrip cur s :
  split_ws_go cur (rstrip s) = split_ws_go cur s.
Proof.
  revert cur. induction s as [|c s IH]; intros cur; [reflexivity|].
  simpl. destruct (isspace c) eqn:E; simpl.
  - destruct (is_empty (rstrip s)) eqn:Er.
    + rewrite <- (IH None). destruct (rstrip s); [|discriminate].
      simpl. rewrite app_nil_r. reflexivity.
    + simpl. rewrite E, IH. reflexivity.
  - rewrite E. apply IH.
Qed.

Lemma split_ws_strip s : split_ws (strip s) = split_ws s.
Proof.
  unfold strip, split_ws. rewrite split_ws_go_rstrip. apply split_ws_lstrip.
Qed.

Lemma float_parse (token : string) :
  float token = match parse_float token with
                | Some x => Ok x
                | None => Raise (ValueError
                    ("could not convert string to float: '" +:+ token +:+ "'"))
                end.
Proof. reflexivity. Qed.

(** What one line does to the dict, by the kind of the line. *)
Lemma rate_line_classify (rates : gmap string num) line :
  match classify line with
  | Skipped => rate_line rates line = Ok rates
  | Entry role rate => rate_line rates line = Ok (<[role := rate]> rates)
  | Malformed => exists e, rate_line rates line = Raise e
  end.
Proof.
  unfold classify, rate_line. rewrite split_ws_strip.
  destruct (truthy (strip line)) eqn:Et.
  - remember (split_ws line) as parts eqn:Es.
    destruct (Nat.ltb_spec (length parts) 2) as [Hlt|Hge].
    + replace (2 <=? length parts)%nat with false
        by (symmetry; apply Nat.leb_gt; lia).
      reflexivity.
    + replace (2 <=? length parts)%nat with true
        by (symmetry; apply Nat.leb_le; lia).
      unfold last_item. destruct (last parts) as [token|] eqn:El; simpl.
      * rewrite float_parse. destruct (parse_float token); simpl; eauto.
      * apply last_None in El. subst parts. rewrite El in Hge. simpl in Hge. lia.
  - assert (strip line = EmptyString) as Hs.
    { destruct (strip line); [reflexivity|discriminate]. }
    rewrite <- split_ws_strip, Hs. reflexivity.
Qed.

Lemma read_rates_entries lines (rates : gmap string num) :
  (read_rates lines rates).1 = fold_left Spec.insert_entry (entries_read lines) rates.
Proof.
  revert rates. induction lines as [|line rest IH]; intros rates; [reflexivity|].
  simpl. pose proof (rate_line_classify rates line) as Hline.
  destruct (classify line) as [|role rate|].
  - rewrite Hline. apply IH.
  - rewrite Hline. apply IH.
  - destruct Hline as [e ->]. reflexivity.
Qed.

Lemma lookup_entries (entries : list (string * num)) rates role :
  fold_left Spec.insert_entry entries rates !! role =
  match last_rate role entries with
  | Some x => Some x
  | None => rates !! role
  end.
Proof.
  revert rates. induction entries as [|[r x] es IH]; intros rates; [reflexivity|].
  simpl. rewrite IH. unfold last_rate, Spec.insert_entry. simpl.
  destruct (decide (r = role)) as [->|Hne].
  - rewrite filter_cons_True by reflexivity. rewrite last_cons.
    destruct (last (filter _ es)) as [e|]; simpl; [reflexivity|].
    apply lookup_insert_eq.
  - rewrite filter_cons_False by (simpl; congruence).
    destruct (last (filter _ es)) as [e|]; simpl; [reflexivity|].
    apply lookup_insert_ne, Hne.
Qed.


Lemma dict_is_empty_true (rates : gmap string num) :
  dict_is_empty rates = true <-> rates = ∅.
Proof.
  unfold dict_is_empty. rewrite bool_decide_eq_true. apply map_size_empty_iff.
Qed.


(** The loop ends at the end of the lines or with an exception of class
    [Exception]. *)
Lemma read_rates_caught lines (rates : gmap string num) :
  (read_rates lines rates).2 = Ok tt
  \/ exists e, (read_rates lines rates).2 = Raise e.
Proof.
  revert rates. induction lines as [|line rest IH]; intros rates; [left; reflexivity|].
  simpl. pose proof (rate_line_classify rates line) as Hline.
  destruct (classify line) as [|role rate|].
  - rewrite Hline. apply IH.
  - rewrite Hline. apply IH.
  - destruct Hline as [e ->]. right. exists e. reflexivity.
Qed.

(** The table the [try] block leaves: the entries of the lines read. *)
Lemma read_pays_entries (pays : rate_file) :
  (read_pays pays ∅).1
  = fold_left Spec.insert_entry (entries_read (pays_lines pays))
      (∅ : gmap string num).
Proof.
  destruct pays as [[|e|content]|content e|e]; simpl; try reflexivity.
  - apply read_rates_entries.
  - rewrite <- read_rates_entries.
    destruct (read_rates (lines content) ∅) as [rates [[]|e'|b]]; reflexivity.
Qed.

Lemma read_pays_caught (pays : rate_file) (rates : gmap string num) :
  (read_pays pays rates).2 = Ok tt
  \/ exists e, (read_pays pays rates).2 = Raise e.
Proof.
  destruct pays as [[|e|content]|content e|e]; simpl; eauto.
  - apply read_rates_caught.
  - destruct (read_rates_caught (lines content) rates) as [Hr|[e' Hr]];
      destruct (read_rates (lines content) rates) as [rates' r];
      simpl in Hr; subst r; simpl; eauto.
Qed.

(** The [except] clause catches what the [try] block raises. *)
Lemma try_block_caught (pays : rate_file) (start : gmap string num) :
  match read_pays pays start with
  | (rates, RaiseBase b) => RaiseBase b
  | (rates, _) => Ok rates
  end = Ok (read_pays pays start).1.
Proof.
  destruct (read_pays_caught pays start) as [Hr|[e Hr]];
    destruct (read_pays pays start) as [rates r];
    simpl in Hr; subst r; reflexivity.
Qed.

Lemma load_hourly_rates_table (pays : rate_file) :
  (forall e, pays <> NoAccess e) ->
  load_hourly_rates pays = Ok (table_of pays).
Proof.
  intros Haccess. unfold table_of. rewrite <- read_pays_entries.
  destruct pays as [[|e|content]|content e|e];
    [reflexivity| | | |destruct (Haccess e); reflexivity];
    unfold load_hourly_rates, pays_exists, mbind, result_bind;
    rewrite try_block_caught; reflexivity.
Qed.

Lemma load_hourly_rates_no_access e :
  load_hourly_rates (NoAccess e) = (Raise e : result (gmap string num)).
Proof. reflexivity. Qed.

Lemma load_hourly_rates_found (pays : text_file) :
  load_hourly_rates pays = Ok (table_of pays).
Proof. apply load_hourly_rates_table. discriminate. Qed.

Lemma load_hourly_rates_returns (pays : text_file) :
  exists rates : gmap string num, load_hourly_rates pays = Ok rates.
Proof. eexists. apply load_hourly_rates_found. Qed.

(** A table the loader returns is the one of the lines read. *)
Lemma load_hourly_rates_inv (pays : rate_file) (rates : gmap string num) :
  load_hourly_rates pays = Ok rates -> rates = table_of pays.
Proof.
  destruct pays as [file|content e|e].
  - rewrite load_hourly_rates_found. congruence.
  - rewrite load_hourly_rates_table by discriminate. congruence.
  - discriminate.
Qed.

Lemma load_hourly_rates_absent :
  load_hourly_rates Absent = Ok (Config.ENGINEERING_ROLES : gmap string num).
Proof. reflexivity. Qed.



End WithNumbers.
End CostFacts.

Import CostCalculator.

(** A task list that is not empty makes [calculate_project_cost] raise:
    the first statement of the loop body evaluates the unbound name. *)
Lemma calculate_project_cost_nonempty `{PyNum num} pays (task : Task num) tasks :
  calculate_project_cost pays (task :: tasks) = Raise (NameError "tasksummary").
Proof. reflexivity. Qed.

Lemma calculate_project_cost_empty `{PyNum num} pays :
  exists summary : CostSummary num,
    calculate_project_cost pays [] = Ok summary
    /\ project_total_cost summary = of_int 0
    /\ project_total_hours summary = of_int 0
    /\ breakdown summary = [].
Proof. eexists. split; [reflexivity|]. auto. Qed.

(** C1 (code at the failing input): on the task list of the claim, a
    Backend Engineer task of 10 hours and a Bogus task of 5 hours, with
    the default rates, [calculate_project_cost] raises NameError for the
    name [tasksummary] and returns no totals. *)
Theorem calculate_project_cost_claimed_list :
  calculate_project_cost Absent [Examples.backend_task; Examples.bogus_task]
  = Raise (NameError "tasksummary").
Proof. reflexivity. Qed.


(** The lines before the malformed one are kept, the ones after it are
    not read. *)
Example load_hourly_rates_keeps_earlier_lines :
  load_hourly_rates Examples.malformed_middle
  = Ok ({[ "b" := PyFloat.of_Z 5 ]} : gmap string PyFloat.t).
Proof. vm_compute. reflexivity. Qed.

(** The line read before the file cannot be decoded is kept. *)
Example load_hourly_rates_keeps_lines_before_error :
  load_hourly_rates Examples.cut_short
  = Ok ({[ "a" := PyFloat.of_Z 1 ]} : gmap string PyFloat.t).
Proof. vm_compute. reflexivity. Qed.



(** C7: for every state of the rate file (absent, not to be opened, or
    read to its end), every role and every hours value, the loader returns
    a table and [calculate_task_cost] returns a value and raises nothing;
    when the role is absent from the table the loader returns, the value
    carries the error message, the role and the hours given, rate 0 and
    total cost 0.  The same holds of [calculate_task_cost] whatever the
    loader meets at the path of the rate file, whenever it returns a
    table. *)
Theorem calculate_task_cost_unknown_role `{PyNum num} (pays : text_file)
    (role : string) (hours : num) :
  (exists rates : gmap string num,
     load_hourly_rates pays = Ok rates
     /\ (exists item, calculate_task_cost pays role hours = Ok item)
     /\ (rates !! role = None ->
         calculate_task_cost pays role hours
         = Ok {| error := Some ("Role '" +:+ role +:+ "' not found in hourly rates");
                 role := role;
                 hours := hours;
                 rate := of_int 0;
                 total_cost := of_int 0 |}))
  /\ (forall (met : rate_file) (rates : gmap string num),
        load_hourly_rates met = Ok rates ->
        (exists item, calculate_task_cost met role hours = Ok item)
        /\ (rates !! role = None ->
            calculate_task_cost met role hours
            = Ok {| error := Some ("Role '" +:+ role +:+ "' not found in hourly rates");
                    role := role;
                    hours := hours;
                    rate := of_int 0;
                    total_cost := of_int 0 |})).
Proof.
  assert (forall (met : rate_file) (rates : gmap string num),
            load_hourly_rates met = Ok rates ->
            (exists item, calculate_task_cost met role hours = Ok item)
            /\ (rates !! role = None ->
                calculate_task_cost met role hours
                = Ok {| error := Some ("Role '" +:+ role
                                       +:+ "' not found in hourly rates");
                        role := role;
                        hours := hours;
                        rate := of_int 0;
                        total_cost := of_int 0 |})) as Hmet.
  { intros met rates Hload. unfold calculate_task_cost. rewrite Hload. simpl.
    split.
    - destruct (rates !! role); eauto.
    - intros ->. reflexivity. }
  split; [|exact Hmet].
  destruct (CostFacts.load_hourly_rates_returns pays) as [rates Hload].
  exists rates. split; [exact Hload|]. apply Hmet, Hload.
Qed.

(** C7 at the role of the specification's example, with the default
    rates. *)
Lemma calculate_task_cost_unknown_role_witness :
  calculate_task_cost Absent "Nonexistent Role" (PyFloat.of_Z 5)
  = Ok {| error := Some "Role 'Nonexistent Role' not found in hourly rates";
          role := "Nonexistent Role";
          hours := PyFloat.of_Z 5;
          rate := PyFloat.of_Z 0;
          total_cost := PyFloat.of_Z 0 |}.
Proof.
  destruct (calculate_task_cost_unknown_role Absent "Nonexistent Role"
              (PyFloat.of_Z 5)) as [[rates [Hload [_ Hitem]]] _].
  rewrite Hitem; [reflexivity|].
  rewrite CostFacts.load_hourly_rates_absent in Hload.
  injection Hload as <-. vm_compute. reflexivity.
Defined.

(** The product of two floats that are finite and not zero is the
    rounding of the product of the two numbers, [mx * my] times two to
    [ex + ey], taken as it is ([loc_Exact]): the float nearest to it, ties
    going to the even mantissa, an infinity beyond the largest float. *)
Lemma float_mul_rounds (x y : PyFloat.t) sx mx ex sy my ey :
  FloatOps.Prim2SF x = SpecFloat.S754_finite sx mx ex ->
  FloatOps.Prim2SF y = SpecFloat.S754_finite sy my ey ->
  FloatOps.Prim2SF (PyFloat.mul x y)
  = SpecFloat.binary_round_aux FloatOps.prec FloatOps.emax (xorb sx sy)
      (Zpos (mx * my)) (ex + ey) SpecFloat.loc_Exact.
Proof.
  intros Hx Hy. unfold PyFloat.mul. rewrite FloatAxioms.mul_spec, Hx, Hy.
  reflexivity.
Qed.

(** C8 (counterexample): with the rate 0.1 read from the rate file and 3
    hours the total cost is the float written 0.30000000000000004, which
    is not the product of the rate and the hours: as numbers the rate is
    3602879701896397 / 2^55, and three times that, 10808639105689191 /
    2^55, is not the total 1351079888211149 / 2^52, which is
    10808639105689192 / 2^55. *)
Lemma calculate_task_cost_product_not_exact :
  exists item,
    calculate_task_cost Examples.tenth_rate "x" (PyFloat.of_Z 3) = Ok item
    /\ PyFloat.parse "0.1" = Some (rate item)
    /\ hours item = PyFloat.of_Z 3
    /\ PyFloat.parse "0.30000000000000004" = Some (total_cost item)
    /\ Spec.value (rate item)
       = Some (QArith_base.Qmake 3602879701896397 36028797018963968)
    /\ Spec.value (hours item) = Some (QArith_base.Qmake 3 1)
    /\ Spec.value (total_cost item)
       = Some (QArith_base.Qmake 1351079888211149 4503599627370496)
    /\ Spec.exact_product (rate item) (hours item) (total_cost item) = false.
Proof.
  eexists. split; [vm_compute; reflexivity|].
  cbn [rate hours total_cost].
  split; [vm_compute; reflexivity|]. split; [reflexivity|].
  split; [vm_compute; reflexivity|]. split; [vm_compute; reflexivity|].
  split; [vm_compute; reflexivity|]. split; vm_compute; reflexivity.
Qed.

(** C8 (amended): for every role the loaded table holds and every hours
    value, a float, [calculate_task_cost] returns the item with the rate of
    the table for that role and the total cost [rate * hours] that float
    multiplication gives: by IEEE 754 the rounding of the product of the
    two numbers, the float nearest to it, ties to even, when both are
    finite and not zero.  With
    the default rates, the Backend Engineer and 10 hours the rate is 7 and
    the total cost 70. *)
Theorem calculate_task_cost_known_role (pays : rate_file)
    (rates : gmap string PyFloat.t) (role : string) (hours r : PyFloat.t) :
  load_hourly_rates pays = Ok rates ->
  rates !! role = Some r ->
  (exists total,
     calculate_task_cost pays role hours
     = Ok {| error := None;
             role := role;
             hours := hours;
             rate := r;
             total_cost := total |}
     /\ total = PyFloat.mul r hours
     /\ FloatOps.Prim2SF total
        = SpecFloat.SFmul FloatOps.prec FloatOps.emax
            (FloatOps.Prim2SF r) (FloatOps.Prim2SF hours)
     /\ forall sr mr er sh mh eh,
          FloatOps.Prim2SF r = SpecFloat.S754_finite sr mr er ->
          FloatOps.Prim2SF hours = SpecFloat.S754_finite sh mh eh ->
          FloatOps.Prim2SF total
          = SpecFloat.binary_round_aux FloatOps.prec FloatOps.emax
              (xorb sr sh) (Zpos (mr * mh)) (er + eh) SpecFloat.loc_Exact)
  /\ calculate_task_cost Absent "Backend Engineer" (PyFloat.of_Z 10)
     = Ok {| error := None;
             role := "Backend Engineer";
             hours := PyFloat.of_Z 10;
             rate := PyFloat.of_Z 7;
             total_cost := PyFloat.of_Z 70 |}.
Proof.
  intros Hload Hr. split; [|vm_compute; reflexivity].
  exists (PyFloat.mul r hours). split; [|split; [reflexivity|split]].
  - unfold calculate_task_cost. rewrite Hload. simpl. rewrite Hr. reflexivity.
  - apply FloatAxioms.mul_spec.
  - intros sr mr er sh mh eh. apply float_mul_rounds.
Qed.

(** C8 at the rate 0.1 read from a rate file, with 3 hours. *)
Lemma calculate_task_cost_known_role_witness :
  exists rate total,
    PyFloat.parse "0.1" = Some rate
    /\ PyFloat.parse "0.30000000000000004" = Some total
    /\ calculate_task_cost Examples.tenth_rate "x" (PyFloat.of_Z 3)
       = Ok {| error := None; role := "x"; hours := PyFloat.of_Z 3;
               rate := rate; total_cost := total |}.
Proof.
  eexists _, _. split; [vm_compute; reflexivity|].
  split; [vm_compute; reflexivity|].
  destruct (calculate_task_cost_known_role Examples.tenth_rate
              {[ "x" := PyFloat.of_spec (PyFloat.decimal false 1 2 (-1)) ]}
              "x" (PyFloat.of_Z 3)
              (PyFloat.of_spec (PyFloat.decimal false 1 2 (-1))))
    as [[total [Hitem [Htotal _]]] _].
  - vm_compute. reflexivity.
  - apply lookup_singleton_eq.
  - rewrite Hitem, Htotal. vm_compute. reflexivity.
Defined.

(** ** The reply parser *)

Import DescriptionAgent.

Lemma parse_without_separator response :
  PyStr.contains "FINANCIAL ANALYSIS:" response = false ->
  _parse_model_response response
  = {| technical := response; financial := EmptyString |}.
Proof.
  intros Hc. unfold _parse_model_response.
  rewrite PyStrFacts.split_absent by exact Hc. reflexivity.
Qed.

Lemma parse_with_separator response before after :
  PyStr.partition "FINANCIAL ANALYSIS:" response = Some (before, after) ->
  _parse_model_response response
  = {| technical :=
         PyStr.strip (PyStr.replace "TECHNICAL ANALYSIS:" EmptyString before);
       financial := PyStr.strip (Spec.up_to "FINANCIAL ANALYSIS:" after) |}.
Proof.
  intros Hp. unfold _parse_model_response.
  assert ("FINANCIAL ANALYSIS:" <> EmptyString) as Hsep by discriminate.
  rewrite (PyStrFacts.split_cut _ _ _ _ Hsep Hp).
  destruct (PyStrFacts.split_head "FINANCIAL ANALYSIS:" after) as [rest ->].
  reflexivity.
Qed.

(** C3 (counterexample): a reply without the separator is returned as it
    is, with its surrounding whitespace; with two separators the financial
    text is the text between them; the words TECHNICAL ANALYSIS: are
    removed wherever they stand in the first part. *)
Lemma parse_model_response_not_as_stated :
  (PyStr.contains "FINANCIAL ANALYSIS:" " hi " = false
   /\ technical (_parse_model_response " hi ") = " hi "
   /\ technical (_parse_model_response " hi ") <> PyStr.strip " hi ")
  /\ (financial
        (_parse_model_response "aFINANCIAL ANALYSIS:bFINANCIAL ANALYSIS:c") = "b"
      /\ PyStr.strip "bFINANCIAL ANALYSIS:c" <> "b"
      /\ PyStr.strip "c" <> "b")
  /\ (technical
        (_parse_model_response "x TECHNICAL ANALYSIS: y FINANCIAL ANALYSIS: z")
      = "x  y"
      /\ PyStr.startswith "TECHNICAL ANALYSIS:" "x TECHNICAL ANALYSIS: y " = false).
Proof.
  repeat split; try (vm_compute; reflexivity); vm_compute; discriminate.
Qed.

(** C3 (amended): a reply that does not contain the separator
    FINANCIAL ANALYSIS: gives technical = the full reply as it is (not
    trimmed) and financial = the empty string; a reply in which the
    separator first occurs after the text [before], followed by [after],
    gives technical = [before] with every occurrence of TECHNICAL ANALYSIS:
    removed, then trimmed, and financial = [after] up to its next separator
    (all of it when there is none), trimmed. *)
Theorem parse_model_response_cases (response : string) :
  (PyStr.contains "FINANCIAL ANALYSIS:" response = false ->
   _parse_model_response response
   = {| technical := response; financial := EmptyString |})
  /\ (forall before after,
        response = before +:+ "FINANCIAL ANALYSIS:" +:+ after ->
        (forall i, (i < String.length before)%nat ->
           PyStr.startswith "FINANCIAL ANALYSIS:" (PyStr.drop i response) = false) ->
        _parse_model_response response
        = {| technical :=
               PyStr.strip
                 (PyStr.replace "TECHNICAL ANALYSIS:" EmptyString before);
             financial :=
               PyStr.strip (Spec.up_to "FINANCIAL ANALYSIS:" after) |}).
Proof.
  split; [apply parse_without_separator|].
  intros before after -> Hfirst.
  apply parse_with_separator, PyStrFacts.partition_leftmost, Hfirst.
Qed.

(** The amended statement at a reply with both headings. *)
Lemma parse_model_response_cases_witness :
  _parse_model_response "TECHNICAL ANALYSIS: t FINANCIAL ANALYSIS: f "
  = {| technical := "t"; financial := "f" |}.
Proof.
  destruct (parse_model_response_cases
              "TECHNICAL ANALYSIS: t FINANCIAL ANALYSIS: f ") as [_ Hsep].
  rewrite (Hsep "TECHNICAL ANALYSIS: t " " f ").
  - reflexivity.
  - reflexivity.
  - intros i Hi.
    do 22 (destruct i as [|i]; [reflexivity|]).
    simpl in Hi. lia.
Defined.

(** With one separator the financial text is all the text after it. *)
Lemma up_to_absent sep s : PyStr.contains sep s = false -> Spec.up_to sep s = s.
Proof.
  intros Hc. unfold Spec.up_to.
  apply PyStrFacts.partition_None in Hc. rewrite Hc. reflexivity.
Qed.

(** ** Writing a report and reading it back *)

Module StoreFacts.
Import Docx FileUtils Describe.

Lemma paragraph_texts_pair (p q : Paragraph) :
  paragraph_texts [p; q] = Spec.kept_texts [text p; text q].
Proof.
  unfold Spec.kept_texts. simpl.
  destruct (PyStr.truthy (PyStr.strip (text p)));
    destruct (PyStr.truthy (PyStr.strip (text q))); reflexivity.
Qed.

Lemma app_cons_middle (above : Path) name (mid : list Name) :
  (above ++ [name]) ++ mid = above ++ name :: mid.
Proof. rewrite <- (assoc_L (++)). reflexivity. Qed.

Lemma app_longer (above mid : Path) : mid <> [] -> above ++ mid <> above.
Proof.
  intros Hmid Heq. apply (f_equal length) in Heq.
  rewrite length_app in Heq. destruct mid; [congruence|simpl in Heq; lia].
Qed.

(** A path below the root is not on the way to its parent. *)
Lemma not_prefix_of_parent (p : Path) (mid : Path) :
  p <> [] -> mid `prefix_of` parent p -> p <> mid.
Proof.
  intros Hp Hpre ->. apply prefix_length in Hpre. unfold parent in Hpre.
  destruct (exists_last Hp) as [l [x Hl]]. rewrite Hl in Hpre.
  rewrite removelast_last, length_app in Hpre. simpl in Hpre. lia.
Qed.

Section WithSystem.
Variable refused : access -> Path -> option exn.

(** The directories are made when the way is open: the ones on the way
    then exist, and nothing else changes. *)
Lemma mkdir_from_ok below : forall above fs,
  (forall mid, mid <> [] -> mid `prefix_of` below ->
     step_open refused fs (above ++ mid)) ->
  exists fs',
    mkdir_from refused above below fs = (Ok tt, fs')
    /\ (forall mid, mid <> [] -> mid `prefix_of` below ->
          fs' !! (above ++ mid) = Some Directory)
    /\ (forall q,
          (forall mid, mid <> [] -> mid `prefix_of` below -> q <> above ++ mid) ->
          fs' !! q = fs !! q).
Proof.
  induction below as [|name rest IH]; intros above fs Hway.
  - exists fs. split; [reflexivity|]. split; [|reflexivity].
    intros mid Hmid Hpre. apply prefix_nil_inv in Hpre. contradiction.
  - set (here := above ++ [name]).
    set (fs1 := match fs !! here with
                | None => <[here := Directory]> fs
                | Some _ => fs
                end).
    destruct (Hway [name]) as [Henter Hnode];
      [discriminate|apply prefix_cons, prefix_nil|].
    change (above ++ [name]) with here in Henter, Hnode.
    assert (mkdir_from refused above (name :: rest) fs
            = mkdir_from refused here rest fs1) as Hstep.
    { simpl. fold here. rewrite Henter. subst fs1.
      destruct Hnode as [Hn|Hn]; rewrite Hn; reflexivity. }
    assert (fs1 !! here = Some Directory) as Hhere.
    { subst fs1. destruct Hnode as [Hn|Hn]; rewrite Hn;
        [apply lookup_insert_eq|exact Hn]. }
    assert (forall q, q <> here -> fs1 !! q = fs !! q) as Hother.
    { intros q Hq. subst fs1. destruct (fs !! here); [reflexivity|].
      apply lookup_insert_ne. congruence. }
    destruct (IH here fs1) as [fs' [Hrun [Hdirs Hframe]]].
    { intros mid Hmid Hpre. unfold step_open.
      rewrite Hother by (apply app_longer, Hmid).
      unfold here. rewrite app_cons_middle.
      apply Hway; [discriminate|apply prefix_cons, Hpre]. }
    exists fs'. split; [rewrite Hstep; exact Hrun|]. split.
    + intros mid Hmid Hpre. destruct mid as [|m mid]; [congruence|].
      pose proof (prefix_cons_inv_1 _ _ _ _ Hpre) as ->.
      apply prefix_cons_inv_2 in Hpre. rewrite <- app_cons_middle. fold here.
      destruct mid as [|m' mid].
      * rewrite app_nil_r, Hframe; [exact Hhere|].
        intros mid Hmid' _ Heq. symmetry in Heq.
        exact (app_longer _ _ Hmid' Heq).
      * apply Hdirs; [discriminate|exact Hpre].
    + intros q Hq. rewrite Hframe.
      * apply Hother. intros ->. apply (Hq [name]);
          [discriminate|apply prefix_cons, prefix_nil|reflexivity].
      * intros mid Hmid Hpre ->. apply (Hq (name :: mid));
          [discriminate|apply prefix_cons, Hpre|apply app_cons_middle].
Qed.

(** When the directories are made, the way was open. *)
Lemma mkdir_from_inv below : forall above fs fs',
  mkdir_from refused above below fs = (Ok tt, fs') ->
  forall mid, mid <> [] -> mid `prefix_of` below -> step_open refused fs (above ++ mid).
Proof.
  induction below as [|name rest IH]; intros above fs fs' Hrun mid Hmid Hpre.
  - apply prefix_nil_inv in Hpre. contradiction.
  - destruct mid as [|m mid]; [congruence|].
    pose proof (prefix_cons_inv_1 _ _ _ _ Hpre) as ->.
    apply prefix_cons_inv_2 in Hpre. simpl in Hrun.
    destruct (refused Enter (above ++ [name])) as [e|] eqn:Henter;
      [discriminate|].
    destruct mid as [|m' mid].
    + split; [exact Henter|].
      destruct (fs !! (above ++ [name])) as [[|doc|]|]; auto; discriminate.
    + rewrite <- app_cons_middle.
      destruct (fs !! (above ++ [name])) as [[|doc|]|] eqn:Hn; try discriminate.
      * eapply IH; [exact Hrun|discriminate|exact Hpre].
      * destruct (IH _ _ _ Hrun (m' :: mid)) as [He Hnode];
          [discriminate|exact Hpre|]. split; [exact He|].
        rewrite lookup_insert_ne in Hnode; [exact Hnode|].
        intros Heq. symmetry in Heq. revert Heq. apply app_longer. discriminate.
Qed.

(** Whatever the outcome, making directories only puts directories where
    nothing stood. *)
Lemma mkdir_from_adds below : forall above fs q,
  (mkdir_from refused above below fs).2 !! q = fs !! q
  \/ (fs !! q = None
      /\ (mkdir_from refused above below fs).2 !! q = Some Directory).
Proof.
  induction below as [|name rest IH]; intros above fs q; [left; reflexivity|].
  simpl. destruct (refused Enter (above ++ [name])); [left; reflexivity|].
  destruct (fs !! (above ++ [name])) as [[|doc|]|] eqn:Hn;
    try (left; reflexivity); [apply IH|].
  destruct (IH (above ++ [name]) (<[above ++ [name] := Directory]> fs) q)
    as [Hq|[Hq1 Hq2]].
  - rewrite Hq. destruct (decide (above ++ [name] = q)) as [<-|Hne].
    + right. split; [exact Hn|apply lookup_insert_eq].
    + left. apply lookup_insert_ne, Hne.
  - right. split; [|exact Hq2].
    destruct (decide (above ++ [name] = q)) as [<-|Hne].
    + exact Hn.
    + rewrite <- Hq1. symmetry. apply lookup_insert_ne, Hne.
Qed.

Lemma way_clear_steps (path : Path) fs :
  way_clear refused path fs <->
  forall mid, mid <> [] -> mid `prefix_of` path -> step_open refused fs ([] ++ mid).
Proof. reflexivity. Qed.

(** What a successful [create_docx_report] did. *)
Lemma create_docx_report_inv content filepath title fs fs' :
  create_docx_report refused content filepath title fs = (Ok tt, fs') ->
  exists fs1,
    ensure_directory refused (parent filepath) fs = (Ok tt, fs1)
    /\ xml_compatible title = true
    /\ xml_compatible content = true
    /\ refused Write filepath = None
    /\ node_at filepath fs1 <> Some Directory
    /\ refused Fill filepath = None
    /\ fs' = <[filepath := DocxFile (report_document title content)]> fs1.
Proof.
  unfold create_docx_report, mbind, io_bind, pure_io.
  destruct (ensure_directory refused (parent filepath) fs)
    as [[[]|e|b] fs1]; [|discriminate|discriminate].
  unfold add_heading, add_paragraph, set_text, mbind, result_bind.
  destruct (xml_compatible title); [|discriminate].
  destruct (xml_compatible content); [|discriminate].
  unfold save, report_document. simpl app.
  destruct (refused Write filepath); [discriminate|].
  destruct (node_at filepath fs1) as [[|doc|]|] eqn:Hn;
    try discriminate;
    (destruct (refused Fill filepath); [discriminate|]);
    intros [= <-]; exists fs1; repeat split; congruence.
Qed.

Lemma create_docx_report_ok content filepath title fs fs1 :
  ensure_directory refused (parent filepath) fs = (Ok tt, fs1) ->
  xml_compatible title = true ->
  xml_compatible content = true ->
  refused Write filepath = None ->
  node_at filepath fs1 <> Some Directory ->
  refused Fill filepath = None ->
  create_docx_report refused content filepath title fs
  = (Ok tt, <[filepath := DocxFile (report_document title content)]> fs1).
Proof.
  intros Hdir Ht Hc Hw Hn Hf.
  unfold create_docx_report, mbind, io_bind, pure_io. rewrite Hdir.
  unfold add_heading, add_paragraph, set_text, mbind, result_bind.
  rewrite Ht, Hc. unfold save, report_document. simpl app. rewrite Hw, Hf.
  destruct (node_at filepath fs1) as [[|doc|]|]; congruence.
Qed.

(** Making the directories of a path leaves what stands at the path. *)
Lemma ensure_parent_keeps filepath fs fs1 :
  ensure_directory refused (parent filepath) fs = (Ok tt, fs1) ->
  node_at filepath fs1 = node_at filepath fs.
Proof.
  intros Hdir. destruct filepath as [|n p] eqn:Hp; [reflexivity|].
  rewrite <- Hp in *. assert (filepath <> []) as Hne by (subst; discriminate).
  unfold ensure_directory in Hdir.
  destruct (mkdir_from_ok (parent filepath) [] fs) as [fs2 [Hrun [_ Hframe]]].
  { intros mid Hmid Hpre. eapply mkdir_from_inv; eauto. }
  rewrite Hdir in Hrun. injection Hrun as <-.
  unfold node_at. rewrite Hp, <- Hp. apply Hframe.
  intros mid _ Hpre. apply not_prefix_of_parent; assumption.
Qed.

(** The text read back from a document that stands at a path the system
    lets be read. *)
Lemma docx_to_text_document filepath fs doc :
  filepath <> [] ->
  refused Look filepath = None ->
  refused Read filepath = None ->
  fs !! filepath = Some (DocxFile doc) ->
  docx_to_text refused filepath fs
  = Ok (PyStr.join nl (paragraph_texts doc)).
Proof.
  intros Hne Hlook Hread Hdoc. destruct filepath as [|n p]; [congruence|].
  unfold docx_to_text, exists_, open_document, node_at.
  rewrite Hlook, Hread, Hdoc.
  rewrite bool_decide_eq_true_2 by eauto. reflexivity.
Qed.

End WithSystem.
End StoreFacts.

Import FileUtils.

(** C4 (counterexample): the report written for the model openai and the
    type technical with the analysis text [analysis] reads back as the
    title, a newline and the text, which is not the analysis text; and the
    write of an analysis text with a form feed raises and leaves no
    document to read. *)
Lemma docx_round_trip_not_identity :
  (let written :=
     create_docx_report Examples.willing "analysis"
       Examples.openai_technical "Report" Examples.empty_store in
   written.1 = Ok tt
   /\ docx_to_text Examples.willing Examples.openai_technical written.2
      = Ok ("Report" +:+ nl +:+ "analysis")
   /\ docx_to_text Examples.willing Examples.openai_technical written.2
      <> Ok "analysis")
  /\ (let refused :=
        create_docx_report Examples.willing (String "012"%char "analysis")
          Examples.openai_technical "Report" Examples.empty_store in
      refused.1
      = Raise (ValueError "All strings must be XML compatible: Unicode or ASCII, no NULL bytes or control characters")
      /\ docx_to_text Examples.willing Examples.openai_technical refused.2
         = Ok EmptyString).
Proof.
  split; intros st.
  - split; [vm_compute; reflexivity|].
    split; [vm_compute; reflexivity|]. vm_compute. discriminate.
  - split; vm_compute; reflexivity.
Qed.

(** C4 (amended): [create_docx_report content filepath title] returns
    exactly when the title and the text hold no control character other
    than TAB, LF and CR, the way to the directory of the report is clear
    (no file stands in it and the system lets its directories be entered or
    made), no directory stands at the path of the report and the system
    lets the file be opened and written.  When it has returned and the
    system lets the file be read, [docx_to_text filepath] returns the title
    and the analysis text as the document holds them (a CR read as LF),
    each trimmed, the empty ones left out, joined by a newline, the title
    first; the same write again leaves the store as it is, and another
    write to the path that the library accepts returns and replaces the
    document.  A write that raises for a control character leaves what
    stood at the path. *)
Theorem docx_round_trip (refused : access -> Path -> option exn)
    (content : string) (filepath : Path) (title : string) (fs : FileSystem) :
  ((exists fs',
      create_docx_report refused content filepath title fs = (Ok tt, fs'))
   <-> Docx.xml_compatible title = true
       /\ Docx.xml_compatible content = true
       /\ Describe.way_clear refused (parent filepath) fs
       /\ refused Write filepath = None
       /\ node_at filepath fs <> Some Directory
       /\ refused Fill filepath = None)
  /\ (forall fs',
        create_docx_report refused content filepath title fs = (Ok tt, fs') ->
        (refused Look filepath = None ->
         refused Read filepath = None ->
         docx_to_text refused filepath fs'
         = Ok (PyStr.join nl
                 (Spec.kept_texts
                    [Docx.stored_text title; Docx.stored_text content])))
        /\ create_docx_report refused content filepath title fs' = (Ok tt, fs')
        /\ forall content' title',
             Docx.xml_compatible title' = true ->
             Docx.xml_compatible content' = true ->
             exists fs'',
               create_docx_report refused content' filepath title' fs'
               = (Ok tt, fs'')
               /\ (refused Look filepath = None ->
                   refused Read filepath = None ->
                   docx_to_text refused filepath fs''
                   = Ok (PyStr.join nl
                           (Spec.kept_texts
                              [Docx.stored_text title';
                               Docx.stored_text content']))))
  /\ (Docx.xml_compatible title && Docx.xml_compatible content = false ->
      Describe.way_clear refused (parent filepath) fs ->
      exists fs',
        create_docx_report refused content filepath title fs
        = (Raise (ValueError "All strings must be XML compatible: Unicode or ASCII, no NULL bytes or control characters"), fs')
        /\ node_at filepath fs' = node_at filepath fs).
Proof.
  assert (forall c t f f',
            create_docx_report refused c filepath t f = (Ok tt, f') ->
            filepath <> []
            /\ refused Write filepath = None
            /\ refused Fill filepath = None
            /\ f' !! filepath = Some (DocxFile (Describe.report_document t c))
            /\ (forall mid, mid <> [] -> mid `prefix_of` parent filepath ->
                  refused Enter ([] ++ mid) = None
                  /\ f' !! ([] ++ mid) = Some Directory)) as Hafter.
  { intros c t f f' Hrun.
    destruct (StoreFacts.create_docx_report_inv _ _ _ _ _ _ Hrun)
      as [f1 [Hdir [_ [_ [Hw [Hn [Hf ->]]]]]]].
    assert (filepath <> []) as Hne by (intros ->; apply Hn; reflexivity).
    split; [exact Hne|]. split; [exact Hw|]. split; [exact Hf|].
    split; [apply lookup_insert_eq|].
    intros mid Hmid Hpre. unfold ensure_directory in Hdir.
    split; [eapply StoreFacts.mkdir_from_inv; eauto|].
    rewrite lookup_insert_ne
      by (apply StoreFacts.not_prefix_of_parent; assumption).
    destruct (StoreFacts.mkdir_from_ok refused (parent filepath) [] f)
      as [f2 [Hrun2 [Hdirs _]]].
    { intros mid' Hmid' Hpre'. eapply StoreFacts.mkdir_from_inv; eauto. }
    rewrite Hdir in Hrun2. injection Hrun2 as <-. apply Hdirs; assumption. }
  assert (forall c t f,
            Docx.xml_compatible t = true -> Docx.xml_compatible c = true ->
            filepath <> [] ->
            refused Write filepath = None ->
            refused Fill filepath = None ->
            (forall mid, mid <> [] -> mid `prefix_of` parent filepath ->
               refused Enter ([] ++ mid) = None
               /\ f !! ([] ++ mid) = Some Directory) ->
            f !! filepath <> Some Directory ->
            create_docx_report refused c filepath t f
            = (Ok tt, <[filepath := DocxFile (Describe.report_document t c)]> f))
    as Hagain.
  { intros c t f Ht Hc Hne Hw Hf Hdirs Hn.
    destruct (StoreFacts.mkdir_from_ok refused (parent filepath) [] f)
      as [f1 [Hrun [Hd1 Hframe]]].
    { intros mid Hmid Hpre. destruct (Hdirs mid Hmid Hpre) as [He Hd].
      split; [exact He|right; exact Hd]. }
    assert (f1 = f) as ->.
    { apply map_eq. intros q.
      destruct (decide (q <> [] /\ q `prefix_of` parent filepath))
        as [[Hq Hpre]|Hq].
      - pose proof (Hd1 q Hq Hpre) as H1.
        destruct (Hdirs q Hq Hpre) as [_ H2]. simpl in H1, H2. congruence.
      - apply Hframe. intros mid Hmid Hpre ->. apply Hq. split; assumption. }
    apply StoreFacts.create_docx_report_ok; try assumption.
    unfold node_at. destruct filepath; [congruence|exact Hn]. }
  assert (forall c t f f',
            create_docx_report refused c filepath t f = (Ok tt, f') ->
            refused Look filepath = None ->
            refused Read filepath = None ->
            docx_to_text refused filepath f'
            = Ok (PyStr.join nl
                    (Spec.kept_texts [Docx.stored_text t; Docx.stored_text c])))
    as Hread.
  { intros c t f f' Hrun Hlook Hrd.
    destruct (Hafter _ _ _ _ Hrun) as [Hne [_ [_ [Hdoc _]]]].
    rewrite (StoreFacts.docx_to_text_document _ _ _ _ Hne Hlook Hrd Hdoc).
    unfold Describe.report_document. rewrite StoreFacts.paragraph_texts_pair.
    reflexivity. }
  split; [|split].
  - split.
    + intros [fs' Hrun].
      destruct (StoreFacts.create_docx_report_inv _ _ _ _ _ _ Hrun)
        as [fs1 [Hdir [Ht [Hc [Hw [Hn [Hf _]]]]]]].
      split; [exact Ht|]. split; [exact Hc|]. split.
      * intros mid Hmid Hpre.
        exact (StoreFacts.mkdir_from_inv _ _ _ _ _ Hdir mid Hmid Hpre).
      * split; [exact Hw|]. split; [|exact Hf].
        rewrite <- (StoreFacts.ensure_parent_keeps _ _ _ _ Hdir). exact Hn.
    + intros [Ht [Hc [Hway [Hw [Hn Hf]]]]].
      destruct (StoreFacts.mkdir_from_ok refused (parent filepath) [] fs)
        as [fs1 [Hdir _]]; [exact Hway|].
      eexists. apply (StoreFacts.create_docx_report_ok _ _ _ _ _ fs1);
        try assumption.
      rewrite (StoreFacts.ensure_parent_keeps _ _ _ _ Hdir). exact Hn.
  - intros fs' Hrun. split; [eapply Hread, Hrun|].
    destruct (Hafter _ _ _ _ Hrun) as [Hne [Hw [Hf [Hdoc Hdirs]]]].
    destruct (StoreFacts.create_docx_report_inv _ _ _ _ _ _ Hrun)
      as [_ [_ [Ht [Hc _]]]].
    split.
    + rewrite (Hagain content title fs' Ht Hc Hne Hw Hf Hdirs)
        by (rewrite Hdoc; discriminate).
      rewrite insert_id by exact Hdoc. reflexivity.
    + intros content' title' Ht' Hc'. eexists. split.
      * apply (Hagain content' title' fs' Ht' Hc' Hne Hw Hf Hdirs).
        rewrite Hdoc. discriminate.
      * eapply Hread. apply (Hagain content' title' fs' Ht' Hc' Hne Hw Hf Hdirs).
        rewrite Hdoc. discriminate.
  - intros Hbad Hway.
    destruct (StoreFacts.mkdir_from_ok refused (parent filepath) [] fs)
      as [fs1 [Hdir _]]; [exact Hway|].
    exists fs1. split.
    + unfold create_docx_report, mbind, io_bind, pure_io.
      fold (ensure_directory refused (parent filepath) fs) in Hdir.
      rewrite Hdir.
      unfold add_heading, add_paragraph, Docx.set_text, mbind, result_bind.
      destruct (Docx.xml_compatible title); [|reflexivity].
      destruct (Docx.xml_compatible content); [discriminate|reflexivity].
    + apply (StoreFacts.ensure_parent_keeps _ _ _ _ Hdir).
Qed.

(** The amended statement at the report of the model openai written to
    the empty store, at a store in which a file stands where the directory
    of the reports is to be, and on a system that lets nothing be
    written. *)
Lemma docx_round_trip_witness :
  (exists fs',
     create_docx_report Examples.willing (" analysis" +:+ nl)
       Examples.openai_technical "Report" Examples.empty_store = (Ok tt, fs')
     /\ docx_to_text Examples.willing Examples.openai_technical fs'
        = Ok ("Report" +:+ nl +:+ "analysis"))
  /\ ~ (exists fs',
          create_docx_report Examples.willing "analysis"
            Examples.openai_technical "Report" Examples.blocked_store
          = (Ok tt, fs'))
  /\ ~ (exists fs',
          create_docx_report Examples.read_only "analysis"
            Examples.openai_technical "Report" Examples.empty_store
          = (Ok tt, fs')).
Proof.
  split; [|split].
  - destruct (docx_round_trip Examples.willing (" analysis" +:+ nl)
                Examples.openai_technical "Report" Examples.empty_store)
      as [[_ Hreturns] [Hread _]].
    destruct Hreturns as [fs' Hrun].
    { split; [reflexivity|]. split; [reflexivity|].
      split; [|split; [reflexivity|split; [discriminate|reflexivity]]].
      intros q _ _. split; [reflexivity|left; apply lookup_empty]. }
    exists fs'. split; [exact Hrun|].
    destruct (Hread fs' Hrun) as [-> _]; reflexivity.
  - destruct (docx_round_trip Examples.willing "analysis"
                Examples.openai_technical "Report" Examples.blocked_store)
      as [[Hreturns _] _].
    intros Hrun. destruct (Hreturns Hrun) as [_ [_ [Hway _]]].
    destruct (Hway [Examples.reports]) as [_ [Hn|Hn]];
      [discriminate|exists [Examples.openai]; reflexivity| |];
      vm_compute in Hn; discriminate.
  - destruct (docx_round_trip Examples.read_only "analysis"
                Examples.openai_technical "Report" Examples.empty_store)
      as [[Hreturns _] _].
    intros Hrun. destruct (Hreturns Hrun) as [_ [_ [_ [Hw _]]]].
    discriminate.
Defined.

(** ** The sectionizer *)

Module ExtractorFacts.
Import Docx DocumentExtractor Spec PyStrFacts.

Lemma text_lines_app a b : text_lines (a ++ b) = text_lines a +:+ text_lines b.
Proof.
  induction a as [|t a IH]; [reflexivity|].
  simpl. rewrite IH, !app_assoc. reflexivity.
Qed.

Lemma add_lines_some s texts :
  add_lines (Some s) texts = Some (s +:+ text_lines texts).
Proof. destruct texts; simpl; [rewrite app_empty_r|]; reflexivity. Qed.

Lemma nonblank_cons_blank p doc :
  PyStr.truthy (trimmed p) = false -> nonblank (p :: doc) = nonblank doc.
Proof.
  intros Hp. unfold nonblank. apply filter_cons_False. rewrite Hp. discriminate.
Qed.

Lemma nonblank_cons_text p doc :
  PyStr.truthy (trimmed p) = true -> nonblank (p :: doc) = p :: nonblank doc.
Proof. intros Hp. unfold nonblank. apply filter_cons_True, Hp. Qed.

(** One step of the loop on a paragraph that is not blank. *)
Lemma content_from_step st p ps :
  PyStr.truthy (trimmed p) = true ->
  content_from (scan_paragraph st p) ps = content_from st (p :: ps).
Proof.
  intros Hp. unfold scan_paragraph. fold (trimmed p). rewrite Hp. simpl negb.
  cbv iota. unfold content_from. simpl leading_texts. simpl sections_of.
  destruct (is_header p) eqn:Hh.
  - assert (is_set (Some (trimmed p)) = true) as Hset by exact Hp.
    simpl current_section at 1. rewrite Hset.
    destruct (is_set (current_section st)) eqn:Hcur; simpl;
      rewrite ?app_nil_r, <- ?(assoc_L (++)), ?app_assoc; reflexivity.
  - destruct (is_set (current_section st)) eqn:Hcur; simpl; rewrite Hcur.
    + rewrite <- !(assoc_L (++)), !app_assoc. reflexivity.
    + rewrite add_lines_some, !app_assoc. reflexivity.
Qed.

(** The loop and the code after it, from any state. *)
Lemma scan_from st doc :
  scan_finish (fold_left scan_paragraph doc st)
  = content_from st (nonblank doc).
Proof.
  revert st. induction doc as [|p doc IH]; intros st.
  - unfold scan_finish, content_from. simpl.
    destruct (is_set (current_section st)); simpl.
    + unfold append_section. rewrite !app_nil_r, app_empty_r. reflexivity.
    + rewrite app_nil_r, app_empty_r. destruct (content st); reflexivity.
  - simpl fold_left. rewrite IH.
    destruct (PyStr.truthy (trimmed p)) eqn:Hp.
    + rewrite (nonblank_cons_text _ _ Hp). apply content_from_step, Hp.
    + rewrite (nonblank_cons_blank _ _ Hp).
      unfold scan_paragraph. fold (trimmed p). rewrite Hp. reflexivity.
Qed.

Lemma extract_content doc :
  extract_questioner_content (Docx doc) = Extracted (content_of (nonblank doc)).
Proof.
  unfold extract_questioner_content. rewrite scan_from. f_equal.
  unfold content_from, content_of, preamble_of. simpl.
  destruct (leading_texts (nonblank doc)); reflexivity.
Qed.

Lemma sections_titles ps :
  title <$> sections_of ps = trimmed <$> List.filter is_header ps.
Proof.
  induction ps as [|p ps IH]; [reflexivity|].
  simpl sections_of. simpl List.filter.
  destruct (is_header p); rewrite ?fmap_cons, IH; reflexivity.
Qed.

Lemma no_header_sections ps :
  Forall (fun p => is_header p = false) ps ->
  sections_of ps = [] /\ leading_texts ps = trimmed <$> ps.
Proof.
  induction 1 as [|p ps Hp _ [IHs IHl]]; [split; reflexivity|].
  simpl sections_of. simpl leading_texts.
  rewrite Hp, IHs, IHl, fmap_cons. split; reflexivity.
Qed.

End ExtractorFacts.

Import Docx DocumentExtractor.

(** C5 (counterexample): a paragraph with a heading style whose text is
    blank opens no section: the pass skips it before it looks at its
    style. *)
Lemma blank_heading_opens_no_section :
  is_header (Examples.heading "  ") = true
  /\ extract_questioner_content (Docx [Examples.heading "  "])
     = Extracted {| sections := []; raw_text := EmptyString; preamble := None |}.
Proof. split; reflexivity. Qed.

(** C5 (amended): the sectionizer goes once, in order, through the
    paragraphs whose trimmed text is not empty, the blank ones being
    skipped.  Among those, a paragraph opens a section iff its style name
    starts with Heading or its first run is bold; the section's title is
    the paragraph's trimmed text and its questions are the trimmed texts up
    to the next such paragraph or the end of the document; the texts before
    the first section make the preamble.  Without such a paragraph the
    section list is empty and all the text is in the preamble; an absent
    document gives the error result. *)
Theorem sectionizer_single_pass :
  (forall doc,
     extract_questioner_content (Docx doc)
     = Extracted (Spec.content_of (Spec.nonblank doc)))
  /\ (forall doc,
        title <$> Spec.sections_of (Spec.nonblank doc)
        = Spec.trimmed <$> List.filter is_header (Spec.nonblank doc))
  /\ (forall doc,
        Forall (fun p => is_header p = false) (Spec.nonblank doc) ->
        extract_questioner_content (Docx doc)
        = Extracted
            {| sections := [];
               raw_text := Spec.text_lines (Spec.trimmed <$> Spec.nonblank doc);
               preamble :=
                 Spec.add_lines None (Spec.trimmed <$> Spec.nonblank doc) |})
  /\ extract_questioner_content NoDocument
     = ExtractionError "Questioner document not found".
Proof.
  split; [exact ExtractorFacts.extract_content|].
  split; [intros doc; apply ExtractorFacts.sections_titles|].
  split; [|reflexivity].
  intros doc Hdoc. rewrite ExtractorFacts.extract_content.
  destruct (ExtractorFacts.no_header_sections _ Hdoc) as [Hs Hl].
  unfold Spec.content_of, Spec.preamble_of. rewrite Hs, Hl.
  destruct (Spec.trimmed <$> Spec.nonblank doc); reflexivity.
Qed.

(** The amended statement at the document of the specification's example
    and at a document without section headers. *)
Lemma sectionizer_single_pass_witness :
  extract_questioner_content (Docx Examples.two_sections)
  = Extracted
      {| sections := [ {| title := "H1"; questions := ["q1"] |};
                       {| title := "H2"; questions := ["q2"; "q3"] |} ];
         raw_text := "H1" +:+ nl +:+ "q1" +:+ nl +:+ "H2" +:+ nl +:+ "q2" +:+ nl
                     +:+ "q3" +:+ nl;
         preamble := None |}
  /\ extract_questioner_content (Docx Examples.no_sections)
     = Extracted
         {| sections := [];
            raw_text := "intro" +:+ nl +:+ "more" +:+ nl;
            preamble := Some ("intro" +:+ nl +:+ "more" +:+ nl) |}.
Proof.
  destruct sectionizer_single_pass as [Hall [_ [Hnone _]]].
  split.
  - rewrite Hall. reflexivity.
  - rewrite Hnone; [reflexivity|].
    repeat constructor.
Defined.

(** ** The requirement classifier *)

Module ClassifierFacts.
Import Spec.

Local Arguments PyStr.any_in : simpl never.

(** The keyword test of the category found is among the hypotheses. *)
Ltac exact_found := simpl; assumption.

(** Use the hypotheses on the categories of lower rank, then conclude. *)
Ltac lower_ranks :=
  repeat match goal with
         | L : (_ < _)%nat -> _ |- _ =>
             first [ specialize (L ltac:(lia)) | clear L ]
         end;
  congruence.

Lemma categorize_rule r s :
  categorize r s
  = match category_of (title s) with
    | Some c => receive c r (questions s)
    | None => r
    end.
Proof.
  unfold categorize, category_of, rules. simpl.
  destruct (PyStr.any_in overview_words _); [reflexivity|].
  destruct (PyStr.any_in technical_words _); [reflexivity|].
  destruct (PyStr.any_in financial_words _); [reflexivity|].
  destruct (PyStr.any_in timeline_words _); [reflexivity|].
  destruct (PyStr.any_in resource_words _); reflexivity.
Qed.

Lemma category_of_first title c :
  category_of title = Some c <->
  PyStr.any_in (words_of c) (PyStr.lower title) = true
  /\ forall c', (rank c' < rank c)%nat ->
                PyStr.any_in (words_of c') (PyStr.lower title) = false.
Proof.
  unfold category_of, rules. simpl.
  destruct (PyStr.any_in overview_words (PyStr.lower title)) eqn:H1,
           (PyStr.any_in technical_words (PyStr.lower title)) eqn:H2,
           (PyStr.any_in financial_words (PyStr.lower title)) eqn:H3,
           (PyStr.any_in timeline_words (PyStr.lower title)) eqn:H4,
           (PyStr.any_in resource_words (PyStr.lower title)) eqn:H5; simpl;
    (split;
     [ intros Heq; inversion Heq; subst c; clear Heq;
       (split; [ exact_found | intros c' Hr; destruct c'; simpl in Hr |- *;
                               first [assumption | lia] ])
     | intros [Hc Hlow];
       pose proof (Hlow Overview) as L1; pose proof (Hlow Technical) as L2;
       pose proof (Hlow Financial) as L3; pose proof (Hlow Timeline) as L4;
       clear Hlow; destruct c; simpl in *;
       first [ reflexivity | congruence | lower_ranks ] ]).
Qed.

Lemma receive_other c c' r qs :
  c' <> c -> bucket c' (receive c r qs) = bucket c' r.
Proof. intros Hne. destruct c, c'; try reflexivity; congruence. Qed.

Lemma receive_list c r qs :
  c <> Overview ->
  exists old, bucket c r = inr old /\ bucket c (receive c r qs) = inr (old ++ qs).
Proof. intros Hne. destruct c; try congruence; simpl; eauto. Qed.

End ClassifierFacts.

(** C6: each section goes to at most one bucket, the first of overview,
    technical, financial, timeline and resource one of whose keywords
    occurs in its lower-cased title; the question list of the section is
    appended to that bucket, the overview being replaced by the questions
    joined by newlines; the other buckets are left as they are, and a
    section whose title holds no keyword leaves the bundle as it is. *)
Theorem categorize_by_priority :
  (forall r s,
     categorize r s
     = match Spec.category_of (title s) with
       | Some c => Spec.receive c r (questions s)
       | None => r
       end)
  /\ (forall l s,
        categorize_sections (l ++ [s]) = categorize (categorize_sections l) s)
  /\ (forall t c,
        Spec.category_of t = Some c <->
        PyStr.any_in (Spec.words_of c) (PyStr.lower t) = true
        /\ forall c', (Spec.rank c' < Spec.rank c)%nat ->
                      PyStr.any_in (Spec.words_of c') (PyStr.lower t) = false)
  /\ (forall c c' r qs,
        c' <> c -> Spec.bucket c' (Spec.receive c r qs) = Spec.bucket c' r)
  /\ (forall r qs,
        Spec.bucket Spec.Overview (Spec.receive Spec.Overview r qs)
        = inl (PyStr.join nl qs))
  /\ (forall c r qs,
        c <> Spec.Overview ->
        exists old,
          Spec.bucket c r = inr old
          /\ Spec.bucket c (Spec.receive c r qs) = inr (old ++ qs)).
Proof.
  split; [exact ClassifierFacts.categorize_rule|].
  split; [intros l s; unfold categorize_sections; apply fold_left_app|].
  split; [exact ClassifierFacts.category_of_first|].
  split; [exact ClassifierFacts.receive_other|].
  split; [reflexivity|exact ClassifierFacts.receive_list].
Qed.

(** C6 at a title with a technical and an overview keyword, which goes to
    the overview, and at a title without keyword, which is dropped. *)
Lemma categorize_by_priority_witness :
  categorize_sections [Examples.mixed_title; Examples.other_title]
  = {| project_overview := "a" +:+ nl +:+ "b";
       technical_requirements := [];
       financial_requirements := [];
       timeline_requirements := [];
       resource_requirements := [] |}.
Proof.
  destruct categorize_by_priority as [Hrule [Hlast _]].
  change (categorize_sections ([Examples.mixed_title] ++ [Examples.other_title])
          = Spec.receive Spec.Overview no_requirements ["a"; "b"]).
  rewrite Hlast.
  change (categorize_sections [Examples.mixed_title])
    with (categorize_sections ([] ++ [Examples.mixed_title])).
  rewrite Hlast, !Hrule. reflexivity.
Defined.

(** ** The report loop *)

Module AgentFacts.
Import DescriptionAgent.

Section Agents.
Variable World : Type.
Variable on_messages : string -> string -> IO World string.
Variable create_technical_report :
  ProjectData -> string -> string -> IO World string.
Variable create_financial_report :
  ProjectData -> string -> string -> gmap string string -> IO World string.
Variable project_data : ProjectData.

Let run := _generate_model_reports World on_messages create_technical_report
             create_financial_report project_data.
Let step := model_step World on_messages create_technical_report
              create_financial_report project_data.

(** What the delegate raises is what the model's run raises. *)
Lemma delegate_raises agent model_name context e w w' :
  on_messages agent (context +:+ PROMPT) w = (Raise e, w') ->
  run agent model_name context w = (Raise e, w').
Proof.
  intros Hd. unfold run, _generate_model_reports, mbind, io_bind.
  rewrite Hd. reflexivity.
Qed.

Lemma delegate_escapes agent model_name context b w w' :
  on_messages agent (context +:+ PROMPT) w = (RaiseBase b, w') ->
  run agent model_name context w = (RaiseBase b, w').
Proof.
  intros Hd. unfold run, _generate_model_reports, mbind, io_bind.
  rewrite Hd. reflexivity.
Qed.

(** One turn of the loop goes on when the run returns or raises an
    exception of class [Exception]: the slot of the model is set. *)
Lemma model_step_slot context results model_name agent w r :
  Spec.slot (run agent model_name context w).1 = Some r ->
  step context results (model_name, agent) w
  = (Ok (<[model_name := r]> results), (run agent model_name context w).2).
Proof.
  unfold step, model_step, try_except, mbind, io_bind. fold run.
  destruct (run agent model_name context w) as [[reports|e|b] w']; simpl;
    intros [= <-]; reflexivity.
Qed.

(** Another exception leaves the loop. *)
Lemma model_step_escapes context results model_name agent w b :
  (run agent model_name context w).1 = RaiseBase b ->
  step context results (model_name, agent) w
  = (RaiseBase b, (run agent model_name context w).2).
Proof.
  unfold step, model_step, try_except, mbind, io_bind. fold run.
  destruct (run agent model_name context w) as [[reports|e|b'] w']; simpl;
    intros [= <-]; reflexivity.
Qed.

End Agents.
End AgentFacts.

Import DescriptionAgent.

(** C9 (counterexample): when the task is cancelled while it waits for
    the delegate of the model openai, [generate_reports] raises
    CancelledError: no slot holds an error, the model claude is not run and
    no result is returned. *)
Lemma generate_reports_cancelled :
  generate_reports unit Examples.cancelled_openai Examples.write_technical
    Examples.write_financial Examples.no_project [] tt
  = (RaiseBase CancelledError, tt)
  /\ Examples.cancelled_openai "claude_agent" PROMPT tt
     = (Ok "t FINANCIAL ANALYSIS: f", tt).
Proof. split; reflexivity. Qed.

(** C9 (amended): [generate_reports] runs the report generation of each
    model of the fixed enumeration, openai then claude.  A generation that
    returns gives the model's slot its reports; one that raises an
    exception of class [Exception], as when its delegate call does, gives
    the slot the error with the message of the exception, and the next
    model is run all the same: when neither raises another exception the
    result holds one slot per model, each with the outcome of its own
    generation.  An exception that is not of class [Exception] is not
    caught: [generate_reports] raises it at once and returns no result. *)
Theorem generate_reports_isolates_failures (World : Type)
    (on_messages : string -> string -> IO World string)
    (create_technical_report :
       ProjectData -> string -> string -> IO World string)
    (create_financial_report :
       ProjectData -> string -> string -> gmap string string -> IO World string)
    (project_data : ProjectData) (messages : list Message) (w : World) :
  let context := build_context messages in
  let run :=
    _generate_model_reports World on_messages create_technical_report
      create_financial_report project_data in
  let first := run "openai_agent" "openai" context w in
  let second := run "claude_agent" "claude" context first.2 in
  let batch :=
    generate_reports World on_messages create_technical_report
      create_financial_report project_data messages w in
  (forall r1 r2,
     Spec.slot first.1 = Some r1 ->
     Spec.slot second.1 = Some r2 ->
     exists results,
       batch = (Ok results, second.2)
       /\ results !! "openai" = Some r1
       /\ results !! "claude" = Some r2
       /\ (forall name, is_Some (results !! name) <-> In name (fst <$> models)))
  /\ (forall e w',
        on_messages "openai_agent" (context +:+ PROMPT) w = (Raise e, w') ->
        Spec.slot first.1 = Some (Failed (exn_str e))
        /\ second = run "claude_agent" "claude" context w')
  /\ (forall e w',
        on_messages "claude_agent" (context +:+ PROMPT) first.2 = (Raise e, w') ->
        Spec.slot second.1 = Some (Failed (exn_str e)))
  /\ (forall b, first.1 = RaiseBase b -> batch = (RaiseBase b, first.2))
  /\ (forall r1 b,
        Spec.slot first.1 = Some r1 ->
        second.1 = RaiseBase b ->
        batch = (RaiseBase b, second.2))
  /\ (forall b w',
        on_messages "openai_agent" (context +:+ PROMPT) w = (RaiseBase b, w') ->
        batch = (RaiseBase b, w')).
Proof.
  intros context run first second batch.
  assert (forall b, first.1 = RaiseBase b -> batch = (RaiseBase b, first.2))
    as Hescapes.
  { intros b Hb. unfold batch, generate_reports, models. fold context.
    unfold io_for_each, mbind, io_bind.
    rewrite (AgentFacts.model_step_escapes _ _ _ _ _ _ _ _ _ _ b) by exact Hb.
    reflexivity. }
  split; [|split; [|split; [|split; [exact Hescapes|split]]]].
  - intros r1 r2 H1 H2.
    exists (<["claude" := r2]> (<["openai" := r1]> ∅)).
    split; [|split; [|split]].
    + unfold batch, generate_reports, models. fold context.
      unfold io_for_each, mbind, io_bind.
      rewrite (AgentFacts.model_step_slot _ _ _ _ _ _ _ _ _ _ r1) by exact H1.
      fold run. fold first.
      rewrite (AgentFacts.model_step_slot _ _ _ _ _ _ _ _ _ _ r2) by exact H2.
      reflexivity.
    + rewrite lookup_insert_ne by discriminate. apply lookup_insert_eq.
    + apply lookup_insert_eq.
    + intros name. simpl. rewrite !lookup_insert. split.
      * intros Hs. repeat case_decide; auto.
        rewrite lookup_empty in Hs. destruct Hs; discriminate.
      * intros [<-|[<-|[]]]; repeat case_decide; eauto; congruence.
  - intros e w' Hd.
    assert (first = (Raise e, w')) as Hfirst
      by (apply AgentFacts.delegate_raises, Hd).
    subst second. rewrite Hfirst. split; reflexivity.
  - intros e w' Hd.
    assert (second = (Raise e, w')) as Hsecond
      by (apply AgentFacts.delegate_raises, Hd).
    rewrite Hsecond. reflexivity.
  - intros r1 b H1 Hb. unfold batch, generate_reports, models. fold context.
    unfold io_for_each, mbind, io_bind.
    rewrite (AgentFacts.model_step_slot _ _ _ _ _ _ _ _ _ _ r1) by exact H1.
    fold run. fold first.
    rewrite (AgentFacts.model_step_escapes _ _ _ _ _ _ _ _ _ _ b) by exact Hb.
    reflexivity.
  - intros b w' Hd.
    assert (first = (RaiseBase b, w')) as Hfirst
      by (apply AgentFacts.delegate_escapes, Hd).
    rewrite (Hescapes b) by (rewrite Hfirst; reflexivity).
    rewrite Hfirst. reflexivity.
Qed.

(** C9 with a delegate that fails for the model openai: its slot holds
    the error and the slot of claude holds the reports of claude. *)
Lemma generate_reports_isolates_failures_witness :
  exists results,
    (generate_reports unit Examples.failing_openai Examples.write_technical
       Examples.write_financial Examples.no_project [] tt).1 = Ok results
    /\ results !! "openai" = Some (Failed "connection refused")
    /\ results !! "claude"
       = Some (Reports "claude/technical_report.docx"
                 "claude/financial_report.docx"
                 {| technical := "t"; financial := "f" |}).
Proof.
  destruct (generate_reports_isolates_failures unit Examples.failing_openai
              Examples.write_technical Examples.write_financial
              Examples.no_project [] tt) as [Hslots _].
  destruct (Hslots (Failed "connection refused")
              (Reports "claude/technical_report.docx"
                 "claude/financial_report.docx"
                 {| technical := "t"; financial := "f" |}))
    as [results [Hrun [Ho [Hc _]]]]; [reflexivity|vm_compute; reflexivity|].
  exists results. split; [rewrite Hrun; reflexivity|]. split; assumption.
Defined.

(** ** The hour estimate *)

Module EstimateFacts.
Import PyStr PyStrFacts.

Lemma role_type_values role :
  In (role_type role) ["frontend"; "backend"; "database"; "cloud"; "testing"].
Proof.
  unfold role_type.
  repeat match goal with
         | |- context [if ?b then _ else _] => destruct b
         end; simpl; auto 10.
Qed.

Lemma complexity_values description :
  In (complexity description) ["simple"; "medium"; "complex"].
Proof.
  unfold complexity.
  destruct (any_in simple_words _); [simpl; auto|].
  destruct (any_in complex_words _); simpl; auto.
Qed.

(** A simple-tier keyword in the description, in any case, decides. *)
Lemma complexity_simple description :
  any_in simple_words (lower description) = true ->
  complexity description = "simple".
Proof. intros Hs. unfold complexity. rewrite Hs. reflexivity. Qed.

Lemma simple_word_found k description :
  In k simple_words -> contains k description = true ->
  any_in simple_words (lower description) = true.
Proof.
  intros Hk Hc. apply (any_in_elem _ k); [exact Hk|].
  assert (lower k = k) as Hlow.
  { simpl in Hk. destruct Hk as [<-|[<-|[<-|[<-|[]]]]]; reflexivity. }
  rewrite <- Hlow. apply contains_lower, Hc.
Qed.

(** A lookup in a dict written as a literal, by the keys in turn. *)
Ltac literal_lookup :=
  repeat first
    [ rewrite list_to_map_cons
    | rewrite lookup_insert_eq
    | rewrite lookup_insert_ne by discriminate ].

(** The entry of the table for a role category and a tier. *)
Lemma table_entry category tier :
  In category ["frontend"; "backend"; "database"; "cloud"; "testing"] ->
  In tier ["simple"; "medium"; "complex"] ->
  exists row hours,
    task_estimates !! category = Some row
    /\ row !! tier = Some hours
    /\ In hours [8; 12; 16; 20; 24; 32; 40; 48; 64; 80].
Proof.
  intros Hc Ht. simpl in Hc, Ht. unfold task_estimates.
  destruct Hc as [<-|[<-|[<-|[<-|[<-|[]]]]]];
    destruct Ht as [<-|[<-|[<-|[]]]];
    (eexists _, _; split; [literal_lookup; reflexivity|]);
    (split; [literal_lookup; reflexivity|]); simpl; tauto.
Qed.

(** Both lookups find their key: the fallbacks of the two [get] are not
    used. *)
Lemma estimate_from_table description role :
  exists row hours,
    task_estimates !! role_type role = Some row
    /\ row !! complexity description = Some hours
    /\ estimate_hours_from_description description role = hours.
Proof.
  destruct (table_entry _ _ (role_type_values role)
              (complexity_values description))
    as [row [hours [Hrow [Hhours _]]]].
  exists row, hours. split; [exact Hrow|]. split; [exact Hhours|].
  unfold estimate_hours_from_description, dict_get.
  rewrite Hrow. simpl. rewrite Hhours. reflexivity.
Qed.

Lemma estimate_values description role :
  In (estimate_hours_from_description description role)
     [8; 12; 16; 20; 24; 32; 40; 48; 64; 80].
Proof.
  destruct (table_entry _ _ (role_type_values role)
              (complexity_values description))
    as [row [hours [Hrow [Hhours Hin]]]].
  unfold estimate_hours_from_description, dict_get.
  rewrite Hrow. simpl. rewrite Hhours. exact Hin.
Qed.

End EstimateFacts.

(** C10: for every description and role [estimate_hours_from_description]
    returns the entry of the table for the role category and the
    complexity tier it computes, both of which are keys of the table, so
    the fallback 16 of the lookups is not used; the value is one of 8, 12,
    16, 20, 24, 32, 40, 48, 64 and 80; and a description that contains a
    simple-tier keyword and a complex-tier keyword gets the simple tier. *)
Theorem estimate_hours_in_table (description role : string) :
  (exists row hours,
     task_estimates !! role_type role = Some row
     /\ row !! complexity description = Some hours
     /\ estimate_hours_from_description description role = hours)
  /\ In (estimate_hours_from_description description role)
        [8; 12; 16; 20; 24; 32; 40; 48; 64; 80]
  /\ (forall ks kc,
        In ks simple_words -> In kc complex_words ->
        PyStr.contains ks description = true ->
        PyStr.contains kc description = true ->
        complexity description = "simple"
        /\ exists row,
             task_estimates !! role_type role = Some row
             /\ row !! "simple"
                = Some (estimate_hours_from_description description role)).
Proof.
  split; [apply EstimateFacts.estimate_from_table|].
  split; [apply EstimateFacts.estimate_values|].
  intros ks kc Hks _ Hs _.
  assert (complexity description = "simple") as Hsimple
    by (eapply EstimateFacts.complexity_simple,
          EstimateFacts.simple_word_found; eauto).
  split; [exact Hsimple|].
  destruct (EstimateFacts.estimate_from_table description role)
    as [row [hours [Hrow [Hhours Hest]]]].
  exists row. split; [exact Hrow|]. rewrite Hest, <- Hsimple. exact Hhours.
Qed.

(** C10 at a description with a simple and a complex keyword, for a
    cloud role. *)
Lemma estimate_hours_in_table_witness :
  complexity "a simple but comprehensive task" = "simple"
  /\ estimate_hours_from_description "a simple but comprehensive task"
       "Cloud Engineer" = 20.
Proof.
  destruct (estimate_hours_in_table "a simple but comprehensive task"
              "Cloud Engineer") as [_ [_ Hboth]].
  destruct (Hboth "simple" "comprehensive") as [Hsimple [row [Hrow Hhours]]];
    [simpl; tauto|simpl; tauto|reflexivity|reflexivity|].
  split; [exact Hsimple|].
  assert (role_type "Cloud Engineer" = "cloud") as Hcloud by reflexivity.
  rewrite Hcloud in Hrow. unfold task_estimates in Hrow. revert Hrow.
  EstimateFacts.literal_lookup. intros [= <-]. revert Hhours.
  EstimateFacts.literal_lookup. congruence.
Defined.

(** * Further properties *)

(** ** Trimming *)

Module StripFacts.
Import PyStr PyStrFacts.

Lemma lstrip_nonspace c s : isspace c = false -> lstrip (String c s) = String c s.
Proof. intros Hc. simpl. rewrite Hc. reflexivity. Qed.

Lemma lstrip_cases s :
  lstrip s = EmptyString
  \/ exists c r, lstrip s = String c r /\ isspace c = false.
Proof.
  induction s as [|c s IH]; [left; reflexivity|].
  simpl. destruct (isspace c) eqn:Hc; [exact IH|].
  right. eauto.
Qed.

Lemma rstrip_nonspace c s :
  isspace c = false -> rstrip (String c s) = String c (rstrip s).
Proof. intros Hc. simpl. rewrite Hc. reflexivity. Qed.

Lemma rstrip_idem s : rstrip (rstrip s) = rstrip s.
Proof.
  induction s as [|c s IH]; [reflexivity|].
  simpl. destruct (isspace c && is_empty (rstrip s)) eqn:E; [reflexivity|].
  simpl. rewrite IH, E. reflexivity.
Qed.

Lemma strip_idem s : strip (strip s) = strip s.
Proof.
  unfold strip. destruct (lstrip_cases s) as [->|[c [r [-> Hc]]]]; [reflexivity|].
  rewrite (rstrip_nonspace _ _ Hc), (lstrip_nonspace _ _ Hc).
  rewrite (rstrip_nonspace _ _ Hc), rstrip_idem. reflexivity.
Qed.

Lemma lstrip_suffix s : exists a, s = a +:+ lstrip s.
Proof.
  induction s as [|c s [a IH]]; [exists EmptyString; reflexivity|].
  simpl. destruct (isspace c).
  - exists (String c a). rewrite app_cons, <- IH. reflexivity.
  - exists EmptyString. reflexivity.
Qed.

Lemma rstrip_prefix s : exists b, s = rstrip s +:+ b.
Proof.
  induction s as [|c s [b IH]]; [exists EmptyString; reflexivity|].
  simpl. destruct (isspace c && is_empty (rstrip s)).
  - exists (String c s). reflexivity.
  - exists b. rewrite app_cons, <- IH. reflexivity.
Qed.

(** The trimmed string is a part of the string. *)
Lemma strip_part s : exists a b, s = a +:+ strip s +:+ b.
Proof.
  unfold strip. destruct (lstrip_suffix s) as [a Ha].
  destruct (rstrip_prefix (lstrip s)) as [b Hb].
  exists a, b. rewrite <- Hb. exact Ha.
Qed.

Lemma contains_strip sub s :
  contains sub (strip s) = true -> contains sub s = true.
Proof.
  rewrite !contains_iff. intros [x [y Hxy]].
  destruct (strip_part s) as [a [b Hs]].
  exists (a +:+ x), (y +:+ b). rewrite Hs at 1. rewrite Hxy.
  rewrite !app_assoc. reflexivity.
Qed.

(** A non-empty trimmed string begins and ends with a character that is
    not whitespace: whitespace before or after it is cut off again. *)
Lemma trimmed_first s :
  strip s = s -> s <> EmptyString ->
  exists c r, s = String c r /\ isspace c = false.
Proof.
  intros Hs Hne. unfold strip in Hs.
  destruct (lstrip_cases s) as [He|[c [r [He Hc]]]].
  - rewrite He in Hs. simpl in Hs. congruence.
  - rewrite He, (rstrip_nonspace _ _ Hc) in Hs. exists c, (rstrip r).
    split; [symmetry; exact Hs|exact Hc].
Qed.

Lemma trimmed_rstrip s : strip s = s -> rstrip s = s.
Proof. intros Hs. rewrite <- Hs at 1. unfold strip. rewrite rstrip_idem. exact Hs. Qed.

Lemma rstrip_app_trimmed a b :
  rstrip b = b -> b <> EmptyString -> rstrip (a +:+ b) = a +:+ b.
Proof.
  intros Hb Hne. induction a as [|c a IH]; [exact Hb|].
  rewrite app_cons. simpl. rewrite IH.
  destruct (a +:+ b) eqn:E.
  - destruct a; [change (b = EmptyString) in E; congruence|discriminate].
  - rewrite andb_false_r. reflexivity.
Qed.

(** Joining by any text keeps the outer ends: a text that begins with a
    trimmed non-empty text and ends with one is trimmed. *)
Lemma strip_between a m b :
  strip a = a -> a <> EmptyString -> strip b = b -> b <> EmptyString ->
  strip (a +:+ m +:+ b) = a +:+ m +:+ b.
Proof.
  intros Ha Hane Hb Hbne.
  destruct (trimmed_first a Ha Hane) as [c [r [-> Hc]]].
  unfold strip. rewrite app_cons, (lstrip_nonspace _ _ Hc), <- app_cons.
  rewrite <- app_assoc. apply rstrip_app_trimmed; [|exact Hbne].
  apply trimmed_rstrip, Hb.
Qed.

End StripFacts.

(** ** What the sectionizer keeps *)

Module ContentFacts.
Import Docx DocumentExtractor Spec Describe PyStrFacts.

(** The texts before the first header and the texts of the sections make
    up the texts of the paragraphs, in order. *)
Lemma texts_split ps :
  Spec.trimmed <$> ps = leading_texts ps ++ section_texts (sections_of ps).
Proof.
  induction ps as [|p ps IH]; [reflexivity|].
  rewrite fmap_cons. simpl leading_texts. simpl sections_of.
  destruct (is_header p).
  - unfold section_texts. rewrite fmap_cons. simpl concat.
    fold (section_texts (sections_of ps)). rewrite IH. reflexivity.
  - rewrite IH. reflexivity.
Qed.

Lemma extracted_inv q c :
  extract_questioner_content q = Extracted c ->
  exists doc, q = Docx doc /\ c = content_of (nonblank doc).
Proof.
  destruct q as [|e|doc]; try discriminate.
  rewrite ExtractorFacts.extract_content. intros [= <-]. eauto.
Qed.

Lemma preamble_text ps :
  default EmptyString (preamble_of ps) = text_lines (leading_texts ps).
Proof. unfold preamble_of. destruct (leading_texts ps); reflexivity. Qed.

Lemma nonblank_texts doc :
  Forall (fun t => t <> EmptyString /\ is_trimmed t)
         (Spec.trimmed <$> nonblank doc).
Proof.
  apply Forall_fmap, Forall_forall. intros p Hp.
  apply list_elem_of_filter in Hp as [Hp _]. simpl. split.
  - intros He. rewrite He in Hp. discriminate.
  - apply StripFacts.strip_idem.
Qed.

Lemma questioner_extracted :
  extract_questioner_content MoreExamples.questioner
  = Extracted MoreExamples.questioner_content.
Proof. vm_compute. reflexivity. Qed.

End ContentFacts.

Import Describe.

(** X1: in the content extracted from a document no text is lost and none
    is repeated: the raw text is the preamble followed by, for each section
    in order, the line of its title and the lines of its questions. *)
Theorem extracted_raw_text_is_preamble_and_sections q c :
  extract_questioner_content q = Extracted c ->
  raw_text c
  = default EmptyString (preamble c)
    +:+ Spec.text_lines (section_texts (sections c)).
Proof.
  intros Hq. destruct (ContentFacts.extracted_inv q c Hq) as [doc [_ ->]].
  unfold Spec.content_of. simpl.
  rewrite ContentFacts.texts_split, ExtractorFacts.text_lines_app.
  rewrite ContentFacts.preamble_text. reflexivity.
Qed.

Lemma extracted_raw_text_is_preamble_and_sections_witness :
  exists c,
    extract_questioner_content MoreExamples.questioner = Extracted c
    /\ raw_text c
       = "Welcome" +:+ nl
         +:+ Spec.text_lines
               ["Technical scope"; "Which stack?"; "TECHNICAL SCOPE";
                "Which cloud?"; "Budget"; "How much?"; "By when?"].
Proof.
  eexists. split; [reflexivity|].
  rewrite (extracted_raw_text_is_preamble_and_sections
             MoreExamples.questioner _ eq_refl).
  reflexivity.
Defined.

(** X2: every section title and every question of an extracted content
    is a non-empty string without surrounding whitespace. *)
Theorem extracted_texts_are_trimmed q c :
  extract_questioner_content q = Extracted c ->
  Forall (fun t => t <> EmptyString /\ is_trimmed t)
         (section_texts (sections c)).
Proof.
  intros Hq. destruct (ContentFacts.extracted_inv q c Hq) as [doc [_ ->]].
  pose proof (ContentFacts.nonblank_texts doc) as Hall.
  rewrite ContentFacts.texts_split in Hall.
  apply Forall_app in Hall as [_ Hall]. exact Hall.
Qed.

Lemma extracted_texts_are_trimmed_witness :
  Forall (fun t => t <> EmptyString /\ is_trimmed t)
         ["Technical scope"; "Which stack?"; "TECHNICAL SCOPE"; "Which cloud?";
          "Budget"; "How much?"; "By when?"].
Proof.
  exact (extracted_texts_are_trimmed MoreExamples.questioner _ eq_refl).
Defined.

(** ** Looking a section up *)

Module QueryFacts.
Import Docx DocumentExtractor DocumentQueries.

Lemma find_section_first l t :
  (exists pre s post,
     l = pre ++ s :: post
     /\ PyStr.lower (title s) = PyStr.lower t
     /\ Forall (fun s' => PyStr.lower (title s') <> PyStr.lower t) pre
     /\ find_section l t = questions s)
  \/ (Forall (fun s' => PyStr.lower (title s') <> PyStr.lower t) l
      /\ find_section l t = []).
Proof.
  induction l as [|s l IH]; [right; split; [constructor|reflexivity]|].
  simpl. destruct (String.eqb_spec (PyStr.lower (title s)) (PyStr.lower t))
    as [Heq|Hne].
  - left. exists [], s, l. repeat split; auto.
  - destruct IH as [[pre [s' [post [-> [Hs' [Hpre Hfind]]]]]]|[Hall Hfind]].
    + left. exists (s :: pre), s', post. repeat split; auto.
    + right. split; [constructor; assumption|exact Hfind].
Qed.

End QueryFacts.

Import DocumentQueries.

(** X3: a title that [get_all_sections] lists can be looked up with
    [get_section_questions], in any letter case: the answer is the question
    list of the first section, in document order, whose title is the same
    up to case; sections after it with such a title are never reached.  A
    title that matches no listed title up to case gives the empty list, as
    does every title when the document cannot be extracted. *)
Theorem get_section_questions_first_match q t :
  (forall t',
     In t' (get_all_sections q) -> PyStr.lower t' = PyStr.lower t ->
     exists c pre s post,
       extract_questioner_content q = Extracted c
       /\ sections c = pre ++ s :: post
       /\ PyStr.lower (title s) = PyStr.lower t
       /\ Forall (fun s' => PyStr.lower (title s') <> PyStr.lower t) pre
       /\ get_section_questions q t = questions s)
  /\ ((forall t', In t' (get_all_sections q) ->
                  PyStr.lower t' <> PyStr.lower t) ->
      get_section_questions q t = []).
Proof.
  unfold get_all_sections, get_section_questions.
  destruct (extract_questioner_content q) as [e|c]; [split; [intros t' []|reflexivity]|].
  destruct (QueryFacts.find_section_first (sections c) t)
    as [[pre [s [post [Hl [Hs [Hpre Hfind]]]]]]|[Hall Hfind]].
  - split.
    + intros t' _ _. exists c, pre, s, post. auto.
    + intros Hnone. exfalso. apply (Hnone (title s)); [|exact Hs].
      rewrite Hl. apply list_elem_of_In, list_elem_of_fmap.
      exists s. split; [reflexivity|]. apply elem_of_app. right. left.
  - split; [|intros _; exact Hfind].
    intros t' Hin Ht'. exfalso.
    apply list_elem_of_In, list_elem_of_fmap in Hin as [s [-> Hs]].
    rewrite Forall_forall in Hall. exact (Hall s Hs Ht').
Qed.

Lemma get_section_questions_first_match_witness :
  get_section_questions MoreExamples.questioner "technical SCOPE"
  = ["Which stack?"]
  /\ get_section_questions MoreExamples.questioner "Timeline" = [].
Proof.
  destruct (get_section_questions_first_match MoreExamples.questioner
              "technical SCOPE") as [Hfound _].
  destruct (get_section_questions_first_match MoreExamples.questioner
              "Timeline") as [_ Hnone].
  split.
  - destruct (Hfound "TECHNICAL SCOPE") as [c [pre [s [post H]]]];
      [simpl; tauto|reflexivity|].
    reflexivity.
  - apply Hnone. intros t' Hin. simpl in Hin.
    destruct Hin as [<-|[<-|[<-|[]]]]; discriminate.
Defined.

(** ** What the requirement bundle holds *)

Module BundleFacts.
Import DocumentExtractor Spec Describe.

Lemma sections_for_cons c s l :
  sections_for c (s :: l)
  = if decide (category_of (title s) = Some c)
    then s :: sections_for c l else sections_for c l.
Proof. unfold sections_for. rewrite filter_cons. reflexivity. Qed.

Lemma questions_for_other c s l :
  category_of (title s) <> Some c -> questions_for c (s :: l) = questions_for c l.
Proof.
  intros Hne. unfold questions_for. rewrite sections_for_cons.
  destruct (decide _); [contradiction|reflexivity].
Qed.

Lemma questions_for_same c s l :
  category_of (title s) = Some c ->
  questions_for c (s :: l) = questions s ++ questions_for c l.
Proof.
  intros He. unfold questions_for. rewrite sections_for_cons.
  destruct (decide _); [reflexivity|contradiction].
Qed.

Lemma overview_for_other start s l :
  category_of (title s) <> Some Overview ->
  overview_for start (s :: l) = overview_for start l.
Proof.
  intros Hne. unfold overview_for. rewrite sections_for_cons.
  destruct (decide _); [contradiction|reflexivity].
Qed.

Lemma overview_for_same start s l :
  category_of (title s) = Some Overview ->
  overview_for start (s :: l) = overview_for (PyStr.join nl (questions s)) l.
Proof.
  intros He. unfold overview_for. rewrite sections_for_cons.
  destruct (decide _); [|contradiction].
  rewrite last_cons. destruct (last (sections_for Overview l)); reflexivity.
Qed.

(** The loop from any bundle. *)
Lemma categorize_from l r :
  fold_left categorize l r
  = {| project_overview := overview_for (project_overview r) l;
       technical_requirements :=
         technical_requirements r ++ questions_for Technical l;
       financial_requirements :=
         financial_requirements r ++ questions_for Financial l;
       timeline_requirements :=
         timeline_requirements r ++ questions_for Timeline l;
       resource_requirements :=
         resource_requirements r ++ questions_for Resource l |}.
Proof.
  revert r. induction l as [|s l IH]; intros r.
  - destruct r. simpl. unfold questions_for, overview_for. simpl.
    rewrite !app_nil_r. reflexivity.
  - simpl fold_left. rewrite IH, ClassifierFacts.categorize_rule.
    destruct (category_of (title s)) as [[]|] eqn:Hc; simpl;
      repeat first
        [ rewrite overview_for_same by assumption
        | rewrite overview_for_other by congruence
        | rewrite questions_for_same by assumption
        | rewrite questions_for_other by congruence ];
      rewrite <- ?(assoc_L (++)); reflexivity.
Qed.

End BundleFacts.

(** X4: the requirement bundle of a section list holds, in each of the
    four lists, the questions of the sections of that category in document
    order, nothing else and nothing twice; its overview is the joined
    questions of the last overview section, the earlier ones being
    overwritten, and the empty string when there is none. *)
Theorem categorize_sections_closed_form (l : list DocumentExtractor.Section_) :
  categorize_sections l
  = {| DocumentExtractor.project_overview := overview_for EmptyString l;
       DocumentExtractor.technical_requirements := questions_for Spec.Technical l;
       DocumentExtractor.financial_requirements := questions_for Spec.Financial l;
       DocumentExtractor.timeline_requirements := questions_for Spec.Timeline l;
       DocumentExtractor.resource_requirements := questions_for Spec.Resource l |}.
Proof. unfold categorize_sections. apply BundleFacts.categorize_from. Qed.

Lemma categorize_sections_closed_form_witness :
  categorize_sections RequirementExamples.five_sections
  = {| DocumentExtractor.project_overview := "new1" +:+ nl +:+ "new2";
       DocumentExtractor.technical_requirements := ["s1"; "s2"; "a1"];
       DocumentExtractor.financial_requirements := [];
       DocumentExtractor.timeline_requirements := [];
       DocumentExtractor.resource_requirements := [] |}.
Proof. rewrite categorize_sections_closed_form. reflexivity. Defined.

(** ** The report store *)

Module TreeFacts.
Import Docx FileUtils Describe.

Lemma join_trimmed l :
  Forall (fun t => t <> EmptyString /\ is_trimmed t) l ->
  is_trimmed (PyStr.join nl l) /\ (l <> [] -> PyStr.join nl l <> EmptyString).
Proof.
  induction 1 as [|x l [Hne Hx] Hl [IHt IHn]]; [split; [reflexivity|congruence]|].
  destruct l as [|y l].
  - simpl. split; [exact Hx|intros _; exact Hne].
  - change (PyStr.join nl (x :: y :: l))
      with (x +:+ nl +:+ PyStr.join nl (y :: l)).
    split.
    + apply StripFacts.strip_between;
        [exact Hx|exact Hne|exact IHt|apply IHn; discriminate].
    + intros _. destruct x; [congruence|discriminate].
Qed.

Lemma paragraph_texts_trimmed doc :
  Forall (fun t => t <> EmptyString /\ is_trimmed t) (paragraph_texts doc).
Proof.
  induction doc as [|p doc IH]; [constructor|].
  simpl. destruct (PyStr.truthy (PyStr.strip (Docx.text p))) eqn:Hp; [|exact IH].
  constructor; [|exact IH]. split.
  - intros He. rewrite He in Hp. discriminate.
  - apply StripFacts.strip_idem.
Qed.

Lemma parent_snoc (above : Path) name : parent (above ++ [name]) = above.
Proof. apply removelast_last. Qed.

Lemma node_at_lookup (p : Path) fs : p <> [] -> node_at p fs = fs !! p.
Proof. destruct p; [congruence|reflexivity]. Qed.

Lemma node_at_insert_other (p q : Path) node fs :
  p <> q -> node_at q (<[p := node]> fs) = node_at q fs.
Proof.
  intros Hne. destruct q; [reflexivity|]. simpl. apply lookup_insert_ne, Hne.
Qed.

(** A directory made in a directory keeps the store a tree. *)
Lemma is_tree_mkdir (above : Path) name fs :
  is_tree fs ->
  node_at above fs = Some Directory ->
  fs !! (above ++ [name]) = None ->
  is_tree (<[above ++ [name] := Directory]> fs).
Proof.
  intros Htree Habove Hnone p node Hp.
  destruct (decide (above ++ [name] = p)) as [<-|Hne].
  - split; [destruct above; discriminate|]. rewrite parent_snoc.
    rewrite node_at_insert_other; [exact Habove|].
    apply StoreFacts.app_longer. discriminate.
  - rewrite lookup_insert_ne in Hp by exact Hne.
    destruct (Htree p node Hp) as [Hroot Hparent]. split; [exact Hroot|].
    rewrite node_at_insert_other; [exact Hparent|].
    intros Heq. rewrite <- Heq in Hparent.
    rewrite node_at_lookup in Hparent by (destruct above; discriminate).
    congruence.
Qed.

(** A file written in a directory, over what is not a directory, keeps
    the store a tree. *)
Lemma is_tree_save (filepath : Path) file fs :
  is_tree fs ->
  file <> Directory ->
  filepath <> [] ->
  node_at (parent filepath) fs = Some Directory ->
  fs !! filepath <> Some Directory ->
  is_tree (<[filepath := file]> fs).
Proof.
  intros Htree _ Hroot Hparent Hfile p node Hp.
  destruct (decide (filepath = p)) as [<-|Hne].
  - split; [exact Hroot|]. rewrite node_at_insert_other; [exact Hparent|].
    apply StoreFacts.not_prefix_of_parent; [exact Hroot|reflexivity].
  - rewrite lookup_insert_ne in Hp by exact Hne.
    destruct (Htree p node Hp) as [Hp0 Hpp]. split; [exact Hp0|].
    rewrite node_at_insert_other; [exact Hpp|].
    intros Heq. rewrite <- Heq in Hpp.
    rewrite node_at_lookup in Hpp by exact Hroot. congruence.
Qed.

Section WithSystem.
Variable refused : access -> Path -> option exn.

(** Making directories, with whatever outcome, keeps the store a tree. *)
Lemma is_tree_mkdir_from below : forall above fs,
  is_tree fs ->
  node_at above fs = Some Directory ->
  is_tree (mkdir_from refused above below fs).2.
Proof.
  induction below as [|name rest IH]; intros above fs Htree Habove;
    [exact Htree|].
  simpl. destruct (refused Enter (above ++ [name])); [exact Htree|].
  destruct (fs !! (above ++ [name])) as [[|doc|]|] eqn:Hn;
    try exact Htree.
  - apply IH; [exact Htree|].
    rewrite node_at_lookup by (destruct above; discriminate). exact Hn.
  - apply IH.
    + apply is_tree_mkdir; assumption.
    + rewrite node_at_lookup by (destruct above; discriminate).
      apply lookup_insert_eq.
Qed.

(** What making directories changes stands on the way. *)
Lemma mkdir_from_changes below : forall above fs q,
  (mkdir_from refused above below fs).2 !! q <> fs !! q ->
  exists mid, mid <> [] /\ mid `prefix_of` below /\ q = above ++ mid.
Proof.
  induction below as [|name rest IH]; intros above fs q Hq;
    [destruct Hq; reflexivity|].
  simpl in Hq.
  assert (forall fs1,
            (mkdir_from refused (above ++ [name]) rest fs1).2 !! q <> fs1 !! q ->
            exists mid,
              mid <> [] /\ mid `prefix_of` name :: rest /\ q = above ++ mid)
    as Hbelow.
  { intros fs1 H1. destruct (IH _ _ _ H1) as [mid [Hmid [Hpre ->]]].
    exists (name :: mid). split; [discriminate|].
    split; [apply prefix_cons, Hpre|apply StoreFacts.app_cons_middle]. }
  destruct (refused Enter (above ++ [name])); [destruct Hq; reflexivity|].
  destruct (fs !! (above ++ [name])) as [[|doc|]|] eqn:Hn;
    try (destruct Hq; reflexivity); [apply (Hbelow fs), Hq|].
  destruct (decide (above ++ [name] = q)) as [<-|Hne].
  - exists [name]. split; [discriminate|].
    split; [apply prefix_cons, prefix_nil|reflexivity].
  - apply (Hbelow (<[above ++ [name] := Directory]> fs)).
    rewrite lookup_insert_ne by exact Hne. exact Hq.
Qed.

(** After the directories of a path were made, they exist. *)
Lemma ensure_directory_made (path : Path) fs fs1 :
  ensure_directory refused path fs = (Ok tt, fs1) ->
  forall q, q `prefix_of` path -> node_at q fs1 = Some Directory.
Proof.
  intros Hdir q Hpre. destruct q as [|n q]; [reflexivity|].
  unfold ensure_directory in Hdir.
  destruct (StoreFacts.mkdir_from_ok refused path [] fs)
    as [fs2 [Hrun [Hdirs _]]].
  { intros mid Hmid Hp. eapply StoreFacts.mkdir_from_inv; eauto. }
  rewrite Hdir in Hrun. injection Hrun as <-.
  apply (Hdirs (n :: q)); [discriminate|exact Hpre].
Qed.

(** The store [create_docx_report] leaves: the one after the directories
    were made, or that one with a file written at the path of the report,
    which was no directory. *)
Lemma create_docx_report_store content filepath title fs :
  let made := (ensure_directory refused (parent filepath) fs).2 in
  (create_docx_report refused content filepath title fs).2 = made
  \/ (exists file,
        file <> Directory
        /\ (ensure_directory refused (parent filepath) fs).1 = Ok tt
        /\ node_at filepath made <> Some Directory
        /\ (create_docx_report refused content filepath title fs).2
           = <[filepath := file]> made).
Proof.
  intros made. subst made.
  unfold create_docx_report, mbind, io_bind, pure_io.
  destruct (ensure_directory refused (parent filepath) fs)
    as [[[]|e|b] fs1]; [|left; reflexivity|left; reflexivity].
  unfold add_heading, add_paragraph, set_text, mbind, result_bind.
  destruct (xml_compatible title); [|left; reflexivity].
  destruct (xml_compatible content); [|left; reflexivity].
  unfold save. simpl fst. simpl snd.
  destruct (refused Write filepath); [left; reflexivity|].
  destruct (node_at filepath fs1) as [[|doc|]|] eqn:Hn;
    [left; reflexivity| | |];
    (destruct (refused Fill filepath);
     right; eexists; (split; [|split; [reflexivity|split; [|reflexivity]]]);
     congruence).
Qed.

End WithSystem.
End TreeFacts.

Import FileUtils.

(** X6: a store that is a tree stays one through [create_docx_report],
    whether the call returns or raises.  The call removes nothing and
    changes only what stands at the path of the report: at every other
    path there stands after it what stood before, or, where nothing stood
    on the way to the report, a directory.  When the call has returned,
    every directory on the way to the report exists. *)
Theorem create_docx_report_keeps_tree (refused : access -> Path -> option exn)
    (content : string) (filepath : Path) (title : string) (fs : FileSystem) :
  let after := (create_docx_report refused content filepath title fs).2 in
  (is_tree fs -> is_tree after)
  /\ (forall q,
        q <> filepath ->
        after !! q = fs !! q
        \/ (fs !! q = None
            /\ after !! q = Some Directory
            /\ q `prefix_of` parent filepath))
  /\ ((create_docx_report refused content filepath title fs).1 = Ok tt ->
      forall q, q `prefix_of` parent filepath ->
        node_at q after = Some Directory).
Proof.
  intros after.
  pose proof (TreeFacts.create_docx_report_store refused content filepath
                title fs) as Hstore.
  cbv zeta in Hstore. fold after in Hstore.
  set (made := (ensure_directory refused (parent filepath) fs).2) in *.
  assert (forall q, q <> filepath -> after !! q = made !! q) as Hother.
  { intros q Hq. destruct Hstore as [->|[file [_ [_ [_ ->]]]]];
      [reflexivity|]. apply lookup_insert_ne. congruence. }
  split; [|split].
  - intros Htree.
    assert (is_tree made) as Hmade
      by (apply TreeFacts.is_tree_mkdir_from; [exact Htree|reflexivity]).
    destruct Hstore as [->|[file [Hfile [Hdir [Hn ->]]]]]; [exact Hmade|].
    assert (filepath <> []) as Hne by (intros ->; apply Hn; reflexivity).
    apply TreeFacts.is_tree_save; try assumption.
    + subst made.
      destruct (ensure_directory refused (parent filepath) fs) as [r fs1] eqn:Hrun.
      simpl in Hdir. subst r.
      apply (TreeFacts.ensure_directory_made _ _ _ _ Hrun). reflexivity.
    + rewrite <- TreeFacts.node_at_lookup by exact Hne. exact Hn.
  - intros q Hq. rewrite (Hother q Hq).
    destruct (StoreFacts.mkdir_from_adds refused (parent filepath) [] fs q)
      as [Hsame|[Hnone Hdir]]; [left; exact Hsame|].
    right. split; [exact Hnone|]. split; [exact Hdir|].
    destruct (TreeFacts.mkdir_from_changes refused (parent filepath) [] fs q)
      as [mid [_ [Hpre ->]]]; [|exact Hpre].
    rewrite Hdir, Hnone. discriminate.
  - intros Hok q Hpre.
    destruct (create_docx_report refused content filepath title fs)
      as [r fs'] eqn:Hrun.
    simpl in Hok. subst r. simpl in after. subst after.
    destruct (StoreFacts.create_docx_report_inv _ _ _ _ _ _ Hrun)
      as [fs1 [Hdir [_ [_ [_ [Hn [_ ->]]]]]]].
    assert (filepath <> []) as Hne by (intros ->; apply Hn; reflexivity).
    rewrite TreeFacts.node_at_insert_other;
      [apply (TreeFacts.ensure_directory_made _ _ _ _ Hdir), Hpre|].
    apply StoreFacts.not_prefix_of_parent; assumption.
Qed.

Lemma create_docx_report_keeps_tree_witness :
  is_tree MoreExamples.one_report
  /\ node_at [Examples.reports; Examples.openai] MoreExamples.one_report
     = Some Directory.
Proof.
  destruct (create_docx_report_keeps_tree Examples.willing "first"
              Examples.openai_technical "Report" Examples.empty_store)
    as [Htree [_ Hdirs]].
  split.
  - apply Htree. intros p node Hp. unfold Examples.empty_store in Hp.
    rewrite lookup_empty in Hp. discriminate.
  - apply Hdirs; [vm_compute; reflexivity|].
    exists []. reflexivity.
Defined.

(** X7: the text [docx_to_text] returns never begins or ends with
    whitespace, whatever the document holds; when the system lets the path
    be looked at, for a path at which nothing stands it is the empty
    string, and for a path at which a document stands that the system lets
    be read it is the trimmed texts of its paragraphs that are not blank,
    joined by newlines. *)
Theorem docx_to_text_is_trimmed (refused : access -> Path -> option exn)
    (filepath : Path) (fs : FileSystem) :
  (forall text, docx_to_text refused filepath fs = Ok text -> is_trimmed text)
  /\ (refused Look filepath = None ->
      node_at filepath fs = None ->
      docx_to_text refused filepath fs = Ok EmptyString)
  /\ (forall doc,
        refused Look filepath = None ->
        refused Read filepath = None ->
        node_at filepath fs = Some (DocxFile doc) ->
        docx_to_text refused filepath fs
        = Ok (PyStr.join nl (paragraph_texts doc))).
Proof.
  unfold docx_to_text, exists_, open_document.
  split; [|split].
  - intros text. destruct (refused Look filepath); [discriminate|].
    simpl. destruct (bool_decide _); simpl; [|intros [= <-]; reflexivity].
    destruct (refused Read filepath); [discriminate|].
    destruct (node_at filepath fs) as [[|doc|]|]; try discriminate.
    simpl. intros [= <-].
    apply TreeFacts.join_trimmed, TreeFacts.paragraph_texts_trimmed.
  - intros -> ->.
    rewrite bool_decide_eq_false_2 by (intros [x Hx]; discriminate).
    reflexivity.
  - intros doc -> -> ->.
    rewrite bool_decide_eq_true_2 by eauto. reflexivity.
Qed.

Lemma docx_to_text_is_trimmed_witness :
  docx_to_text Examples.willing Examples.openai_technical Examples.empty_store
  = Ok EmptyString
  /\ docx_to_text Examples.willing Examples.openai_technical
       MoreExamples.one_report
     = Ok ("Report" +:+ nl +:+ "first")
  /\ is_trimmed ("Report" +:+ nl +:+ "first").
Proof.
  destruct (docx_to_text_is_trimmed Examples.willing Examples.openai_technical
              Examples.empty_store) as [_ [Habsent _]].
  destruct (docx_to_text_is_trimmed Examples.willing Examples.openai_technical
              MoreExamples.one_report) as [Htrim _].
  split; [apply Habsent; reflexivity|].
  assert (docx_to_text Examples.willing Examples.openai_technical
            MoreExamples.one_report
          = Ok ("Report" +:+ nl +:+ "first")) as Hread
    by (vm_compute; reflexivity).
  split; [exact Hread|]. apply Htrim, Hread.
Defined.

(** ** More on the reply parser *)

Module ReplyFacts.
Import PyStr PyStrFacts.

Lemma startswith_split p u r :
  startswith p (u +:+ r) = true ->
  startswith p u = true
  \/ exists v, p = u +:+ v /\ v <> EmptyString /\ startswith v r = true.
Proof.
  revert p. induction u as [|c u IH]; intros p Hp.
  - destruct p as [|d p]; [left; reflexivity|right].
    exists (String d p). split; [reflexivity|]. split; [discriminate|exact Hp].
  - destruct p as [|d p]; [left; reflexivity|].
    rewrite app_cons in Hp. simpl in Hp |- *.
    destruct (Ascii.eqb d c) eqn:E; [|discriminate].
    apply Ascii.eqb_eq in E. subst d.
    destruct (IH p Hp) as [Hu|[v [-> [Hv Hr]]]]; [left; exact Hu|right].
    exists v. rewrite app_cons. auto.
Qed.

Lemma startswith_short v p b :
  (String.length v <= String.length p)%nat ->
  startswith v (p +:+ b) = startswith v p.
Proof.
  revert p. induction v as [|c v IH]; intros p Hlen; [reflexivity|].
  destruct p as [|d p]; [simpl in Hlen; lia|].
  rewrite app_cons. simpl. destruct (Ascii.eqb c d); [|reflexivity].
  apply IH. simpl in Hlen. lia.
Qed.

(** A separator no proper end of which is a beginning of it cannot lie
    across the place where a text and the separator meet. *)
Lemma no_straddle sep u b :
  (forall k, (0 < k < String.length sep)%nat ->
             startswith (drop k sep) sep = false) ->
  u <> EmptyString ->
  startswith sep (u +:+ sep +:+ b) = true -> startswith sep u = true.
Proof.
  intros Hborder Hu Hs.
  destruct (startswith_split _ _ _ Hs) as [Hin|[v [Hsep [Hv Hr]]]]; [exact Hin|].
  exfalso.
  assert (String.length sep = String.length u + String.length v)%nat as Hlen
    by (rewrite Hsep at 1; apply length_app).
  rewrite startswith_short in Hr by lia.
  assert (drop (String.length u) sep = v) as Hdrop
    by (rewrite Hsep at 1; apply drop_app).
  rewrite <- Hdrop, Hborder in Hr; [discriminate|].
  destruct u; [congruence|]. destruct v; [congruence|]. simpl in *. lia.
Qed.

Lemma drop_app_le i a b :
  (i <= String.length a)%nat -> drop i (a +:+ b) = drop i a +:+ b.
Proof.
  revert a. induction i as [|i IH]; intros a Hi; [reflexivity|].
  destruct a as [|c a]; [simpl in Hi; lia|].
  rewrite app_cons. simpl. apply IH. simpl in Hi. lia.
Qed.

Lemma drop_nonempty i a : (i < String.length a)%nat -> drop i a <> EmptyString.
Proof.
  revert a. induction i as [|i IH]; intros [|c a] Hi; simpl in *;
    try lia; [discriminate|]. apply IH. lia.
Qed.

Lemma startswith_drop_contains p i s :
  startswith p (drop i s) = true -> contains p s = true.
Proof.
  revert s. induction i as [|i IH]; intros s Hp.
  - destruct s; simpl in *; rewrite Hp; reflexivity.
  - destruct s as [|c s]; [simpl in *; rewrite Hp; reflexivity|].
    simpl. rewrite (IH s Hp). apply orb_true_r.
Qed.

(** The text before a separator that holds no separator is what the cut
    finds. *)
Lemma partition_free sep t b :
  (forall k, (0 < k < String.length sep)%nat ->
             startswith (drop k sep) sep = false) ->
  contains sep t = false ->
  partition sep (t +:+ sep +:+ b) = Some (t, b).
Proof.
  intros Hborder Ht. apply partition_leftmost. intros i Hi.
  rewrite drop_app_le by lia.
  destruct (startswith sep (drop i t +:+ sep +:+ b)) eqn:Hs; [|reflexivity].
  apply no_straddle in Hs; [|exact Hborder|apply drop_nonempty, Hi].
  apply startswith_drop_contains in Hs. congruence.
Qed.

(** The text before the cut holds no separator. *)
Lemma partition_before_free sep s a b :
  sep <> EmptyString -> partition sep s = Some (a, b) ->
  contains sep a = false.
Proof.
  intros Hsep Hp. destruct (contains sep a) eqn:Hc; [|reflexivity].
  apply contains_iff in Hc as [x [y Ha]].
  pose proof (partition_Some _ _ _ _ Hp) as Hs.
  pose proof (partition_first _ _ _ _ Hp (String.length x)) as Hfirst.
  subst s a. rewrite !app_assoc, drop_app, startswith_app in Hfirst.
  rewrite !length_app in Hfirst.
  destruct sep; [congruence|]. simpl in Hfirst.
  assert (true = false) by (apply Hfirst; lia). discriminate.
Qed.

Lemma up_to_free sep s : sep <> EmptyString -> contains sep (Spec.up_to sep s) = false.
Proof.
  intros Hsep. unfold Spec.up_to.
  destruct (partition sep s) as [[a b]|] eqn:Hp; simpl.
  - eapply partition_before_free; eauto.
  - apply partition_None, Hp.
Qed.

Lemma replace_absent old new s : contains old s = false -> replace old new s = s.
Proof.
  intros Hc. apply partition_None in Hc. unfold replace.
  destruct (String.length s); simpl; [reflexivity|]. rewrite Hc. reflexivity.
Qed.

Lemma financial_border k :
  (0 < k < String.length "FINANCIAL ANALYSIS:")%nat ->
  startswith (drop k "FINANCIAL ANALYSIS:") "FINANCIAL ANALYSIS:" = false.
Proof.
  intros Hk. simpl in Hk.
  do 19 (destruct k as [|k]; [first [lia|reflexivity]|]). lia.
Qed.

End ReplyFacts.

(** X8: a reply made of a technical text, the separator
    FINANCIAL ANALYSIS: and a financial text, neither text holding the
    separator and the technical one without the words TECHNICAL ANALYSIS:,
    is parsed back into the two texts, each trimmed. *)
Theorem parse_model_response_round_trip (t f : string) :
  PyStr.contains "FINANCIAL ANALYSIS:" t = false ->
  PyStr.contains "FINANCIAL ANALYSIS:" f = false ->
  PyStr.contains "TECHNICAL ANALYSIS:" t = false ->
  _parse_model_response (t +:+ "FINANCIAL ANALYSIS:" +:+ f)
  = {| technical := PyStr.strip t; financial := PyStr.strip f |}.
Proof.
  intros Ht Hf Htech.
  rewrite (parse_with_separator _ t f)
    by (apply ReplyFacts.partition_free;
        [exact ReplyFacts.financial_border|exact Ht]).
  rewrite (ReplyFacts.replace_absent _ _ _ Htech), (up_to_absent _ _ Hf).
  reflexivity.
Qed.

Lemma parse_model_response_round_trip_witness :
  _parse_model_response
    ("Use a queue. " +:+ "FINANCIAL ANALYSIS:" +:+ " It costs 5.")
  = {| technical := "Use a queue."; financial := "It costs 5." |}.
Proof.
  rewrite parse_model_response_round_trip; reflexivity.
Defined.

(** X9: for every reply the financial text the parser returns holds no
    separator FINANCIAL ANALYSIS: and has no surrounding whitespace. *)
Theorem parse_model_response_financial_clean (response : string) :
  PyStr.contains "FINANCIAL ANALYSIS:"
    (financial (_parse_model_response response)) = false
  /\ is_trimmed (financial (_parse_model_response response)).
Proof.
  destruct (PyStr.partition "FINANCIAL ANALYSIS:" response) as [[a b]|] eqn:Hp.
  - rewrite (parse_with_separator _ _ _ Hp). simpl. split.
    + destruct (PyStr.contains _ (PyStr.strip _)) eqn:Hc; [|reflexivity].
      apply StripFacts.contains_strip in Hc.
      rewrite ReplyFacts.up_to_free in Hc by discriminate. discriminate.
    + apply StripFacts.strip_idem.
  - apply PyStrFacts.partition_None in Hp.
    rewrite (parse_without_separator _ Hp). split; reflexivity.
Qed.

(** ** More on the rate table *)

Module RateFacts.
Import PyStr PyStrFacts CostCalculator Spec Describe.

Lemma rev_app_chars f a b :
  all_chars f (String.rev_app a b) = all_chars f a && all_chars f b.
Proof.
  revert b. induction a as [|c a IH]; intros b; [reflexivity|].
  simpl. rewrite IH. simpl. destruct (f c), (all_chars f a); reflexivity.
Qed.

Lemma rev_app_truthy a b :
  truthy (String.rev_app a b) = truthy a || truthy b.
Proof.
  revert b. induction a as [|c a IH]; intros b; [reflexivity|].
  simpl. rewrite IH. simpl. apply orb_true_r.
Qed.

Lemma rev_token acc : is_token acc = true -> is_token (String.rev acc) = true.
Proof.
  unfold is_token, String.rev. rewrite rev_app_chars, rev_app_truthy.
  simpl. rewrite orb_false_r, andb_true_r. trivial.
Qed.

Lemma rev_app_rev_app a b c :
  String.rev_app (String.rev_app a b) c = String.rev_app b (a +:+ c).
Proof.
  revert b c. induction a as [|x a IH]; intros b c; [reflexivity|].
  simpl. rewrite IH. reflexivity.
Qed.

Lemma rev_rev_app x : String.rev (String.rev_app x EmptyString) = x.
Proof.
  unfold String.rev. rewrite rev_app_rev_app. simpl. apply app_empty_r.
Qed.

(** Every string [split] without argument returns is a token. *)
Lemma split_ws_go_tokens s cur :
  (forall acc, cur = Some acc -> is_token acc = true) ->
  Forall (fun t => is_token t = true) (split_ws_go cur s).
Proof.
  revert cur. induction s as [|c s IH]; intros cur Hcur; simpl.
  - destruct cur as [acc|]; simpl; [|constructor].
    constructor; [apply rev_token, Hcur; reflexivity|constructor].
  - destruct (isspace c) eqn:Hc.
    + apply Forall_app. split; [|apply IH; discriminate].
      destruct cur as [acc|]; simpl; [|constructor].
      constructor; [apply rev_token, Hcur; reflexivity|constructor].
    + apply IH. intros acc [= <-]. unfold is_token. simpl.
      unfold nonspace at 1. rewrite Hc. simpl.
      destruct cur as [acc|]; simpl; [|reflexivity].
      specialize (Hcur acc eq_refl). unfold is_token in Hcur.
      apply andb_true_iff in Hcur as [_ Hcur]. exact Hcur.
Qed.

Lemma split_ws_tokens s : Forall (fun t => is_token t = true) (split_ws s).
Proof. apply split_ws_go_tokens. discriminate. Qed.

(** Reading the characters of a token. *)
Lemma split_ws_go_chars x acc s :
  all_chars nonspace x = true ->
  split_ws_go (Some acc) (x +:+ s)
  = split_ws_go (Some (String.rev_app x acc)) s.
Proof.
  revert acc. induction x as [|c x IH]; intros acc Hx; [reflexivity|].
  simpl in Hx. apply andb_true_iff in Hx as [Hc Hx].
  rewrite app_cons. simpl. unfold nonspace in Hc.
  destruct (isspace c); [discriminate|]. simpl. apply IH, Hx.
Qed.

Lemma split_ws_go_token x s :
  is_token x = true ->
  split_ws_go None (x +:+ s)
  = split_ws_go (Some (String.rev_app x EmptyString)) s.
Proof.
  unfold is_token. destruct x as [|c x]; [discriminate|].
  intros Hx. simpl in Hx. apply andb_true_iff in Hx as [Hc Hx].
  rewrite app_cons. simpl. unfold nonspace in Hc.
  destruct (isspace c); [discriminate|]. simpl. apply split_ws_go_chars, Hx.
Qed.

(** Tokens joined by single spaces split into the same tokens. *)
Lemma split_ws_join l :
  Forall (fun t => is_token t = true) l -> split_ws (join " " l) = l.
Proof.
  induction 1 as [|x l Hx Hl IH]; [reflexivity|].
  destruct l as [|y l].
  - simpl. unfold split_ws. rewrite <- (app_empty_r x) at 1.
    rewrite (split_ws_go_token _ _ Hx). simpl. rewrite rev_rev_app. reflexivity.
  - change (join " " (x :: y :: l)) with (x +:+ " " +:+ join " " (y :: l)).
    unfold split_ws. rewrite (split_ws_go_token _ _ Hx).
    change (" " +:+ join " " (y :: l)) with (String " " (join " " (y :: l))).
    simpl split_ws_go. rewrite rev_rev_app. simpl. f_equal. exact IH.
Qed.

Lemma Forall_removelast {A} (P : A -> Prop) (l : list A) :
  Forall P l -> Forall P (removelast l).
Proof.
  induction 1 as [|x l Hx Hl IH]; [constructor|].
  simpl. destruct l; [constructor|]. constructor; assumption.
Qed.

Section WithNumbers.
Context `{PyNum num}.

(** The role of an entry is made of tokens joined by single spaces. *)
Lemma classify_entry_role line role (rate : num) :
  classify line = Entry role rate ->
  role <> EmptyString /\ join " " (split_ws role) = role.
Proof.
  unfold classify. destruct (length (split_ws line) <? 2)%nat eqn:Hlen;
    [discriminate|].
  destruct (last (split_ws line) ≫= parse_float); [|discriminate].
  intros [= <- _].
  pose proof (Forall_removelast _ _ (split_ws_tokens line)) as Htok.
  rewrite (split_ws_join _ Htok). split; [|reflexivity].
  apply Nat.ltb_ge in Hlen. pose proof (split_ws_tokens line) as Hall.
  destruct (split_ws line) as [|t1 [|t2 ts]]; simpl in Hlen; try lia.
  apply Forall_cons in Hall as [Ht1 _].
  change (removelast (t1 :: t2 :: ts)) with (t1 :: removelast (t2 :: ts)).
  destruct t1; [discriminate Ht1|].
  simpl. destruct ts; discriminate.
Qed.

Lemma entries_read_roles lines role (rate : num) :
  In (role, rate) (entries_read lines) ->
  role <> EmptyString /\ join " " (split_ws role) = role.
Proof.
  induction lines as [|line rest IH]; [intros []|].
  simpl. destruct (classify line) as [|r x|] eqn:Hc; [exact IH| |intros []].
  intros [[= -> ->]|Hin]; [eapply classify_entry_role; eauto|exact (IH Hin)].
Qed.

Lemma last_rate_some role (entries : list (string * num)) rate :
  last_rate role entries = Some rate -> In (role, rate) entries.
Proof.
  unfold last_rate. destruct (last _) as [[r x]|] eqn:Hl; [|discriminate].
  simpl. intros [= ->]. apply last_Some_elem_of in Hl.
  apply list_elem_of_filter in Hl as [Hr Hin]. simpl in Hr. subst r.
  apply list_elem_of_In, Hin.
Qed.


Lemma default_rates_non_empty : (Config.ENGINEERING_ROLES : gmap string num) <> ∅.
Proof.
  unfold Config.ENGINEERING_ROLES. rewrite list_to_map_cons.
  apply insert_non_empty.
Qed.

End WithNumbers.
End RateFacts.

(** X10: the table [load_hourly_rates] returns is never empty, whatever
    stands at the path of the rate file. *)
Theorem load_hourly_rates_never_empty `{PyNum num} (pays : rate_file)
    (rates : gmap string num) :
  load_hourly_rates pays = Ok rates -> rates <> ∅.
Proof.
  intros Hload. apply CostFacts.load_hourly_rates_inv in Hload. subst rates.
  unfold Spec.table_of. destruct (dict_is_empty _) eqn:He.
  - apply RateFacts.default_rates_non_empty.
  - intros Hempty. apply CostFacts.dict_is_empty_true in Hempty. congruence.
Qed.

Lemma load_hourly_rates_never_empty_witness :
  ({[ "Data Engineer" := PyFloat.of_Z 9 ]} : gmap string PyFloat.t) <> ∅.
Proof.
  apply (load_hourly_rates_never_empty MoreExamples.one_rate).
  vm_compute. reflexivity.
Defined.



(** X12: every role of a table [load_hourly_rates] returns is a
    non-empty sequence of words joined by single spaces: the spacing of the
    rate file is not kept.  So a role written with other spacing is unknown
    to [calculate_task_cost]. *)
Theorem loaded_roles_are_normalised `{PyNum num} (pays : rate_file)
    (rates : gmap string num) (role : string) :
  load_hourly_rates pays = Ok rates ->
  (is_Some (rates !! role) ->
   role <> EmptyString /\ PyStr.join " " (PyStr.split_ws role) = role)
  /\ (PyStr.join " " (PyStr.split_ws role) <> role ->
      forall hours : num,
      exists item,
        calculate_task_cost pays role hours = Ok item
        /\ error item
           = Some ("Role '" +:+ role +:+ "' not found in hourly rates")).
Proof.
  intros Hload.
  assert (is_Some (rates !! role) ->
          role <> EmptyString /\ PyStr.join " " (PyStr.split_ws role) = role)
    as Hnorm.
  { rewrite (CostFacts.load_hourly_rates_inv _ _ Hload).
    unfold Spec.table_of. destruct (dict_is_empty _) eqn:He.
    - unfold Config.ENGINEERING_ROLES.
      rewrite !list_to_map_cons, list_to_map_nil, !lookup_insert, lookup_empty.
      repeat case_decide; subst; intros [x Hx]; try discriminate;
        (split; [discriminate|vm_compute; reflexivity]).
    - rewrite CostFacts.lookup_entries, lookup_empty.
      destruct (Spec.last_rate role _) as [rate|] eqn:Hl;
        [|intros [x Hx]; discriminate].
      intros _. apply RateFacts.last_rate_some in Hl.
      eapply RateFacts.entries_read_roles, Hl. }
  split; [exact Hnorm|].
  intros Hrole hours. unfold calculate_task_cost. rewrite Hload. simpl.
  destruct (rates !! role) as [rate|] eqn:Hr;
    [|eexists; split; reflexivity].
  destruct Hnorm as [_ Hn]; [eauto|]. contradiction.
Qed.

Lemma loaded_roles_are_normalised_witness :
  load_hourly_rates MoreExamples.one_rate
  = Ok ({[ "Data Engineer" := PyFloat.of_Z 9 ]} : gmap string PyFloat.t)
  /\ exists item,
       calculate_task_cost MoreExamples.one_rate "Data   Engineer"
         (PyFloat.of_Z 1)
       = Ok item
       /\ error item = Some "Role 'Data   Engineer' not found in hourly rates".
Proof.
  assert (load_hourly_rates MoreExamples.one_rate
          = Ok ({[ "Data Engineer" := PyFloat.of_Z 9 ]}
                : gmap string PyFloat.t)) as Hload
    by (vm_compute; reflexivity).
  split; [exact Hload|].
  destruct (loaded_roles_are_normalised MoreExamples.one_rate _
              "Data   Engineer" Hload) as [_ Hmiss].
  apply Hmiss. vm_compute. discriminate.
Defined.

(** X13: [calculate_project_cost] returns a summary for the empty task
    list only, and then with totals 0 and an empty breakdown: for every
    other task list, whatever the tasks and the rate file, it raises
    NameError and prices nothing. *)
Theorem calculate_project_cost_returns_iff_empty `{PyNum num}
    (pays : rate_file) (tasks : list (Task num)) :
  ((exists summary, calculate_project_cost pays tasks = Ok summary)
   <-> tasks = [])
  /\ (tasks <> [] ->
      calculate_project_cost pays tasks = Raise (NameError "tasksummary"))
  /\ (forall summary,
        calculate_project_cost pays tasks = Ok summary ->
        project_total_cost summary = of_int 0
        /\ project_total_hours summary = of_int 0
        /\ breakdown summary = []).
Proof.
  destruct tasks as [|task tasks].
  - split; [split; [reflexivity|intros _; eexists; reflexivity]|].
    split; [congruence|]. intros summary [= <-]. auto.
  - rewrite calculate_project_cost_nonempty.
    split; [split; [intros [s Hs]; discriminate|discriminate]|].
    split; [reflexivity|discriminate].
Qed.

(** ** More on the hour estimate *)

(** X14: for one role, a description of the simple tier gets fewer hours
    than one of the medium tier, and that one fewer than one of the
    complex tier. *)
Theorem estimate_hours_grows_with_tier (simple medium complex role : string) :
  complexity simple = "simple" ->
  complexity medium = "medium" ->
  complexity complex = "complex" ->
  estimate_hours_from_description simple role
  < estimate_hours_from_description medium role
  /\ estimate_hours_from_description medium role
     < estimate_hours_from_description complex role.
Proof.
  intros Hs Hm Hc. unfold estimate_hours_from_description, dict_get.
  rewrite Hs, Hm, Hc. unfold task_estimates.
  pose proof (EstimateFacts.role_type_values role) as Hr. simpl in Hr.
  destruct Hr as [<-|[<-|[<-|[<-|[<-|[]]]]]];
    EstimateFacts.literal_lookup; simpl; EstimateFacts.literal_lookup;
    simpl; lia.
Qed.

Lemma estimate_hours_grows_with_tier_witness :
  estimate_hours_from_description "a quick fix" "Testing Engineer"
  < estimate_hours_from_description "a fix" "Testing Engineer"
  /\ estimate_hours_from_description "a fix" "Testing Engineer"
     < estimate_hours_from_description "an advanced fix" "Testing Engineer".
Proof.
  apply estimate_hours_grows_with_tier; reflexivity.
Defined.

(** ** The conversation and the persona *)

Module ConversationFacts.
Import PyStr PyStrFacts DocumentExtractor Conversation.

Lemma contains_refl s : contains s s = true.
Proof.
  apply contains_iff. exists EmptyString, EmptyString.
  rewrite app_empty_r. reflexivity.
Qed.

Lemma contains_app_l sub a b : contains sub a = true -> contains sub (a +:+ b) = true.
Proof.
  rewrite !contains_iff. intros [x [y ->]]. exists x, (y +:+ b).
  rewrite !app_assoc. reflexivity.
Qed.

Lemma contains_app_r sub a b : contains sub b = true -> contains sub (a +:+ b) = true.
Proof.
  rewrite !contains_iff. intros [x [y ->]]. exists (a +:+ x), y.
  rewrite !app_assoc. reflexivity.
Qed.

Lemma contains_join sep x l : In x l -> contains x (join sep l) = true.
Proof.
  induction l as [|y l IH]; [intros []|].
  intros Hin. destruct l as [|z l].
  - destruct Hin as [->|[]]. apply contains_refl.
  - change (join sep (y :: z :: l)) with (y +:+ sep +:+ join sep (z :: l)).
    destruct Hin as [->|Hin].
    + apply contains_app_l, contains_refl.
    + apply contains_app_r, contains_app_r, IH, Hin.
Qed.

Lemma numbered_titles_lookup l k i s :
  l !! i = Some s ->
  In (PyStrMore.str_of_nat (k + i + 1) +:+ ". " +:+ title s)
     (numbered_titles k l).
Proof.
  revert k i. induction l as [|s' l IH]; intros k i Hs; [discriminate|].
  destruct i as [|i]; simpl in *.
  - injection Hs as ->. left. rewrite Nat.add_0_r. reflexivity.
  - right. replace (k + S i + 1)%nat with (S k + i + 1)%nat by lia.
    apply IH, Hs.
Qed.

End ConversationFacts.

Import Conversation.

(** X15: when the questioner document cannot be extracted,
    [start_conversation] answers with the text Error: followed by the
    message of the extraction and consults no agent: the answer is the same
    for every delegate and the world is left as it was.  Otherwise it
    returns what the chat agent does on a context that holds the user's
    message and, for each section in order, its number, counted from 1, and
    its title; an exception of the agent is not caught. *)
Theorem start_conversation_cases (World : Type)
    (on_messages : string -> string -> IO World string)
    (questioner : Docx.docx_file) (user_message : string) (w : World) :
  (forall e,
     extract_questioner_content questioner = ExtractionError e ->
     start_conversation World on_messages questioner user_message w
     = (Ok ("Error: " +:+ e), w))
  /\ (forall c,
        extract_questioner_content questioner = Extracted c ->
        start_conversation World on_messages questioner user_message w
        = on_messages "chat_agent"
            (conversation_context (sections c) user_message) w
        /\ PyStr.contains ("User Message: " +:+ user_message)
             (conversation_context (sections c) user_message) = true
        /\ forall i s,
             sections c !! i = Some s ->
             PyStr.contains
               (PyStrMore.str_of_nat (i + 1) +:+ ". " +:+ title s)
               (conversation_context (sections c) user_message) = true).
Proof.
  unfold start_conversation. split.
  - intros e ->. reflexivity.
  - intros c ->. split; [reflexivity|]. unfold conversation_context. split.
    + do 6 apply ConversationFacts.contains_app_r.
      rewrite <- PyStrFacts.app_assoc.
      apply ConversationFacts.contains_app_l, ConversationFacts.contains_refl.
    + intros i s Hs. do 3 apply ConversationFacts.contains_app_r.
      apply ConversationFacts.contains_app_l, ConversationFacts.contains_join.
      exact (ConversationFacts.numbered_titles_lookup _ 0 i s Hs).
Qed.

Lemma start_conversation_cases_witness :
  start_conversation unit MoreExamples.echo Docx.NoDocument "hello" tt
  = (Ok "Error: Questioner document not found", tt)
  /\ PyStr.contains
       (PyStrMore.str_of_nat (2 + 1) +:+ ". " +:+ "Budget")
       (conversation_context (sections MoreExamples.questioner_content)
          "hello") = true.
Proof.
  destruct (start_conversation_cases unit MoreExamples.echo Docx.NoDocument
              "hello" tt) as [Herr _].
  destruct (start_conversation_cases unit MoreExamples.echo
              MoreExamples.questioner "hello" tt) as [_ Hok].
  split; [apply Herr; reflexivity|].
  destruct (Hok _ ContentFacts.questioner_extracted) as [_ [_ Htitles]].
  apply (Htitles 2%nat {| title := "Budget";
                          questions := ["How much?"; "By when?"] |}).
  reflexivity.
Defined.

Import ConsultorLoader.



(** ** The summary of the questioner *)

Module SummaryFacts.
Import PyStr PyStrFacts DocumentExtractor DocumentQueries ConversationFacts.

(** The two lines every section gets in the summary. *)
Lemma summary_step_lines summary i s :
  exists rest,
    summary_step summary i s
    = summary
      +:+ (PyStrMore.str_of_nat i +:+ ". " +:+ title s +:+ nl
           +:+ "   Questions: "
           +:+ PyStrMore.str_of_nat (length (questions s)) +:+ nl)
      +:+ rest.
Proof.
  unfold summary_step. destruct (questions s) as [|q qs] eqn:Hq.
  - exists nl. rewrite !app_assoc. reflexivity.
  - eexists. rewrite !app_assoc. reflexivity.
Qed.

Lemma summary_loop_start summary k l :
  exists rest, summary_loop summary k l = summary +:+ rest.
Proof.
  revert summary k. induction l as [|s l IH]; intros summary k.
  - exists EmptyString. rewrite app_empty_r. reflexivity.
  - simpl. destruct (IH (summary_step summary k s) (S k)) as [rest ->].
    destruct (summary_step_lines summary k s) as [rest' ->].
    eexists. rewrite !app_assoc. reflexivity.
Qed.

Lemma summary_loop_lines summary k l i s :
  l !! i = Some s ->
  contains
    (PyStrMore.str_of_nat (k + i) +:+ ". " +:+ title s +:+ nl
     +:+ "   Questions: " +:+ PyStrMore.str_of_nat (length (questions s)) +:+ nl)
    (summary_loop summary k l) = true.
Proof.
  revert summary k i. induction l as [|s' l IH]; intros summary k i Hs;
    [discriminate|].
  destruct i as [|i]; simpl in Hs |- *.
  - injection Hs as ->. rewrite Nat.add_0_r.
    destruct (summary_loop_start (summary_step summary k s) (S k) l) as [r ->].
    destruct (summary_step_lines summary k s) as [r' ->].
    apply contains_app_l, contains_app_r, contains_app_l, contains_refl.
  - replace (k + S i)%nat with (S k + i)%nat by lia. apply IH, Hs.
Qed.

End SummaryFacts.

(** X17: the summary of an extracted questioner holds, for every section,
    a line with its number in the document, counted from 1, and its title,
    followed by the line with the number of its questions; when the
    document cannot be extracted the summary is a fixed error line that
    does not say why. *)
Theorem get_questioner_summary_lists_sections (questioner : Docx.docx_file) :
  (forall c i s,
     extract_questioner_content questioner = Extracted c ->
     sections c !! i = Some s ->
     PyStr.contains
       (PyStrMore.str_of_nat (i + 1) +:+ ". " +:+ title s +:+ nl
        +:+ "   Questions: "
        +:+ PyStrMore.str_of_nat (length (questions s)) +:+ nl)
       (get_questioner_summary questioner) = true)
  /\ (forall e,
        extract_questioner_content questioner = ExtractionError e ->
        get_questioner_summary questioner
        = "Error: Could not extract questioner content").
Proof.
  unfold get_questioner_summary. split.
  - intros c i s -> Hs. replace (i + 1)%nat with (1 + i)%nat by lia.
    apply SummaryFacts.summary_loop_lines, Hs.
  - intros e ->. reflexivity.
Qed.

Lemma get_questioner_summary_lists_sections_witness :
  PyStr.contains
    (PyStrMore.str_of_nat (2 + 1) +:+ ". " +:+ "Budget" +:+ nl
     +:+ "   Questions: " +:+ PyStrMore.str_of_nat 2 +:+ nl)
    (get_questioner_summary MoreExamples.questioner) = true.
Proof.
  destruct (get_questioner_summary_lists_sections MoreExamples.questioner)
    as [Hlines _].
  apply (Hlines _ 2%nat {| title := "Budget";
                           questions := ["How much?"; "By when?"] |}
           ContentFacts.questioner_extracted).
  reflexivity.
Defined.
